(** * vectorSim: the flight dynamics model and the pilot-eye camera

    A shallow embedding of [flight-simulator.py]: the class [Aircraft]
    (its constructor and [update]), the input handling and the camera part
    of [FlightSimulator.render], followed by the properties of the
    specification that concern them.

    Number model.  Python's [float] values are read as real numbers: every
    arithmetic operation is the exact one, [math.sin], [math.cos] and
    [math.pi] are the real sine, cosine and pi.  Rounding, infinities and
    NaN are outside this model.  [np.random.random()] is an explicit
    argument [rnd] of [update], a draw from the half-open interval
    from 0 to 1. *)

From Stdlib Require Import Reals Lra Lia ZArith List Bool.
From Stdlib Require String.
Import ListNotations.
Open Scope R_scope.

(** ** Python's numeric built-ins *)

Module Py.

(** [max(a, b)]: the first argument unless the second is strictly larger. *)
Definition max (a b : R) : R := if Rlt_dec a b then b else a.

(** [min(a, b)]: the first argument unless the second is strictly smaller. *)
Definition min (a b : R) : R := if Rlt_dec b a then b else a.

(** [abs(a)]. *)
Definition abs (a : R) : R := Rabs a.

(** [a % m] on floats: the remainder that has the sign of [m]. *)
Definition mod_ (a m : R) : R := a - m * IZR (Int_part (a / m)).

(** [math.radians(d)]. *)
Definition radians (d : R) : R := d * (PI / 180).

(** [a / b] and [a % b] raise [ZeroDivisionError] when [b] is zero. *)
Definition div_exc (a b : R) : option R :=
  if Req_dec_T b 0 then None else Some (a / b).

Definition mod_exc (a b : R) : option R :=
  if Req_dec_T b 0 then None else Some (mod_ a b).

End Py.

(** ** Module-level constants *)

Definition CESSNA_MAX_SPEED : R := 140.
Definition CESSNA_CRUISE_SPEED : R := 122.
Definition CESSNA_STALL_SPEED : R := 50.
Definition CESSNA_CLIMB_RATE : R := 700.
Definition CESSNA_DESCENT_RATE : R := -500.
Definition CESSNA_ROLL_RATE : R := 60.
Definition CESSNA_PITCH_RATE : R := 25.
Definition CESSNA_YAW_RATE : R := 20.
Definition KIND_ELEVATION : R := 797.
Definition FEET_TO_METERS : R := 0.3048.
Definition KNOTS_TO_MPS : R := 0.51444.

(** ** class Aircraft *)

Module Aircraft.

Record t : Type := mk {
  x : R;
  y : R;
  z : R;
  pitch : R;
  roll : R;
  heading : R;
  airspeed : R;
  vertical_speed : R;
  throttle : R;
  elevator : R;
  aileron : R;
  rudder : R;
  flaps : Z;
  rpm : R;
  fuel : R;
  gear_down : bool
}.

(** Attribute assignment [self.f = v], one function per attribute. *)
Definition set_x (v : R) (s : t) : t :=
  mk v (y s) (z s) (pitch s) (roll s) (heading s) (airspeed s)
     (vertical_speed s) (throttle s) (elevator s) (aileron s) (rudder s)
     (flaps s) (rpm s) (fuel s) (gear_down s).
Definition set_y (v : R) (s : t) : t :=
  mk (x s) v (z s) (pitch s) (roll s) (heading s) (airspeed s)
     (vertical_speed s) (throttle s) (elevator s) (aileron s) (rudder s)
     (flaps s) (rpm s) (fuel s) (gear_down s).
Definition set_z (v : R) (s : t) : t :=
  mk (x s) (y s) v (pitch s) (roll s) (heading s) (airspeed s)
     (vertical_speed s) (throttle s) (elevator s) (aileron s) (rudder s)
     (flaps s) (rpm s) (fuel s) (gear_down s).
Definition set_pitch (v : R) (s : t) : t :=
  mk (x s) (y s) (z s) v (roll s) (heading s) (airspeed s)
     (vertical_speed s) (throttle s) (elevator s) (aileron s) (rudder s)
     (flaps s) (rpm s) (fuel s) (gear_down s).
Definition set_roll (v : R) (s : t) : t :=
  mk (x s) (y s) (z s) (pitch s) v (heading s) (airspeed s)
     (vertical_speed s) (throttle s) (elevator s) (aileron s) (rudder s)
     (flaps s) (rpm s) (fuel s) (gear_down s).
Definition set_heading (v : R) (s : t) : t :=
  mk (x s) (y s) (z s) (pitch s) (roll s) v (airspeed s)
     (vertical_speed s) (throttle s) (elevator s) (aileron s) (rudder s)
     (flaps s) (rpm s) (fuel s) (gear_down s).
Definition set_airspeed (v : R) (s : t) : t :=
  mk (x s) (y s) (z s) (pitch s) (roll s) (heading s) v
     (vertical_speed s) (throttle s) (elevator s) (aileron s) (rudder s)
     (flaps s) (rpm s) (fuel s) (gear_down s).
Definition set_vertical_speed (v : R) (s : t) : t :=
  mk (x s) (y s) (z s) (pitch s) (roll s) (heading s) (airspeed s)
     v (throttle s) (elevator s) (aileron s) (rudder s)
     (flaps s) (rpm s) (fuel s) (gear_down s).
Definition set_throttle (v : R) (s : t) : t :=
  mk (x s) (y s) (z s) (pitch s) (roll s) (heading s) (airspeed s)
     (vertical_speed s) v (elevator s) (aileron s) (rudder s)
     (flaps s) (rpm s) (fuel s) (gear_down s).
Definition set_elevator (v : R) (s : t) : t :=
  mk (x s) (y s) (z s) (pitch s) (roll s) (heading s) (airspeed s)
     (vertical_speed s) (throttle s) v (aileron s) (rudder s)
     (flaps s) (rpm s) (fuel s) (gear_down s).
Definition set_aileron (v : R) (s : t) : t :=
  mk (x s) (y s) (z s) (pitch s) (roll s) (heading s) (airspeed s)
     (vertical_speed s) (throttle s) (elevator s) v (rudder s)
     (flaps s) (rpm s) (fuel s) (gear_down s).
Definition set_rudder (v : R) (s : t) : t :=
  mk (x s) (y s) (z s) (pitch s) (roll s) (heading s) (airspeed s)
     (vertical_speed s) (throttle s) (elevator s) (aileron s) v
     (flaps s) (rpm s) (fuel s) (gear_down s).
Definition set_flaps (v : Z) (s : t) : t :=
  mk (x s) (y s) (z s) (pitch s) (roll s) (heading s) (airspeed s)
     (vertical_speed s) (throttle s) (elevator s) (aileron s) (rudder s)
     v (rpm s) (fuel s) (gear_down s).
Definition set_rpm (v : R) (s : t) : t :=
  mk (x s) (y s) (z s) (pitch s) (roll s) (heading s) (airspeed s)
     (vertical_speed s) (throttle s) (elevator s) (aileron s) (rudder s)
     (flaps s) v (fuel s) (gear_down s).
Definition set_fuel (v : R) (s : t) : t :=
  mk (x s) (y s) (z s) (pitch s) (roll s) (heading s) (airspeed s)
     (vertical_speed s) (throttle s) (elevator s) (aileron s) (rudder s)
     (flaps s) (rpm s) v (gear_down s).
Definition set_gear_down (v : bool) (s : t) : t :=
  mk (x s) (y s) (z s) (pitch s) (roll s) (heading s) (airspeed s)
     (vertical_speed s) (throttle s) (elevator s) (aileron s) (rudder s)
     (flaps s) (rpm s) (fuel s) v.

(** [Aircraft.__init__]. *)
Definition __init__ : t :=
  {| x := 0; y := KIND_ELEVATION * FEET_TO_METERS; z := 0;
     pitch := 0; roll := 0; heading := 0;
     airspeed := 0; vertical_speed := 0;
     throttle := 0; elevator := 0; aileron := 0; rudder := 0; flaps := 0%Z;
     rpm := 0; fuel := 100; gear_down := true |}.

(** *** [Aircraft.update], statement group by statement group *)

(** "Update position": the three velocity components and the Euler step. *)
Definition integrate_position (dt : R) (s : t) : t :=
  let heading_rad := Py.radians (heading s) in
  let pitch_rad := Py.radians (pitch s) in
  let dx := airspeed s * sin heading_rad * cos pitch_rad in
  let dy := airspeed s * sin pitch_rad in
  let dz := airspeed s * cos heading_rad * cos pitch_rad in
  set_z (z s + dz * dt) (set_y (y s + dy * dt) (set_x (x s + dx * dt) s)).

(** "Ground collision check". *)
Definition ground_collision (s : t) : t :=
  if Rlt_dec (y s) (KIND_ELEVATION * FEET_TO_METERS) then
    let s1 := set_y (KIND_ELEVATION * FEET_TO_METERS) s in
    let s2 := set_vertical_speed 0 s1 in
    set_pitch (Py.max 0 (pitch s2)) s2
  else s.

(** "Apply control inputs". *)
Definition apply_controls (dt : R) (s : t) : t :=
  let s1 := set_roll (roll s + aileron s * CESSNA_ROLL_RATE * dt) s in
  let s2 := set_pitch (pitch s1 + elevator s1 * CESSNA_PITCH_RATE * dt) s1 in
  set_heading (heading s2 + rudder s2 * CESSNA_YAW_RATE * dt) s2.

(** "Apply banking effect on heading". *)
Definition banking_effect (dt : R) (s : t) : t :=
  set_heading (heading s + sin (Py.radians (roll s)) * dt * 10) s.

(** "Normalize heading to 0-360". *)
Definition normalize_heading (s : t) : t :=
  set_heading (Py.mod_ (heading s) 360) s.

(** "Limit pitch and roll". *)
Definition limit_attitude (s : t) : t :=
  let s1 := set_pitch (Py.max (-30) (Py.min 30 (pitch s))) s in
  set_roll (Py.max (-60) (Py.min 60 (roll s1))) s1.

(** "Apply throttle". *)
Definition apply_throttle (dt : R) (s : t) : t :=
  let target_airspeed := throttle s * CESSNA_MAX_SPEED * KNOTS_TO_MPS in
  let airspeed_diff := target_airspeed - airspeed s in
  set_airspeed (airspeed s + airspeed_diff * dt * 0.5) s.

(** "Update RPM based on throttle". *)
Definition update_rpm (dt : R) (s : t) : t :=
  let target_rpm := 500 + throttle s * 2300 in
  let rpm_diff := target_rpm - rpm s in
  set_rpm (rpm s + rpm_diff * dt * 2) s.

(** The target vertical speed of "Update vertical speed based on pitch and
    airspeed". *)
Definition target_vs (s : t) : R :=
  if Rlt_dec 0 (pitch s) then
    let pitch_factor := pitch s / 10 in
    let speed_factor :=
      Py.min 1 (airspeed s / (CESSNA_CRUISE_SPEED * KNOTS_TO_MPS)) in
    CESSNA_CLIMB_RATE * FEET_TO_METERS / 60 * pitch_factor * speed_factor
  else if Rlt_dec (pitch s) 0 then
    let pitch_factor := Py.abs (pitch s) / 10 in
    CESSNA_DESCENT_RATE * FEET_TO_METERS / 60 * pitch_factor
  else 0.

(** "Smoothly adjust vertical speed". *)
Definition adjust_vertical_speed (dt : R) (s : t) : t :=
  let vs_diff := target_vs s - vertical_speed s in
  set_vertical_speed (vertical_speed s + vs_diff * dt * 0.5) s.

(** "Fuel consumption". *)
Definition fuel_consumption (dt : R) (s : t) : t :=
  let s1 := set_fuel (fuel s - throttle s * dt * 0.05) s in
  set_fuel (Py.max 0 (fuel s1)) s1.

(** "If fuel is empty, reduce engine power". *)
Definition fuel_empty (dt : R) (s : t) : t :=
  if Rle_dec (fuel s) 0 then set_rpm (Py.max 0 (rpm s - 500 * dt)) s else s.

(** "Natural tendency to level out". *)
Definition level_out (s : t) : t :=
  if Rlt_dec (Py.abs (aileron s)) 0.1 then set_roll (roll s * 0.95) s else s.

(** The two tests of "Stall behavior". *)
Definition stalled (s : t) : Prop :=
  airspeed s < CESSNA_STALL_SPEED * KNOTS_TO_MPS * 0.9.

Definition stalled_dec (s : t) : {stalled s} + {~ stalled s} :=
  Rlt_dec (airspeed s) (CESSNA_STALL_SPEED * KNOTS_TO_MPS * 0.9).

(** "Stall behavior"; [rnd] is the value of [np.random.random()]. *)
Definition stall_behavior (dt rnd : R) (s : t) : t :=
  if stalled_dec s then
    let s1 := set_vertical_speed (vertical_speed s - 9.8 * dt) s in
    if Rlt_dec (Py.abs (roll s1)) 5 then
      set_roll (roll s1 + (rnd - 0.5) * 10 * dt) s1
    else s1
  else s.

(** The state between the ground check and the control inputs, and the
    state the stall test reads. *)
Definition after_ground (dt : R) (s : t) : t :=
  ground_collision (integrate_position dt s).

Definition before_stall (dt : R) (s : t) : t :=
  level_out
    (fuel_empty dt
      (fuel_consumption dt
        (adjust_vertical_speed dt
          (update_rpm dt
            (apply_throttle dt
              (limit_attitude
                (normalize_heading
                  (banking_effect dt
                    (apply_controls dt (after_ground dt s)))))))))).

(** [Aircraft.update(dt)]. *)
Definition update (dt rnd : R) (s : t) : t :=
  stall_behavior dt rnd (before_stall dt s).

End Aircraft.

(** ** numpy: 3-vectors and 3x3 matrices, and the [@] product *)

Module Np.

Definition vec3 : Type := (R * R * R)%type.
Definition mat3 : Type := (vec3 * vec3 * vec3)%type.

Definition dot (a b : vec3) : R :=
  let '(a0, a1, a2) := a in
  let '(b0, b1, b2) := b in
  a0 * b0 + a1 * b1 + a2 * b2.

Definition col (m : mat3) (j : nat) : vec3 :=
  let '(r0, r1, r2) := m in
  let pick (r : vec3) : R :=
    let '(c0, c1, c2) := r in
    match j with O => c0 | S O => c1 | _ => c2 end in
  (pick r0, pick r1, pick r2).

(** [m @ v]. *)
Definition matvec (m : mat3) (v : vec3) : vec3 :=
  let '(r0, r1, r2) := m in (dot r0 v, dot r1 v, dot r2 v).

(** [a @ b]. *)
Definition matmul (a b : mat3) : mat3 :=
  let '(r0, r1, r2) := a in
  let row (r : vec3) : vec3 :=
    (dot r (col b 0), dot r (col b 1), dot r (col b 2)) in
  (row r0, row r1, row r2).

(** [np.eye(3)]. *)
Definition identity3 : mat3 := ((1, 0, 0), (0, 1, 0), (0, 0, 1)).

End Np.

(** ** class FlightSimulator: input handling and the camera *)

Module FlightSimulator.

(** The attributes that are not handles of the graphics library. *)
Record t : Type := mk {
  aircraft : Aircraft.t;
  running : bool;
  paused : bool;
  eye_offset : Np.vec3;
  mouse_sensitivity : R
}.

Definition set_aircraft (a : Aircraft.t) (g : t) : t :=
  mk a (running g) (paused g) (eye_offset g) (mouse_sensitivity g).
Definition set_running (b : bool) (g : t) : t :=
  mk (aircraft g) b (paused g) (eye_offset g) (mouse_sensitivity g).
Definition set_paused (b : bool) (g : t) : t :=
  mk (aircraft g) (running g) b (eye_offset g) (mouse_sensitivity g).

(** [FlightSimulator.__init__]: a fresh aircraft, then "Start the aircraft
    positioned on the runway". *)
Definition __init__ : t :=
  {| aircraft :=
       Aircraft.set_heading 230
         (Aircraft.set_z 0 (Aircraft.set_x 500 Aircraft.__init__));
     running := true;
     paused := false;
     eye_offset := (0, 0.1, -0.3);
     mouse_sensitivity := 0.1 |}.

(** The keys and events of pygame that [handle_input] looks at. *)
Inductive key : Type :=
  | K_ESCAPE | K_p | K_g | K_f | K_r
  | K_EQUALS | K_PLUS | K_MINUS | K_z | K_x
  | K_UP | K_DOWN | K_LEFT | K_RIGHT
  | K_other.

Inductive event : Type :=
  | QUIT
  | KEYDOWN (k : key)
  | MOUSEMOTION (rel : Z * Z)
  | other_event.

(** The body of the loop over [pygame.event.get()]. *)
Definition handle_event (g : t) (e : event) : t :=
  match e with
  | QUIT => set_running false g
  | KEYDOWN K_ESCAPE => set_running false g
  | KEYDOWN K_p => set_paused (negb (paused g)) g
  | KEYDOWN K_g =>
      set_aircraft
        (Aircraft.set_gear_down (negb (Aircraft.gear_down (aircraft g)))
           (aircraft g)) g
  | KEYDOWN K_f =>
      set_aircraft
        (Aircraft.set_flaps ((Aircraft.flaps (aircraft g) + 1) mod 4)%Z
           (aircraft g)) g
  | KEYDOWN K_r => __init__
  | KEYDOWN _ => g
  | MOUSEMOTION (dx, dy) =>
      if negb (paused g) then
        let a1 :=
          Aircraft.set_elevator (- IZR dy * mouse_sensitivity g / 10)
            (aircraft g) in
        let a2 :=
          Aircraft.set_aileron (IZR dx * mouse_sensitivity g / 10) a1 in
        set_aircraft a2 g
      else g
  | other_event => g
  end.

(** "Continuous key inputs"; [keys] is [pygame.key.get_pressed()]. *)
Definition throttle_keys (keys : key -> bool) (a : Aircraft.t) : Aircraft.t :=
  let a1 :=
    if keys K_EQUALS || keys K_PLUS then
      Aircraft.set_throttle (Py.min 1 (Aircraft.throttle a + 0.01)) a
    else a in
  if keys K_MINUS then
    Aircraft.set_throttle (Py.max 0 (Aircraft.throttle a1 - 0.01)) a1
  else a1.

Definition rudder_keys (keys : key -> bool) (a : Aircraft.t) : Aircraft.t :=
  if keys K_z then Aircraft.set_rudder (-1) a
  else if keys K_x then Aircraft.set_rudder 1 a
  else Aircraft.set_rudder 0 a.

Definition elevator_keys (keys : key -> bool) (a : Aircraft.t) : Aircraft.t :=
  if keys K_UP then Aircraft.set_elevator 1 a
  else if keys K_DOWN then Aircraft.set_elevator (-1) a
  else if Rlt_dec (Py.abs (Aircraft.elevator a)) 0.1
       then Aircraft.set_elevator 0 a
       else a.

Definition aileron_keys (keys : key -> bool) (a : Aircraft.t) : Aircraft.t :=
  if keys K_LEFT then Aircraft.set_aileron (-1) a
  else if keys K_RIGHT then Aircraft.set_aileron 1 a
  else if Rlt_dec (Py.abs (Aircraft.aileron a)) 0.1
       then Aircraft.set_aileron 0 a
       else a.

(** [FlightSimulator.handle_input]: the queued events in order, then the
    pressed keys. *)
Definition handle_input (events : list event) (keys : key -> bool) (g : t)
  : t :=
  let g1 := fold_left handle_event events g in
  set_aircraft
    (aileron_keys keys
      (elevator_keys keys
        (rudder_keys keys
          (throttle_keys keys (aircraft g1))))) g1.

(** The camera part of [FlightSimulator.render]. *)
Definition R_heading (heading_rad : R) : Np.mat3 :=
  let c_h := cos heading_rad in
  let s_h := sin heading_rad in
  ((c_h, 0, - s_h),
   (0, 1, 0),
   (s_h, 0, c_h)).

Definition R_pitch (pitch_rad : R) : Np.mat3 :=
  let c_p := cos pitch_rad in
  let s_p := sin pitch_rad in
  ((1, 0, 0),
   (0, c_p, s_p),
   (0, - s_p, c_p)).

Definition R_roll (roll_rad : R) : Np.mat3 :=
  let c_r := cos roll_rad in
  let s_r := sin roll_rad in
  ((c_r, s_r, 0),
   (- s_r, c_r, 0),
   (0, 0, 1)).

(** "Combine rotations: first heading, then pitch, then roll". *)
Definition camera_rotation (a : Aircraft.t) : Np.mat3 :=
  let heading_rad := Py.radians (Aircraft.heading a) in
  let pitch_rad := Py.radians (Aircraft.pitch a) in
  let roll_rad := Py.radians (Aircraft.roll a) in
  Np.matmul (Np.matmul (R_roll roll_rad) (R_pitch pitch_rad))
            (R_heading heading_rad).

(** [(eye_x, eye_y, eye_z)]. *)
Definition camera_eye (g : t) : Np.vec3 :=
  let a := aircraft g in
  let '(eye_pos0, eye_pos1, eye_pos2) :=
    Np.matvec (camera_rotation a) (eye_offset g) in
  (Aircraft.x a + eye_pos0, Aircraft.y a + eye_pos1, Aircraft.z a + eye_pos2).

End FlightSimulator.

(** ** [Aircraft.update] with Python's exceptions

    Over the reals the operations of [update] that can raise are the
    divisions and the modulo ([ZeroDivisionError]).  [Exc.update] is the
    same statement sequence with those operations checked; [None] stands
    for a raised exception. *)

Module Exc.

Import Aircraft.

Definition bind {A B : Type} (m : option A) (f : A -> option B) : option B :=
  match m with
  | Some a => f a
  | None => None
  end.

Notation "v <- m ;; k" := (bind m (fun v => k))
  (at level 61, m at next level, right associativity).

Definition normalize_heading (s : t) : option t :=
  h <- Py.mod_exc (heading s) 360 ;;
  Some (set_heading h s).

Definition target_vs (s : t) : option R :=
  if Rlt_dec 0 (pitch s) then
    pitch_factor <- Py.div_exc (pitch s) 10 ;;
    ratio <- Py.div_exc (airspeed s) (CESSNA_CRUISE_SPEED * KNOTS_TO_MPS) ;;
    climb <- Py.div_exc (CESSNA_CLIMB_RATE * FEET_TO_METERS) 60 ;;
    Some (climb * pitch_factor * Py.min 1 ratio)
  else if Rlt_dec (pitch s) 0 then
    pitch_factor <- Py.div_exc (Py.abs (pitch s)) 10 ;;
    descent <- Py.div_exc (CESSNA_DESCENT_RATE * FEET_TO_METERS) 60 ;;
    Some (descent * pitch_factor)
  else Some 0.

Definition adjust_vertical_speed (dt : R) (s : t) : option t :=
  tv <- target_vs s ;;
  let vs_diff := tv - vertical_speed s in
  Some (set_vertical_speed (vertical_speed s + vs_diff * dt * 0.5) s).

Definition update (dt rnd : R) (s : t) : option t :=
  s1 <- normalize_heading
          (banking_effect dt (apply_controls dt (after_ground dt s))) ;;
  s2 <- adjust_vertical_speed dt
          (update_rpm dt (apply_throttle dt (limit_attitude s1))) ;;
  Some (stall_behavior dt rnd
          (level_out (fuel_empty dt (fuel_consumption dt s2)))).

End Exc.

(** ** Runs of the simulator

    The main loop is not part of the code at hand.  A run is any sequence
    of calls of [handle_input] and of [Aircraft.update] on the simulator's
    aircraft, starting from a freshly constructed simulator. *)

Module Sim.

Inductive call : Type :=
  | HandleInput (events : list FlightSimulator.event)
                (keys : FlightSimulator.key -> bool)
  | Update (dt rnd : R).

Definition step (g : FlightSimulator.t) (c : call) : FlightSimulator.t :=
  match c with
  | HandleInput events keys => FlightSimulator.handle_input events keys g
  | Update dt rnd =>
      FlightSimulator.set_aircraft
        (Aircraft.update dt rnd (FlightSimulator.aircraft g)) g
  end.

Definition run (cs : list call) (g : FlightSimulator.t) : FlightSimulator.t :=
  fold_left step cs g.

(** Every [update] of the run has a positive time step no larger than
    [bound], and every random draw lies in the range of
    [np.random.random()]. *)
Definition call_ok (bound : option R) (c : call) : Prop :=
  match c with
  | HandleInput _ _ => True
  | Update dt rnd =>
      0 < dt /\ 0 <= rnd < 1 /\
      match bound with Some b => dt <= b | None => True end
  end.

(** [Aircraft.update] alone, repeated, one pair (dt, rnd) per call. *)
Definition updates (steps : list (R * R)) (s : Aircraft.t) : Aircraft.t :=
  fold_left (fun a p => Aircraft.update (fst p) (snd p) a) steps s.

(** The same step [n] times, the draws given by [rnd]. *)
Fixpoint ticks (n : nat) (dt : R) (rnd : nat -> R) (s : Aircraft.t)
  : Aircraft.t :=
  match n with
  | O => s
  | S k => Aircraft.update dt (rnd k) (ticks k dt rnd s)
  end.

End Sim.

(** ** Notions used by the properties *)

Module Notions.

Import Aircraft.

(** The ranges of the data model. *)
Definition in_range (s : t) : Prop :=
  -30 <= pitch s <= 30 /\
  -60 <= roll s <= 60 /\
  0 <= heading s < 360 /\
  0 <= throttle s <= 1 /\
  0 <= fuel s <= 100 /\
  0 <= airspeed s.

(** The position integration brings the altitude below the ground
    elevation: the test of the ground collision check succeeds. *)
Definition hits_ground (dt : R) (s : t) : Prop :=
  y (integrate_position dt s) < KIND_ELEVATION * FEET_TO_METERS.

(** What one call adds to the heading before the wrap to 0-360: the rudder
    term and the banking term. *)
Definition heading_increment (dt : R) (s : t) : R :=
  rudder s * CESSNA_YAW_RATE * dt +
  sin (Py.radians (roll s + aileron s * CESSNA_ROLL_RATE * dt)) * dt * 10.

(** The airspeed that a held throttle aims at. *)
Definition target_airspeed (s : t) : R :=
  throttle s * CESSNA_MAX_SPEED * KNOTS_TO_MPS.

(** The three axis statements of "Continuous key inputs", in order. *)
Definition axis_keys (keys : FlightSimulator.key -> bool) (b : t) : t :=
  FlightSimulator.aileron_keys keys
    (FlightSimulator.elevator_keys keys
      (FlightSimulator.rudder_keys keys b)).

(** Two states that agree on every attribute but [vertical_speed]. *)
Definition same_but_vs (s1 s2 : t) : Prop :=
  set_vertical_speed 0 s1 = set_vertical_speed 0 s2.

(** The extra descent of the stall branch during one call. *)
Definition stall_sink (dt : R) (s : t) : R :=
  if stalled_dec s then 9.8 * dt else 0.

(** Two simulators that agree on everything but the [vertical_speed] of
    their aircraft. *)
Definition same_sim (g1 g2 : FlightSimulator.t) : Prop :=
  FlightSimulator.set_aircraft
    (set_vertical_speed 0 (FlightSimulator.aircraft g1)) g1 =
  FlightSimulator.set_aircraft
    (set_vertical_speed 0 (FlightSimulator.aircraft g2)) g2.

(** The position triple. *)
Definition position (s : t) : R * R * R := (x s, y s, z s).

End Notions.

(** ** Concrete states and runs *)

Module Cases.

Import FlightSimulator.

Definition no_keys : key -> bool := fun _ => false.
Definition plus_key : key -> bool :=
  fun k => match k with K_PLUS => true | _ => false end.
Definition minus_key : key -> bool :=
  fun k => match k with K_MINUS => true | _ => false end.

(** Throttle up one notch, fly one second, throttle back to idle, then one
    update with a time step of four seconds. *)
Definition long_step_run : list Sim.call :=
  [ Sim.HandleInput [] plus_key; Sim.Update 1 0.5;
    Sim.HandleInput [] minus_key; Sim.Update 4 0.5 ].

(** On the runway, slow, nose down by 30 degrees. *)
Definition nose_down : Aircraft.t :=
  Aircraft.set_airspeed 10 (Aircraft.set_pitch (-30) Aircraft.__init__).

(** The same with the elevator pushed fully forward. *)
Definition nose_down_pushing : Aircraft.t :=
  Aircraft.set_elevator (-1) nose_down.

(** Tanks empty, throttle fully open, engine at 2000 RPM. *)
Definition dry_tanks : Aircraft.t :=
  Aircraft.set_rpm 2000
    (Aircraft.set_fuel 0 (Aircraft.set_throttle 1 Aircraft.__init__)).

(** Throttle held at 0.8 from standstill. *)
Definition throttle_080 : Aircraft.t :=
  Aircraft.set_throttle 0.8 Aircraft.__init__.

(** Heading 359 with full right rudder, wings level. *)
Definition heading_359 : Aircraft.t :=
  Aircraft.set_rudder 1 (Aircraft.set_heading 359 Aircraft.__init__).

(** In the air at 60 m/s with the throttle fully open. *)
Definition cruising : Aircraft.t :=
  Aircraft.set_airspeed 60
    (Aircraft.set_y 1000 (Aircraft.set_throttle 1 Aircraft.__init__)).

(** A fast upward flick of the mouse: 200 pixels in one motion event. *)
Definition mouse_flick : list event := [ MOUSEMOTION (0, -200)%Z ].

End Cases.

(** ** More of Python's built-ins: [int], list indexing, [range] *)

Module Builtins.

(** [int(x)] on a float: truncation towards zero. *)
Definition int_ (x : R) : Z :=
  if Rle_dec 0 x then Int_part x else (- Int_part (- x))%Z.

(** [l[i]]: a negative index counts from the end; [None] stands for
    [IndexError]. *)
Definition getitem {A : Type} (l : list A) (i : Z) : option A :=
  let n := Z.of_nat (List.length l) in
  if (0 <=? i)%Z then
    if (i <? n)%Z then nth_error l (Z.to_nat i) else None
  else
    if (- n <=? i)%Z then nth_error l (Z.to_nat (n + i)) else None.

(** [range(start, stop, step)] for a positive [step], the only kind this
    program uses. *)
Definition range (start stop step : Z) : list Z :=
  map (fun k => (start + step * Z.of_nat k)%Z)
      (seq 0 (Z.to_nat ((stop - start + step - 1) / step))).

End Builtins.

(** ** [FlightSimulator.update_2d_overlay]: what the HUD shows *)

Module Hud.

Import String.

(** The value formatted into each text of the HUD.  For the numeric texts
    this is the integer inside the f-string; [stall_text] tells whether the
    stall warning is drawn. *)
Record readings : Type := mk {
  speed_text : Z;
  alt_feet : Z;
  hdg_text : Z;
  vs_fpm : Z;
  roll_text : Z;
  pitch_text : Z;
  rpm_text : Z;
  fuel_text : Z;
  throttle_text : Z;
  stall_text : bool;
  gear_text : String.string;
  flaps_text : String.string
}.

Definition flaps_positions : list String.string :=
  ["0°"; "10°"; "20°"; "30°"]%string.

(** [update_2d_overlay]; [None] stands for the [IndexError] of the flaps
    lookup. *)
Definition update_2d_overlay (g : FlightSimulator.t) : option readings :=
  let a := FlightSimulator.aircraft g in
  match Builtins.getitem flaps_positions (Aircraft.flaps a) with
  | None => None
  | Some label =>
      Some
        {| speed_text := Builtins.int_ (Aircraft.airspeed a / KNOTS_TO_MPS);
           alt_feet := Builtins.int_ (Aircraft.y a / FEET_TO_METERS);
           hdg_text := Builtins.int_ (Aircraft.heading a);
           vs_fpm :=
             Builtins.int_ (Aircraft.vertical_speed a / FEET_TO_METERS * 60);
           roll_text := Builtins.int_ (Aircraft.roll a);
           pitch_text := Builtins.int_ (Aircraft.pitch a);
           rpm_text := Builtins.int_ (Aircraft.rpm a);
           fuel_text := Builtins.int_ (Aircraft.fuel a);
           throttle_text := Builtins.int_ (Aircraft.throttle a * 100);
           stall_text :=
             if Rlt_dec (Aircraft.airspeed a)
                        (CESSNA_STALL_SPEED * KNOTS_TO_MPS * 1.1)
             then true else false;
           gear_text :=
             if Aircraft.gear_down a then "GEAR: DOWN"%string
             else "GEAR: UP"%string;
           flaps_text := label |}
  end.

End Hud.

(** ** [FlightSimulator.draw_instrument_circle] and the runway and terrain
    of [FlightSimulator.create_world]

    The calls of [glVertex3f] are modelled by the list of the vertices
    they emit, in order; the colours set by [glColor3f] are left out. *)

Module Scene.

(** One pass of the loop of [draw_instrument_circle]: the two ends of
    segment [i]. *)
Definition circle_segment (x y z radius : R) (segments i : nat)
  : list Np.vec3 :=
  let angle1 := 2 * PI * INR i / INR segments in
  let angle2 := 2 * PI * INR (i + 1) / INR segments in
  [ (x + radius * cos angle1, y, z + radius * sin angle1);
    (x + radius * cos angle2, y, z + radius * sin angle2) ].

Definition draw_instrument_circle (x y z radius : R) : list Np.vec3 :=
  let segments := 20%nat in
  flat_map (circle_segment x y z radius segments) (seq 0 segments).

(** The lengths of [create_world]. *)
Definition runway_length : R := 5000 * FEET_TO_METERS.
Definition runway_width : R := 100 * FEET_TO_METERS.
Definition dash_length : R := 50 * FEET_TO_METERS.
Definition dash_width : R := 2 * FEET_TO_METERS.

(** "Runway surface". *)
Definition runway_surface : list Np.vec3 :=
  [ (- runway_width / 2, KIND_ELEVATION * FEET_TO_METERS + 0.1, 0);
    (runway_width / 2, KIND_ELEVATION * FEET_TO_METERS + 0.1, 0);
    (runway_width / 2, KIND_ELEVATION * FEET_TO_METERS + 0.1,
     - runway_length);
    (- runway_width / 2, KIND_ELEVATION * FEET_TO_METERS + 0.1,
     - runway_length) ].

(** "Draw dashed centerline": the quad of the dash that starts at [i]. *)
Definition centerline_dash (i : Z) : list Np.vec3 :=
  [ (- dash_width / 2, KIND_ELEVATION * FEET_TO_METERS + 0.2, - IZR i);
    (dash_width / 2, KIND_ELEVATION * FEET_TO_METERS + 0.2, - IZR i);
    (dash_width / 2, KIND_ELEVATION * FEET_TO_METERS + 0.2,
     - (IZR i + dash_length));
    (- dash_width / 2, KIND_ELEVATION * FEET_TO_METERS + 0.2,
     - (IZR i + dash_length)) ].

Definition centerline : list Np.vec3 :=
  flat_map centerline_dash
    (Builtins.range 0 (Builtins.int_ runway_length)
       (Builtins.int_ (dash_length * 2))).

(** "Draw threshold marks": the quad of the mark that starts at [i]. *)
Definition threshold_mark (i : Z) : list Np.vec3 :=
  [ (IZR i, KIND_ELEVATION * FEET_TO_METERS + 0.2, -100 * FEET_TO_METERS);
    (IZR i + dash_width, KIND_ELEVATION * FEET_TO_METERS + 0.2,
     -100 * FEET_TO_METERS);
    (IZR i + dash_width, KIND_ELEVATION * FEET_TO_METERS + 0.2,
     -200 * FEET_TO_METERS);
    (IZR i, KIND_ELEVATION * FEET_TO_METERS + 0.2, -200 * FEET_TO_METERS) ].

Definition threshold_marks : list Np.vec3 :=
  flat_map threshold_mark
    (Builtins.range (- Builtins.int_ (runway_width / 2))
       (Builtins.int_ (runway_width / 2))
       (Builtins.int_ (dash_width * 2))).

(** "Create terrain": the body of the double loop for the cell whose
    corner is [(x, z)]; [r1] to [r4] are the four values of
    [np.random.random()] drawn for it. *)
Definition terrain_size : Z := 20000.
Definition grid_size : Z := 1000.

Definition terrain_heights (x z : Z) (r1 r2 r3 r4 : R) : R * R * R * R :=
  let h1 := r1 * 10 - 5 in
  let h2 := r2 * 10 - 5 in
  let h3 := r3 * 10 - 5 in
  let h4 := r4 * 10 - 5 in
  let dist_to_airport := sqrt (IZR (x * x + z * z)) in
  if Rlt_dec dist_to_airport 2000 then (0, 0, 0, 0) else (h1, h2, h3, h4).

Definition terrain_cell (x z : Z) (r1 r2 r3 r4 : R) : list Np.vec3 :=
  let '(h1, h2, h3, h4) := terrain_heights x z r1 r2 r3 r4 in
  [ (IZR x, KIND_ELEVATION * FEET_TO_METERS + h1, IZR z);
    (IZR (x + grid_size), KIND_ELEVATION * FEET_TO_METERS + h2, IZR z);
    (IZR (x + grid_size), KIND_ELEVATION * FEET_TO_METERS + h3,
     IZR (z + grid_size));
    (IZR x, KIND_ELEVATION * FEET_TO_METERS + h4, IZR (z + grid_size)) ].

(** The corners [(x, z)] of the double loop, in the order of the loop. *)
Definition terrain_corners : list (Z * Z) :=
  list_prod (Builtins.range (- terrain_size) terrain_size grid_size)
            (Builtins.range (- terrain_size) terrain_size grid_size).

(** The whole terrain; the [k]-th cell takes the draws [4k] to [4k+3] of
    the stream [rnd]. *)
Definition terrain_from (rnd : nat -> R) (k : nat) (cs : list (Z * Z))
  : list Np.vec3 :=
  concat
    (map (fun p : nat * (Z * Z) =>
            let '(j, (x, z)) := p in
            terrain_cell x z (rnd (4 * j)%nat) (rnd (4 * j + 1)%nat)
              (rnd (4 * j + 2)%nat) (rnd (4 * j + 3)%nat))
         (combine (seq k (List.length cs)) cs)).

Definition terrain (rnd : nat -> R) : list Np.vec3 :=
  terrain_from rnd 0 terrain_corners.

End Scene.

(** ** Invariants of a run and repeated frames *)

Module Invariants.

Import Aircraft.

(** Throttle within 0..1 and engine speed within 0..2800. *)
Definition engine_ok (a : t) : Prop :=
  0 <= throttle a <= 1 /\ 0 <= rpm a <= 2800.

(** The ranges of the data model and a bounded vertical speed. *)
Definition climb_ok (a : t) : Prop :=
  Notions.in_range a /\ -27.22 <= vertical_speed a <= 10.668.

(** Throttle within 0..1 and fuel within 0..100. *)
Definition tank_ok (a : t) : Prop :=
  0 <= throttle a <= 1 /\ 0 <= fuel a <= 100.

(** The flap index is one of 0, 1, 2, 3. *)
Definition flaps_ok (a : t) : Prop := (0 <= flaps a < 4)%Z.

(** After [handle_input]: an axis is either centred or at least 0.1 away
    from the centre. *)
Definition outside_dead_zone (v : R) : Prop := v = 0 \/ 0.1 <= Py.abs v.

(** [n] frames of [handle_input] with no event and the same keys held. *)
Fixpoint hold_keys (n : nat) (keys : FlightSimulator.key -> bool)
  (g : FlightSimulator.t) : FlightSimulator.t :=
  match n with
  | O => g
  | S k => FlightSimulator.handle_input [] keys (hold_keys k keys g)
  end.

(** Both throttle keys held at once. *)
Definition plus_and_minus : FlightSimulator.key -> bool :=
  fun k =>
    match k with
    | FlightSimulator.K_PLUS | FlightSimulator.K_MINUS => true
    | _ => false
    end.

(** A vertex lies on the runway rectangle, 0.1 m above its surface. *)
Definition painted_on_runway (v : Np.vec3) : Prop :=
  let '(vx, vy, vz) := v in
  - Scene.runway_width / 2 <= vx <= Scene.runway_width / 2 /\
  vy = KIND_ELEVATION * FEET_TO_METERS + 0.1 + 0.1 /\
  - Scene.runway_length <= vz <= 0.

(** A vertex is within 5 m of the field elevation. *)
Definition near_field_elevation (v : Np.vec3) : Prop :=
  let '(_, vy, _) := v in
  KIND_ELEVATION * FEET_TO_METERS - 5 <= vy
    < KIND_ELEVATION * FEET_TO_METERS + 5.

(** Two states that agree on every attribute but fuel, engine speed,
    flaps and landing gear. *)
Definition same_flight (s1 s2 : t) : Prop :=
  set_gear_down true (set_flaps 0 (set_rpm 0 (set_fuel 0 s1))) =
  set_gear_down true (set_flaps 0 (set_rpm 0 (set_fuel 0 s2))).

(** Standing still: no airspeed, throttle closed, pitch and elevator
    centred, at or above the ground. *)
Definition parked (s : t) : Prop :=
  airspeed s = 0 /\ throttle s = 0 /\ pitch s = 0 /\ elevator s = 0 /\
  KIND_ELEVATION * FEET_TO_METERS <= y s.

(** The squared length of a vector. *)
Definition norm2 (v : Np.vec3) : R := Np.dot v v.

End Invariants.

(** * Properties *)

(** ** The numeric built-ins *)

Section PyFacts.

Lemma max_cases (a b : R) :
  (a < b /\ Py.max a b = b) \/ (b <= a /\ Py.max a b = a).
Proof. unfold Py.max. destruct (Rlt_dec a b); [left | right]; split; lra. Qed.

Lemma min_cases (a b : R) :
  (b < a /\ Py.min a b = b) \/ (a <= b /\ Py.min a b = a).
Proof. unfold Py.min. destruct (Rlt_dec b a); [left | right]; split; lra. Qed.

Lemma clamp_range (lo hi v : R) :
  lo <= hi -> lo <= Py.max lo (Py.min hi v) <= hi.
Proof.
  intros Hle.
  destruct (min_cases hi v) as [[? Hm] | [? Hm]]; rewrite Hm;
    destruct (max_cases lo v) as [[? HM] | [? HM]];
    destruct (max_cases lo hi) as [[? HM'] | [? HM']];
    try rewrite HM; try rewrite HM'; lra.
Qed.

Lemma clamp_inside (lo hi v : R) :
  lo <= v <= hi -> Py.max lo (Py.min hi v) = v.
Proof.
  intros [H1 H2].
  destruct (min_cases hi v) as [[? Hm] | [? Hm]]; rewrite Hm;
    [ | replace hi with v in * by lra ];
    destruct (max_cases lo v) as [[? HM] | [? HM]]; rewrite HM; lra.
Qed.

Lemma max_0_nonneg (v : R) : 0 <= Py.max 0 v.
Proof. destruct (max_cases 0 v) as [[? H] | [? H]]; rewrite H; lra. Qed.

Lemma mod_range (a m : R) : 0 < m -> 0 <= Py.mod_ a m < m.
Proof.
  intros Hm. unfold Py.mod_.
  destruct (base_Int_part (a / m)) as [Hlo Hhi].
  assert (Ha : a = m * (a / m)) by (field; lra).
  split.
  - assert (m * IZR (Int_part (a / m)) <= m * (a / m))
      by (apply Rmult_le_compat_l; lra).
    lra.
  - assert (m * (a / m - IZR (Int_part (a / m))) < m * 1)
      by (apply Rmult_lt_compat_l; lra).
    lra.
Qed.

Lemma mod_shift (a m : R) (k : Z) :
  0 < m -> 0 <= a - m * IZR k < m -> Py.mod_ a m = a - m * IZR k.
Proof.
  intros Hm [Hlo Hhi]. unfold Py.mod_.
  replace (Int_part (a / m)) with k; [reflexivity | ].
  apply Int_part_spec.
  assert (Hq : a / m = (a - m * IZR k) / m + IZR k) by (field; lra).
  assert (H0 : 0 <= (a - m * IZR k) / m).
  { apply Rmult_le_pos; [lra | left; apply Rinv_0_lt_compat; lra]. }
  assert (H1 : (a - m * IZR k) / m < 1).
  { apply (Rmult_lt_reg_r m); [lra | ].
    unfold Rdiv. rewrite Rmult_assoc, Rinv_l by lra. lra. }
  lra.
Qed.

End PyFacts.

(** ** The equations of [Aircraft.update] *)

(** Each conditional statement group as an unconditional assignment of a
    conditional value. *)
Lemma ground_collision_nf (s : Aircraft.t) :
  Aircraft.ground_collision s =
  let hit :=
    Rlt_dec (Aircraft.y s) (KIND_ELEVATION * FEET_TO_METERS) in
  Aircraft.set_pitch
    (if hit then Py.max 0 (Aircraft.pitch s) else Aircraft.pitch s)
    (Aircraft.set_vertical_speed
       (if hit then 0 else Aircraft.vertical_speed s)
       (Aircraft.set_y
          (if hit then KIND_ELEVATION * FEET_TO_METERS else Aircraft.y s) s)).
Proof.
  unfold Aircraft.ground_collision. cbv zeta.
  destruct (Rlt_dec (Aircraft.y s) (KIND_ELEVATION * FEET_TO_METERS));
    destruct s; reflexivity.
Qed.

Lemma fuel_empty_nf (dt : R) (s : Aircraft.t) :
  Aircraft.fuel_empty dt s =
  Aircraft.set_rpm
    (if Rle_dec (Aircraft.fuel s) 0
     then Py.max 0 (Aircraft.rpm s - 500 * dt) else Aircraft.rpm s) s.
Proof.
  unfold Aircraft.fuel_empty.
  destruct (Rle_dec (Aircraft.fuel s) 0); destruct s; reflexivity.
Qed.

Lemma level_out_nf (s : Aircraft.t) :
  Aircraft.level_out s =
  Aircraft.set_roll
    (if Rlt_dec (Py.abs (Aircraft.aileron s)) 0.1
     then Aircraft.roll s * 0.95 else Aircraft.roll s) s.
Proof.
  unfold Aircraft.level_out.
  destruct (Rlt_dec (Py.abs (Aircraft.aileron s)) 0.1);
    destruct s; reflexivity.
Qed.

Lemma stall_behavior_nf (dt rnd : R) (s : Aircraft.t) :
  Aircraft.stall_behavior dt rnd s =
  Aircraft.set_roll
    (if Aircraft.stalled_dec s then
       if Rlt_dec (Py.abs (Aircraft.roll s)) 5
       then Aircraft.roll s + (rnd - 0.5) * 10 * dt
       else Aircraft.roll s
     else Aircraft.roll s)
    (Aircraft.set_vertical_speed
       (if Aircraft.stalled_dec s
        then Aircraft.vertical_speed s - 9.8 * dt
        else Aircraft.vertical_speed s) s).
Proof.
  unfold Aircraft.stall_behavior. cbv zeta.
  destruct (Aircraft.stalled_dec s); [ | destruct s; reflexivity ].
  destruct s as [? ? ? ? r ? ? ? ? ? ? ? ? ? ? ?]; cbn.
  destruct (Rlt_dec (Py.abs r) 5); reflexivity.
Qed.

(** [project] computes attribute reads and writes; [fields] reads an
    attribute through the whole chain of statement groups. *)
Ltac project :=
  lazy beta iota zeta delta
    [Aircraft.fuel_consumption Aircraft.adjust_vertical_speed
     Aircraft.update_rpm Aircraft.apply_throttle Aircraft.limit_attitude
     Aircraft.normalize_heading Aircraft.banking_effect
     Aircraft.apply_controls Aircraft.integrate_position
     Aircraft.stalled_dec
     Aircraft.x Aircraft.y Aircraft.z Aircraft.pitch Aircraft.roll
     Aircraft.heading Aircraft.airspeed Aircraft.vertical_speed
     Aircraft.throttle Aircraft.elevator Aircraft.aileron Aircraft.rudder
     Aircraft.flaps Aircraft.rpm Aircraft.fuel Aircraft.gear_down
     Aircraft.set_x Aircraft.set_y Aircraft.set_z Aircraft.set_pitch
     Aircraft.set_roll Aircraft.set_heading Aircraft.set_airspeed
     Aircraft.set_vertical_speed Aircraft.set_throttle
     Aircraft.set_elevator Aircraft.set_aileron Aircraft.set_rudder
     Aircraft.set_flaps Aircraft.set_rpm Aircraft.set_fuel
     Aircraft.set_gear_down].

Ltac fields :=
  unfold Aircraft.update, Aircraft.before_stall, Aircraft.after_ground;
  rewrite ?stall_behavior_nf, ?level_out_nf, ?fuel_empty_nf,
    ?ground_collision_nf;
  project.

Section UpdateEquations.

Import Aircraft.

Variables (dt rnd : R) (s : t).

Lemma update_x :
  x (update dt rnd s) =
  x s + airspeed s * sin (Py.radians (heading s)) *
        cos (Py.radians (pitch s)) * dt.
Proof. destruct s. fields. reflexivity. Qed.

Lemma update_z :
  z (update dt rnd s) =
  z s + airspeed s * cos (Py.radians (heading s)) *
        cos (Py.radians (pitch s)) * dt.
Proof. destruct s. fields. reflexivity. Qed.

Lemma update_y :
  y (update dt rnd s) =
  if Rlt_dec (y s + airspeed s * sin (Py.radians (pitch s)) * dt)
             (KIND_ELEVATION * FEET_TO_METERS)
  then KIND_ELEVATION * FEET_TO_METERS
  else y s + airspeed s * sin (Py.radians (pitch s)) * dt.
Proof. destruct s. fields. reflexivity. Qed.

Lemma update_pitch :
  pitch (update dt rnd s) =
  Py.max (-30) (Py.min 30
    (pitch (after_ground dt s) + elevator s * CESSNA_PITCH_RATE * dt)).
Proof. destruct s. fields. reflexivity. Qed.

Lemma update_heading :
  heading (update dt rnd s) =
  Py.mod_
    (heading s + rudder s * CESSNA_YAW_RATE * dt +
     sin (Py.radians (roll s + aileron s * CESSNA_ROLL_RATE * dt)) * dt * 10)
    360.
Proof. destruct s. fields. reflexivity. Qed.

Lemma update_airspeed :
  airspeed (update dt rnd s) =
  airspeed s +
  (throttle s * CESSNA_MAX_SPEED * KNOTS_TO_MPS - airspeed s) * dt * 0.5.
Proof. destruct s. fields. reflexivity. Qed.

Lemma update_fuel :
  fuel (update dt rnd s) = Py.max 0 (fuel s - throttle s * dt * 0.05).
Proof. destruct s. fields. reflexivity. Qed.

Lemma update_rpm_eq :
  rpm (update dt rnd s) =
  let lagged := rpm s + (500 + throttle s * 2300 - rpm s) * dt * 2 in
  if Rle_dec (fuel (update dt rnd s)) 0
  then Py.max 0 (lagged - 500 * dt) else lagged.
Proof. destruct s. fields. reflexivity. Qed.

Lemma update_controls :
  throttle (update dt rnd s) = throttle s /\
  elevator (update dt rnd s) = elevator s /\
  aileron (update dt rnd s) = aileron s /\
  rudder (update dt rnd s) = rudder s /\
  flaps (update dt rnd s) = flaps s /\
  gear_down (update dt rnd s) = gear_down s.
Proof. destruct s. fields. repeat split. Qed.

Lemma before_stall_roll :
  roll (before_stall dt s) =
  let limited :=
    Py.max (-60) (Py.min 60 (roll s + aileron s * CESSNA_ROLL_RATE * dt)) in
  if Rlt_dec (Py.abs (aileron s)) 0.1 then limited * 0.95 else limited.
Proof. destruct s. fields. reflexivity. Qed.

Lemma before_stall_airspeed :
  airspeed (before_stall dt s) = airspeed (update dt rnd s).
Proof. destruct s. fields. reflexivity. Qed.

Lemma update_roll :
  roll (update dt rnd s) =
  let b := before_stall dt s in
  if stalled_dec b then
    if Rlt_dec (Py.abs (roll b)) 5 then roll b + (rnd - 0.5) * 10 * dt
    else roll b
  else roll b.
Proof.
  unfold update. rewrite stall_behavior_nf.
  destruct (before_stall dt s). reflexivity.
Qed.

Lemma update_vertical_speed :
  vertical_speed (update dt rnd s) =
  let b := before_stall dt s in
  if stalled_dec b then vertical_speed b - 9.8 * dt else vertical_speed b.
Proof.
  unfold update. rewrite stall_behavior_nf.
  destruct (before_stall dt s). reflexivity.
Qed.

Lemma before_stall_vertical_speed :
  vertical_speed (before_stall dt s) =
  let vs := vertical_speed (after_ground dt s) in
  vs + (target_vs (update dt rnd s) - vs) * dt * 0.5.
Proof.
  destruct s. fields. unfold target_vs. fields. reflexivity.
Qed.

End UpdateEquations.

(** ** The ranges of the data model along a run *)

Section Ranges.

Import Aircraft Notions.

Lemma abs_lt (v b : R) : Py.abs v < b -> - b < v < b.
Proof.
  unfold Py.abs, Rabs. destruct (Rcase_abs v); intros; lra.
Qed.

Lemma init_in_range : in_range (FlightSimulator.aircraft FlightSimulator.__init__).
Proof. unfold in_range; cbn. lra. Qed.

Lemma update_roll_bound (dt rnd : R) (s : t) :
  0 < dt <= 11 -> 0 <= rnd < 1 -> -60 <= roll (update dt rnd s) <= 60.
Proof.
  intros Hdt Hrnd.
  assert (Hb : -60 <= roll (before_stall dt s) <= 60).
  { rewrite before_stall_roll. cbv zeta.
    pose proof (clamp_range (-60) 60
                  (roll s + aileron s * CESSNA_ROLL_RATE * dt)) as Hc.
    destruct (Rlt_dec (Py.abs (aileron s)) 0.1); lra. }
  rewrite update_roll. cbv zeta.
  destruct (stalled_dec (before_stall dt s)); [ | exact Hb ].
  destruct (Rlt_dec (Py.abs (roll (before_stall dt s))) 5) as [Hlt | ];
    [ | exact Hb ].
  apply abs_lt in Hlt. nra.
Qed.

Lemma update_fuel_bound (dt rnd : R) (s : t) :
  0 < dt -> 0 <= throttle s -> fuel s <= 100 ->
  0 <= fuel (update dt rnd s) <= 100.
Proof.
  intros Hdt Hth Hf. rewrite update_fuel.
  assert (0 <= throttle s * dt) by (apply Rmult_le_pos; lra).
  destruct (max_cases 0 (fuel s - throttle s * dt * 0.05)) as [[? E] | [? E]];
    rewrite E; lra.
Qed.

Lemma update_airspeed_nonneg (dt rnd : R) (s : t) :
  0 < dt <= 2 -> 0 <= throttle s -> 0 <= airspeed s ->
  0 <= airspeed (update dt rnd s).
Proof.
  intros Hdt Hth Ha. rewrite update_airspeed.
  unfold CESSNA_MAX_SPEED, KNOTS_TO_MPS.
  assert (0 <= airspeed s * (1 - dt * 0.5)) by (apply Rmult_le_pos; lra).
  assert (0 <= throttle s * dt) by (apply Rmult_le_pos; lra).
  lra.
Qed.

(** One [update] with a time step of at most two seconds keeps the ranges. *)
Lemma update_in_range (dt rnd : R) (s : t) :
  0 < dt <= 2 -> 0 <= rnd < 1 -> in_range s -> in_range (update dt rnd s).
Proof.
  intros Hdt Hrnd (Hp & Hr & Hh & Ht & Hf & Ha).
  destruct (update_controls dt rnd s) as (Eth & _).
  unfold in_range. rewrite Eth.
  repeat split; try lra.
  - rewrite update_pitch. apply clamp_range. lra.
  - rewrite update_pitch. apply clamp_range. lra.
  - apply update_roll_bound; lra.
  - apply update_roll_bound; lra.
  - rewrite update_heading. apply mod_range. lra.
  - rewrite update_heading. apply mod_range. lra.
  - apply update_fuel_bound; lra.
  - apply update_fuel_bound; lra.
  - apply update_airspeed_nonneg; lra.
Qed.

Lemma handle_event_in_range (g : FlightSimulator.t) (e : FlightSimulator.event) :
  in_range (FlightSimulator.aircraft g) ->
  in_range (FlightSimulator.aircraft (FlightSimulator.handle_event g e)).
Proof.
  intros H.
  destruct e as [ | k | [dx dy] | ]; cbn; try exact H.
  - destruct k; cbn; try exact H. apply init_in_range.
  - destruct (negb (FlightSimulator.paused g)); cbn; exact H.
Qed.

Lemma events_in_range (events : list FlightSimulator.event) :
  forall g : FlightSimulator.t,
    in_range (FlightSimulator.aircraft g) ->
    in_range (FlightSimulator.aircraft
                (fold_left FlightSimulator.handle_event events g)).
Proof.
  induction events as [ | e events IH]; intros g H; cbn; [exact H | ].
  apply IH, handle_event_in_range, H.
Qed.

Lemma throttle_keys_range (keys : FlightSimulator.key -> bool) (a : t) :
  0 <= throttle a <= 1 ->
  0 <= throttle (FlightSimulator.throttle_keys keys a) <= 1.
Proof.
  intros H. unfold FlightSimulator.throttle_keys.
  destruct (keys FlightSimulator.K_EQUALS || keys FlightSimulator.K_PLUS)%bool;
    destruct (keys FlightSimulator.K_MINUS); cbn;
    repeat match goal with
    | |- context [Py.min ?u ?v] =>
        destruct (min_cases u v) as [[? ->] | [? ->]]
    | |- context [Py.max ?u ?v] =>
        destruct (max_cases u v) as [[? ->] | [? ->]]
    end; lra.
Qed.

Lemma axis_keys_frame (keys : FlightSimulator.key -> bool) (b : t) :
  pitch (axis_keys keys b) = pitch b /\
  roll (axis_keys keys b) = roll b /\
  heading (axis_keys keys b) = heading b /\
  throttle (axis_keys keys b) = throttle b /\
  fuel (axis_keys keys b) = fuel b /\
  airspeed (axis_keys keys b) = airspeed b.
Proof.
  unfold axis_keys, FlightSimulator.aileron_keys,
    FlightSimulator.elevator_keys, FlightSimulator.rudder_keys.
  destruct b.
  repeat match goal with
  | |- context [if ?c then _ else _] => destruct c; cbn
  end; repeat split.
Qed.

Lemma throttle_keys_frame (keys : FlightSimulator.key -> bool) (a : t) :
  pitch (FlightSimulator.throttle_keys keys a) = pitch a /\
  roll (FlightSimulator.throttle_keys keys a) = roll a /\
  heading (FlightSimulator.throttle_keys keys a) = heading a /\
  fuel (FlightSimulator.throttle_keys keys a) = fuel a /\
  airspeed (FlightSimulator.throttle_keys keys a) = airspeed a.
Proof.
  unfold FlightSimulator.throttle_keys. destruct a.
  repeat match goal with
  | |- context [if ?c then _ else _] => destruct c; cbn
  end; repeat split.
Qed.

Lemma keys_in_range (keys : FlightSimulator.key -> bool) (a : t) :
  in_range a ->
  in_range (axis_keys keys (FlightSimulator.throttle_keys keys a)).
Proof.
  intros (Hp & Hr & Hh & Ht & Hf & Ha).
  pose proof (throttle_keys_range keys a Ht) as Ht'.
  destruct (axis_keys_frame keys (FlightSimulator.throttle_keys keys a))
    as (E1 & E2 & E3 & E4 & E5 & E6).
  destruct (throttle_keys_frame keys a) as (F1 & F2 & F3 & F5 & F6).
  unfold in_range.
  rewrite E1, E2, E3, E4, E5, E6, F1, F2, F3, F5, F6. lra.
Qed.

Lemma handle_input_in_range events keys (g : FlightSimulator.t) :
  in_range (FlightSimulator.aircraft g) ->
  in_range (FlightSimulator.aircraft
              (FlightSimulator.handle_input events keys g)).
Proof.
  intros H. unfold FlightSimulator.handle_input. cbn.
  apply (keys_in_range keys), events_in_range, H.
Qed.

Lemma step_in_range (g : FlightSimulator.t) (c : Sim.call) :
  Sim.call_ok (Some 2) c ->
  in_range (FlightSimulator.aircraft g) ->
  in_range (FlightSimulator.aircraft (Sim.step g c)).
Proof.
  destruct c as [events keys | dt rnd]; cbn.
  - intros _. apply handle_input_in_range.
  - intros (Hdt & Hrnd & Hb). apply update_in_range; lra.
Qed.

Lemma run_in_range (cs : list Sim.call) :
  forall g : FlightSimulator.t,
    Forall (Sim.call_ok (Some 2)) cs ->
    in_range (FlightSimulator.aircraft g) ->
    in_range (FlightSimulator.aircraft (Sim.run cs g)).
Proof.
  induction cs as [ | c cs IH]; intros g Hok Hg; cbn; [exact Hg | ].
  inversion Hok as [ | ? ? Hc Hcs]; subst.
  apply IH; [exact Hcs | ]. apply step_in_range; assumption.
Qed.

End Ranges.

(** C1, as amended: along every run of [handle_input] and [update] calls
    from a fresh simulator in which every time step is positive and at most
    two seconds, and every random draw is in the range of
    [np.random.random()], the aircraft keeps pitch within -30..30, roll
    within -60..60, heading in 0 (included) to 360 (excluded), throttle
    within 0..1, fuel within 0..100 and a non-negative airspeed. *)
Theorem C1_ranges_hold_for_steps_up_to_two_seconds (cs : list Sim.call) :
  Forall (Sim.call_ok (Some 2)) cs ->
  Notions.in_range
    (FlightSimulator.aircraft (Sim.run cs FlightSimulator.__init__)).
Proof.
  intros Hok. apply run_in_range; [exact Hok | apply init_in_range].
Qed.

Lemma C1_ranges_witness :
  Forall (Sim.call_ok (Some 2))
    [Sim.HandleInput [] Cases.plus_key; Sim.Update 1 0.5] /\
  Notions.in_range
    (FlightSimulator.aircraft
       (Sim.run [Sim.HandleInput [] Cases.plus_key; Sim.Update 1 0.5]
          FlightSimulator.__init__)).
Proof.
  assert (H : Forall (Sim.call_ok (Some 2))
                [Sim.HandleInput [] Cases.plus_key; Sim.Update 1 0.5]).
  { repeat constructor; cbn; lra. }
  split; [exact H | ].
  exact (C1_ranges_hold_for_steps_up_to_two_seconds _ H).
Defined.

Lemma handle_input_no_events keys (g : FlightSimulator.t) :
  FlightSimulator.aircraft (FlightSimulator.handle_input [] keys g) =
  Notions.axis_keys keys
    (FlightSimulator.throttle_keys keys (FlightSimulator.aircraft g)).
Proof. reflexivity. Qed.

Lemma throttle_plus_key (a : Aircraft.t) :
  Aircraft.throttle (FlightSimulator.throttle_keys Cases.plus_key a) =
  Py.min 1 (Aircraft.throttle a + 0.01).
Proof. reflexivity. Qed.

Lemma throttle_minus_key (a : Aircraft.t) :
  Aircraft.throttle (FlightSimulator.throttle_keys Cases.minus_key a) =
  Py.max 0 (Aircraft.throttle a - 0.01).
Proof. reflexivity. Qed.

(** Rewrites a field read through the statements of [handle_input] and
    through [update] down to the fields of the state before. *)
Ltac read_back :=
  repeat first
    [ progress cbn [FlightSimulator.aircraft FlightSimulator.set_aircraft]
    | rewrite handle_input_no_events
    | rewrite (proj1 (proj2 (proj2 (proj2 (axis_keys_frame _ _)))))
    | rewrite (proj2 (proj2 (proj2 (proj2 (proj2 (axis_keys_frame _ _))))))
    | rewrite (proj2 (proj2 (proj2 (proj2 (throttle_keys_frame _ _)))))
    | rewrite throttle_plus_key
    | rewrite throttle_minus_key
    | rewrite (proj1 (update_controls _ _ _))
    | rewrite update_airspeed ].

(** C1, as stated, fails: a time step of four seconds after the throttle
    is pulled back to idle leaves a negative airspeed. *)
Lemma C1_long_step_negative_airspeed :
  Forall (Sim.call_ok None) Cases.long_step_run /\
  Aircraft.airspeed
    (FlightSimulator.aircraft
       (Sim.run Cases.long_step_run FlightSimulator.__init__)) < 0.
Proof.
  split; [ repeat constructor; cbn; lra | ].
  unfold Cases.long_step_run, Sim.run.
  cbn [fold_left Sim.step FlightSimulator.aircraft
       FlightSimulator.set_aircraft].
  read_back.
  change (Aircraft.throttle
            (FlightSimulator.aircraft FlightSimulator.__init__)) with 0.
  change (Aircraft.airspeed
            (FlightSimulator.aircraft FlightSimulator.__init__)) with 0.
  replace (Py.min 1 (0 + 0.01)) with 0.01
    by (destruct (min_cases 1 (0 + 0.01)) as [[? ->] | [? ->]]; lra).
  replace (Py.max 0 (0.01 - 0.01)) with 0
    by (destruct (max_cases 0 (0.01 - 0.01)) as [[? ->] | [? ->]]; lra).
  unfold CESSNA_MAX_SPEED, KNOTS_TO_MPS. lra.
Qed.

(** ** [vertical_speed] is never read by the rest of the state *)

(** Opens two related states into their attributes. *)
Ltac open_pair s1 s2 H :=
  destruct s1, s2; unfold Notions.same_but_vs in H |- *; cbn in H;
  injection H as -> -> -> -> -> -> -> -> -> -> -> -> -> -> ->.

Ltac by_cases :=
  cbn;
  repeat match goal with
  | |- context [if ?c then _ else _] => destruct c; cbn
  end;
  reflexivity.

Section VerticalSpeedFrame.

Import Aircraft Notions.

Lemma same_but_vs_refl (s : t) : same_but_vs s s.
Proof. reflexivity. Qed.

Lemma same_but_vs_set (v : R) (s : t) :
  same_but_vs (set_vertical_speed v s) s.
Proof. destruct s; reflexivity. Qed.

Lemma same_but_vs_fields (s1 s2 : t) :
  same_but_vs s1 s2 ->
  x s1 = x s2 /\ y s1 = y s2 /\ z s1 = z s2 /\
  pitch s1 = pitch s2 /\ roll s1 = roll s2 /\ heading s1 = heading s2 /\
  airspeed s1 = airspeed s2 /\ throttle s1 = throttle s2 /\
  rpm s1 = rpm s2 /\ fuel s1 = fuel s2.
Proof.
  destruct s1, s2. unfold same_but_vs. cbn. intros H.
  injection H as -> -> -> -> -> -> -> -> -> -> -> -> -> -> ->.
  repeat split.
Qed.

Lemma before_ground_same (dt : R) (s1 s2 : t) :
  same_but_vs s1 s2 ->
  same_but_vs (integrate_position dt s1) (integrate_position dt s2).
Proof. intros H. open_pair s1 s2 H. reflexivity. Qed.

Lemma ground_collision_same (s1 s2 : t) :
  same_but_vs s1 s2 ->
  same_but_vs (ground_collision s1) (ground_collision s2).
Proof. intros H. open_pair s1 s2 H. unfold ground_collision. by_cases. Qed.

Lemma attitude_same (dt : R) (s1 s2 : t) :
  same_but_vs s1 s2 ->
  same_but_vs
    (limit_attitude
       (normalize_heading (banking_effect dt (apply_controls dt s1))))
    (limit_attitude
       (normalize_heading (banking_effect dt (apply_controls dt s2)))).
Proof. intros H. open_pair s1 s2 H. reflexivity. Qed.

Lemma engine_same (dt : R) (s1 s2 : t) :
  same_but_vs s1 s2 ->
  same_but_vs (update_rpm dt (apply_throttle dt s1))
              (update_rpm dt (apply_throttle dt s2)).
Proof. intros H. open_pair s1 s2 H. reflexivity. Qed.

Lemma adjust_vertical_speed_same (dt : R) (s1 s2 : t) :
  same_but_vs s1 s2 ->
  same_but_vs (adjust_vertical_speed dt s1) (adjust_vertical_speed dt s2).
Proof. intros H. open_pair s1 s2 H. reflexivity. Qed.

Lemma fuel_consumption_same (dt : R) (s1 s2 : t) :
  same_but_vs s1 s2 ->
  same_but_vs (fuel_consumption dt s1) (fuel_consumption dt s2).
Proof. intros H. open_pair s1 s2 H. reflexivity. Qed.

Lemma fuel_empty_same (dt : R) (s1 s2 : t) :
  same_but_vs s1 s2 ->
  same_but_vs (fuel_empty dt s1) (fuel_empty dt s2).
Proof. intros H. open_pair s1 s2 H. unfold fuel_empty. by_cases. Qed.

Lemma level_out_same (s1 s2 : t) :
  same_but_vs s1 s2 -> same_but_vs (level_out s1) (level_out s2).
Proof. intros H. open_pair s1 s2 H. unfold level_out. by_cases. Qed.

Lemma stall_behavior_same (dt rnd : R) (s1 s2 : t) :
  same_but_vs s1 s2 ->
  same_but_vs (stall_behavior dt rnd s1) (stall_behavior dt rnd s2).
Proof.
  intros H. open_pair s1 s2 H. unfold stall_behavior, stalled_dec. by_cases.
Qed.

(** [update] maps states that differ in [vertical_speed] only to states
    that differ in [vertical_speed] only. *)
Lemma update_same (dt rnd : R) (s1 s2 : t) :
  same_but_vs s1 s2 -> same_but_vs (update dt rnd s1) (update dt rnd s2).
Proof.
  intros H. unfold update, before_stall, after_ground.
  apply stall_behavior_same, level_out_same, fuel_empty_same,
    fuel_consumption_same, adjust_vertical_speed_same, engine_same,
    attitude_same, ground_collision_same, before_ground_same, H.
Qed.

Lemma updates_same (steps : list (R * R)) :
  forall s1 s2 : t,
    same_but_vs s1 s2 ->
    same_but_vs (Sim.updates steps s1) (Sim.updates steps s2).
Proof.
  induction steps as [ | [dt rnd] steps IH]; intros s1 s2 H; cbn;
    [exact H | ].
  apply IH, update_same, H.
Qed.

Lemma target_vs_same (s1 s2 : t) :
  same_but_vs s1 s2 -> target_vs s1 = target_vs s2.
Proof. intros H. open_pair s1 s2 H. reflexivity. Qed.

Lemma stall_sink_same (dt : R) (s1 s2 : t) :
  same_but_vs s1 s2 -> stall_sink dt s1 = stall_sink dt s2.
Proof. intros H. open_pair s1 s2 H. reflexivity. Qed.

End VerticalSpeedFrame.

(** ** The ground floor *)

Section Ground.

Import Aircraft Notions.

Lemma sin_radians_minus_30 : sin (Py.radians (-30)) = - (1 / 2).
Proof.
  unfold Py.radians.
  replace (-30 * (PI / 180)) with (- (PI / 6)) by lra.
  rewrite sin_neg, sin_PI6. reflexivity.
Qed.

Lemma after_ground_hit (dt : R) (s : t) :
  hits_ground dt s ->
  y (after_ground dt s) = KIND_ELEVATION * FEET_TO_METERS /\
  vertical_speed (after_ground dt s) = 0 /\
  pitch (after_ground dt s) = Py.max 0 (pitch s).
Proof.
  unfold hits_ground, after_ground. intros H.
  rewrite ground_collision_nf. cbv zeta.
  destruct (Rlt_dec (y (integrate_position dt s))
                    (KIND_ELEVATION * FEET_TO_METERS)); [ | contradiction ].
  destruct s. repeat split.
Qed.

Lemma update_y_after_ground (dt rnd : R) (s : t) :
  y (update dt rnd s) = y (after_ground dt s).
Proof. destruct s. fields. reflexivity. Qed.

Lemma update_vertical_speed_eq (dt rnd : R) (s : t) :
  vertical_speed (update dt rnd s) =
  vertical_speed (after_ground dt s) +
  (target_vs (update dt rnd s) - vertical_speed (after_ground dt s))
    * dt * 0.5
  - stall_sink dt (update dt rnd s).
Proof.
  rewrite update_vertical_speed. cbv zeta.
  rewrite (before_stall_vertical_speed dt rnd s). cbv zeta.
  unfold stall_sink.
  destruct (stalled_dec (before_stall dt s)) as [H1 | H1];
    destruct (stalled_dec (update dt rnd s)) as [H2 | H2];
    unfold stalled in H1, H2;
    rewrite (before_stall_airspeed dt rnd s) in H1; lra.
Qed.

Lemma stall_sink_stalled (dt : R) (s : t) :
  stalled s -> stall_sink dt s = 9.8 * dt.
Proof.
  intros H. unfold stall_sink.
  destruct (stalled_dec s); [reflexivity | contradiction].
Qed.

Lemma stall_sink_flying (dt : R) (s : t) :
  ~ stalled s -> stall_sink dt s = 0.
Proof.
  intros H. unfold stall_sink.
  destruct (stalled_dec s); [contradiction | reflexivity].
Qed.

Lemma target_vs_level (s : t) : pitch s = 0 -> target_vs s = 0.
Proof.
  intros H. unfold target_vs. rewrite H.
  destruct (Rlt_dec 0 0); [lra | reflexivity].
Qed.

Lemma hits_ground_set_vs (dt v : R) (s : t) :
  hits_ground dt (set_vertical_speed v s) <-> hits_ground dt s.
Proof. destruct s. reflexivity. Qed.

Lemma grounded_vertical_speed (dt rnd : R) (s : t) :
  hits_ground dt s ->
  vertical_speed (update dt rnd s) =
  target_vs (update dt rnd s) * dt * 0.5 - stall_sink dt (update dt rnd s).
Proof.
  intros H. rewrite update_vertical_speed_eq.
  destruct (after_ground_hit dt s H) as (_ & -> & _). lra.
Qed.

End Ground.

(** C2, as amended: when the position integration of an [update] call with
    a positive time step brings the altitude below the ground elevation,
    the altitude on return is exactly the ground elevation; at the ground
    collision step the vertical speed is set to 0 and the pitch is clamped
    to be non-negative; on return the vertical speed is
    [target_vs * dt * 0.5] less the stall sink of that call, whatever the
    vertical speed before the call. *)
Theorem C2_ground_floor (dt rnd : R) (s : Aircraft.t) :
  0 < dt ->
  Notions.hits_ground dt s ->
  Aircraft.y (Aircraft.update dt rnd s) = KIND_ELEVATION * FEET_TO_METERS /\
  Aircraft.vertical_speed (Aircraft.after_ground dt s) = 0 /\
  Aircraft.pitch (Aircraft.after_ground dt s) = Py.max 0 (Aircraft.pitch s) /\
  0 <= Aircraft.pitch (Aircraft.after_ground dt s) /\
  Aircraft.vertical_speed (Aircraft.update dt rnd s) =
    Aircraft.target_vs (Aircraft.update dt rnd s) * dt * 0.5
    - Notions.stall_sink dt (Aircraft.update dt rnd s) /\
  forall v : R,
    Aircraft.vertical_speed
      (Aircraft.update dt rnd (Aircraft.set_vertical_speed v s)) =
    Aircraft.vertical_speed (Aircraft.update dt rnd s).
Proof.
  intros _ Hhit.
  destruct (after_ground_hit dt s Hhit) as (Hy & Hvs & Hp).
  split; [ rewrite update_y_after_ground; exact Hy | ].
  split; [ exact Hvs | ].
  split; [ exact Hp | ].
  split; [ rewrite Hp; apply max_0_nonneg | ].
  split; [ apply grounded_vertical_speed, Hhit | ].
  intros v.
  rewrite !grounded_vertical_speed
    by (try apply hits_ground_set_vs; exact Hhit).
  pose proof (update_same dt rnd _ _ (same_but_vs_set v s)) as Hsame.
  rewrite (target_vs_same _ _ Hsame), (stall_sink_same dt _ _ Hsame).
  reflexivity.
Qed.

Lemma nose_down_hits_ground : Notions.hits_ground 0.1 Cases.nose_down.
Proof.
  unfold Notions.hits_ground. cbn.
  rewrite sin_radians_minus_30. lra.
Qed.

Lemma C2_ground_floor_witness :
  0 < 0.1 /\ Notions.hits_ground 0.1 Cases.nose_down /\
  Aircraft.y (Aircraft.update 0.1 0.5 Cases.nose_down) =
    KIND_ELEVATION * FEET_TO_METERS.
Proof.
  assert (Hdt : 0 < 0.1) by lra.
  split; [exact Hdt | ].
  split; [exact nose_down_hits_ground | ].
  exact (proj1 (C2_ground_floor 0.1 0.5 Cases.nose_down Hdt
                  nose_down_hits_ground)).
Defined.

(** C2, as stated, fails: landing slow and nose down, the ground check
    fires and yet the vertical speed on return is -0.98, not 0. *)
Lemma C2_vertical_speed_not_zero_on_return :
  0 < 0.1 /\ Notions.hits_ground 0.1 Cases.nose_down /\
  Aircraft.vertical_speed (Aircraft.update 0.1 0.5 Cases.nose_down) = -0.98 /\
  Aircraft.vertical_speed (Aircraft.update 0.1 0.5 Cases.nose_down) <> 0.
Proof.
  assert (Hvs :
    Aircraft.vertical_speed (Aircraft.update 0.1 0.5 Cases.nose_down)
    = -0.98).
  { rewrite (grounded_vertical_speed _ _ _ nose_down_hits_ground).
    assert (Hp : Aircraft.pitch (Aircraft.update 0.1 0.5 Cases.nose_down) = 0).
    { rewrite update_pitch.
      destruct (after_ground_hit _ _ nose_down_hits_ground) as (_ & _ & ->).
      change (Aircraft.pitch Cases.nose_down) with (-30).
      change (Aircraft.elevator Cases.nose_down) with 0.
      replace (Py.max 0 (-30)) with 0
        by (destruct (max_cases 0 (-30)) as [[? ->] | [? ->]]; lra).
      rewrite clamp_inside; lra. }
    assert (Ha : Aircraft.airspeed (Aircraft.update 0.1 0.5 Cases.nose_down)
                 = 9.5).
    { rewrite update_airspeed.
      change (Aircraft.airspeed Cases.nose_down) with 10.
      change (Aircraft.throttle Cases.nose_down) with 0. lra. }
    rewrite (target_vs_level _ Hp), stall_sink_stalled; [lra | ].
    unfold Aircraft.stalled. rewrite Ha.
    unfold CESSNA_STALL_SPEED, KNOTS_TO_MPS. lra. }
  split; [lra | ].
  split; [exact nose_down_hits_ground | ].
  split; [exact Hvs | rewrite Hvs; lra].
Qed.

(** ** Fuel and engine speed *)

Section Fuel.

Import Aircraft Notions.

Lemma ticks_throttle (n : nat) (dt : R) (rnd : nat -> R) (s : t) :
  throttle (Sim.ticks n dt rnd s) = throttle s.
Proof.
  induction n as [ | n IH]; cbn; [reflexivity | ].
  rewrite (proj1 (update_controls _ _ _)). exact IH.
Qed.

(** Throttle at 0: one call leaves the fuel as it is. *)
Lemma fuel_constant_at_idle (dt rnd : R) (s : t) :
  throttle s = 0 -> 0 <= fuel s -> fuel (update dt rnd s) = fuel s.
Proof.
  intros Hth Hf. rewrite update_fuel, Hth.
  destruct (max_cases 0 (fuel s - 0 * dt * 0.05)) as [[? ->] | [? ->]]; lra.
Qed.

Lemma fuel_constant_at_idle_ticks (n : nat) (dt : R) (rnd : nat -> R) (s : t) :
  throttle s = 0 -> 0 <= fuel s -> fuel (Sim.ticks n dt rnd s) = fuel s.
Proof.
  intros Hth Hf. induction n as [ | n IH]; cbn; [reflexivity | ].
  rewrite fuel_constant_at_idle; [exact IH | | rewrite IH; exact Hf].
  rewrite ticks_throttle. exact Hth.
Qed.

(** Throttle at 1: one call burns fuel as long as some is left. *)
Lemma fuel_decreases_at_full_throttle (dt rnd : R) (s : t) :
  throttle s = 1 -> 0 < dt -> 0 < fuel s ->
  0 <= fuel (update dt rnd s) < fuel s.
Proof.
  intros Hth Hdt Hf. rewrite update_fuel, Hth.
  destruct (max_cases 0 (fuel s - 1 * dt * 0.05)) as [[? ->] | [? ->]]; lra.
Qed.

Lemma fuel_stays_empty (dt rnd : R) (s : t) :
  0 <= throttle s -> 0 < dt -> fuel s = 0 -> fuel (update dt rnd s) = 0.
Proof.
  intros Hth Hdt Hf. rewrite update_fuel, Hf.
  assert (0 <= throttle s * dt) by (apply Rmult_le_pos; lra).
  destruct (max_cases 0 (0 - throttle s * dt * 0.05)) as [[? ->] | [? ->]];
    lra.
Qed.

(** Tanks empty and throttle at 1: the lag towards 2800 RPM and the
    subtraction of [500 * dt] balance at 2550 RPM, and one call moves the
    engine speed towards 2550 by the factor [1 - 2 * dt]. *)
Lemma rpm_on_empty_tanks (dt rnd : R) (s : t) :
  throttle s = 1 -> fuel s = 0 -> 0 < dt <= 1 / 2 -> 0 <= rpm s ->
  rpm (update dt rnd s) - 2550 = (rpm s - 2550) * (1 - 2 * dt).
Proof.
  intros Hth Hf Hdt Hr.
  rewrite update_rpm_eq. cbv zeta.
  rewrite (fuel_stays_empty dt rnd s) by lra.
  destruct (Rle_dec 0 0) as [_ | Hn]; [ | lra ].
  rewrite Hth.
  assert (0 <= rpm s * (1 - 2 * dt)) by (apply Rmult_le_pos; lra).
  destruct (max_cases 0 (rpm s + (500 + 1 * 2300 - rpm s) * dt * 2 - 500 * dt))
    as [[? ->] | [? ->]]; lra.
Qed.

Lemma rpm_not_below_on_empty_tanks (dt rnd : R) (s : t) :
  throttle s = 1 -> fuel s = 0 -> 0 < dt <= 1 / 2 ->
  0 <= rpm s <= 2550 ->
  rpm s <= rpm (update dt rnd s) <= 2550.
Proof.
  intros Hth Hf Hdt Hr.
  pose proof (rpm_on_empty_tanks dt rnd s Hth Hf Hdt (proj1 Hr)) as E.
  assert (0 <= (2550 - rpm s) * (1 - 2 * dt)) by (apply Rmult_le_pos; lra).
  assert (0 <= (2550 - rpm s) * (2 * dt)) by (apply Rmult_le_pos; lra).
  lra.
Qed.

(** Throttle held at 1 for [n] calls: the fuel left. *)
Lemma fuel_at_full_throttle_ticks (n : nat) (dt : R) (rnd : nat -> R) (s : t) :
  throttle s = 1 -> 0 < dt -> 0 <= fuel s ->
  fuel (Sim.ticks n dt rnd s) = Py.max 0 (fuel s - INR n * (dt * 0.05)).
Proof.
  intros Hth Hdt Hf. induction n as [ | n IH].
  - cbn. destruct (max_cases 0 (fuel s - 0 * (dt * 0.05))) as [[? ->] | [? ->]];
      lra.
  - cbn [Sim.ticks]. rewrite update_fuel, ticks_throttle, Hth, IH, S_INR.
    destruct (max_cases 0 (fuel s - INR n * (dt * 0.05))) as [[? ->] | [? ->]];
      destruct (max_cases 0 (fuel s - (INR n + 1) * (dt * 0.05)))
        as [[? ->] | [? ->]];
      match goal with
      | |- Py.max ?u ?v = _ => destruct (max_cases u v) as [[? ->] | [? ->]]
      end; lra.
Qed.

(** It falls at every call while some is left, stays at 0 afterwards, and
    does reach 0. *)
Lemma fuel_runs_out_at_full_throttle (dt : R) (rnd : nat -> R) (s : t) :
  throttle s = 1 -> 0 < dt -> 0 <= fuel s ->
  (forall n : nat,
     0 < fuel (Sim.ticks n dt rnd s) ->
     fuel (Sim.ticks (S n) dt rnd s) < fuel (Sim.ticks n dt rnd s)) /\
  (forall n : nat,
     fuel (Sim.ticks n dt rnd s) = 0 ->
     fuel (Sim.ticks (S n) dt rnd s) = 0) /\
  exists N : nat, fuel (Sim.ticks N dt rnd s) = 0.
Proof.
  intros Hth Hdt Hf. repeat split.
  - intros n Hpos. cbn [Sim.ticks].
    apply fuel_decreases_at_full_throttle;
      [rewrite ticks_throttle; exact Hth | exact Hdt | exact Hpos].
  - intros n Hz. cbn [Sim.ticks].
    apply fuel_stays_empty;
      [rewrite ticks_throttle; lra | exact Hdt | exact Hz].
  - destruct (INR_unbounded (fuel s / (dt * 0.05))) as [N HN].
    exists N. rewrite fuel_at_full_throttle_ticks by assumption.
    assert (Hc : 0 < dt * 0.05) by lra.
    assert (fuel s < INR N * (dt * 0.05)).
    { apply (Rmult_lt_compat_r (dt * 0.05)) in HN; [ | exact Hc ].
      unfold Rdiv in HN. rewrite Rmult_assoc, Rinv_l in HN by lra. lra. }
    destruct (max_cases 0 (fuel s - INR N * (dt * 0.05)))
      as [[? ->] | [? ->]]; lra.
Qed.

(** Tanks empty, throttle held at 1, time step up to half a second: after
    [n] calls the engine speed is 2550 plus the first offset from 2550
    times [(1 - 2 * dt) ^ n]. *)
Lemma rpm_on_empty_tanks_ticks (n : nat) (dt : R) (rnd : nat -> R) (s : t) :
  throttle s = 1 -> fuel s = 0 -> 0 < dt <= 1 / 2 -> 0 <= rpm s ->
  fuel (Sim.ticks n dt rnd s) = 0 /\
  0 <= rpm (Sim.ticks n dt rnd s) /\
  rpm (Sim.ticks n dt rnd s) - 2550 = (rpm s - 2550) * (1 - 2 * dt) ^ n.
Proof.
  intros Hth Hf Hdt Hr. induction n as [ | n (IHf & IHr & IH)].
  - cbn. repeat split; lra.
  - cbn [Sim.ticks pow].
    assert (Hth' : throttle (Sim.ticks n dt rnd s) = 1)
      by (rewrite ticks_throttle; exact Hth).
    pose proof (rpm_on_empty_tanks dt (rnd n) _ Hth' IHf Hdt IHr) as E.
    split; [ apply fuel_stays_empty; lra | ].
    assert (0 <= rpm (Sim.ticks n dt rnd s) * (1 - 2 * dt))
      by (apply Rmult_le_pos; lra).
    split; [ lra | ].
    rewrite E, IH. lra.
Qed.

End Fuel.

(** C3, the behaviour of the code on empty tanks: with fuel at 0, throttle
    at 1 and the engine at 2000 RPM, one call of 0.1 s leaves the fuel at 0
    and raises the engine speed to 2110 RPM. *)
Theorem C3_rpm_rises_on_empty_tanks :
  Aircraft.fuel Cases.dry_tanks = 0 /\
  Aircraft.throttle Cases.dry_tanks = 1 /\
  Aircraft.rpm Cases.dry_tanks = 2000 /\
  Aircraft.fuel (Aircraft.update 0.1 0.5 Cases.dry_tanks) = 0 /\
  Aircraft.rpm (Aircraft.update 0.1 0.5 Cases.dry_tanks) = 2110.
Proof.
  split; [reflexivity | ]. split; [reflexivity | ]. split; [reflexivity | ].
  split.
  - apply fuel_stays_empty; [cbn; lra | lra | reflexivity].
  - assert (E : Aircraft.rpm (Aircraft.update 0.1 0.5 Cases.dry_tanks) - 2550
                = (Aircraft.rpm Cases.dry_tanks - 2550) * (1 - 2 * 0.1)).
    { apply rpm_on_empty_tanks; try reflexivity; cbn; lra. }
    change (Aircraft.rpm Cases.dry_tanks) with 2000 in E. lra.
Qed.

(** ** The throttle lag *)

Section Lag.

Import Aircraft Notions.

Variables (dt : R) (rnd : nat -> R) (s : t).

Let T : R := target_airspeed s.

Lemma airspeed_gap_step (r : R) (a : t) :
  airspeed (update dt r a) - target_airspeed a =
  (airspeed a - target_airspeed a) * (1 - dt * 0.5).
Proof. rewrite update_airspeed. unfold target_airspeed. lra. Qed.

Lemma ticks_target (n : nat) : target_airspeed (Sim.ticks n dt rnd s) = T.
Proof. unfold T, target_airspeed. rewrite ticks_throttle. reflexivity. Qed.

(** The gap to the target after [n] calls is the first gap times the
    [n]-th power of [1 - dt * 0.5]. *)
Lemma airspeed_gap_ticks (n : nat) :
  airspeed (Sim.ticks n dt rnd s) - T =
  (airspeed s - T) * (1 - dt * 0.5) ^ n.
Proof.
  induction n as [ | n IH]; cbn [Sim.ticks pow]; [lra | ].
  rewrite <- (ticks_target n) at 1.
  rewrite airspeed_gap_step, ticks_target, IH. lra.
Qed.

Hypothesis dt_small : 0 < dt < 2.

Lemma lag_factor_range : 0 < 1 - dt * 0.5 < 1.
Proof. lra. Qed.

Lemma lag_power_range (n : nat) : 0 < (1 - dt * 0.5) ^ n <= 1.
Proof.
  pose proof lag_factor_range as Hq.
  split; [apply pow_lt; lra | ].
  induction n as [ | n IH]; cbn [pow]; [lra | ].
  assert (0 < (1 - dt * 0.5) ^ n) by (apply pow_lt; lra).
  nra.
Qed.

Lemma airspeed_rises_below_target (n : nat) :
  airspeed s <= T ->
  airspeed (Sim.ticks n dt rnd s) <= airspeed (Sim.ticks (S n) dt rnd s) <= T.
Proof.
  intros Hle.
  pose proof (airspeed_gap_ticks n) as En.
  pose proof (airspeed_gap_ticks (S n)) as ES.
  cbn [pow] in ES.
  pose proof (lag_power_range n) as Hp.
  pose proof lag_factor_range as Hq.
  assert (0 <= (T - airspeed s) * (1 - dt * 0.5) ^ n)
    by (apply Rmult_le_pos; lra).
  assert (0 <= (T - airspeed s) * (1 - dt * 0.5) ^ n * (1 - dt * 0.5))
    by (apply Rmult_le_pos; lra).
  assert (0 <= (T - airspeed s) * (1 - dt * 0.5) ^ n * (dt * 0.5))
    by (apply Rmult_le_pos; lra).
  lra.
Qed.

Lemma airspeed_falls_above_target (n : nat) :
  T <= airspeed s ->
  T <= airspeed (Sim.ticks (S n) dt rnd s) <= airspeed (Sim.ticks n dt rnd s).
Proof.
  intros Hle.
  pose proof (airspeed_gap_ticks n) as En.
  pose proof (airspeed_gap_ticks (S n)) as ES.
  cbn [pow] in ES.
  pose proof (lag_power_range n) as Hp.
  pose proof lag_factor_range as Hq.
  assert (0 <= (airspeed s - T) * (1 - dt * 0.5) ^ n)
    by (apply Rmult_le_pos; lra).
  assert (0 <= (airspeed s - T) * (1 - dt * 0.5) ^ n * (1 - dt * 0.5))
    by (apply Rmult_le_pos; lra).
  assert (0 <= (airspeed s - T) * (1 - dt * 0.5) ^ n * (dt * 0.5))
    by (apply Rmult_le_pos; lra).
  lra.
Qed.

Lemma airspeed_converges (eps : R) :
  0 < eps ->
  exists N : nat,
    forall n : nat,
      (N <= n)%nat -> Rabs (airspeed (Sim.ticks n dt rnd s) - T) < eps.
Proof.
  intros Heps.
  destruct (Req_dec (airspeed s) T) as [E | NE].
  - exists O. intros n _. rewrite airspeed_gap_ticks, E.
    replace ((T - T) * (1 - dt * 0.5) ^ n) with 0 by lra.
    rewrite Rabs_R0. exact Heps.
  - assert (Hg : 0 < Rabs (airspeed s - T))
      by (apply Rabs_pos_lt; lra).
    assert (Hq : Rabs (1 - dt * 0.5) < 1)
      by (apply Rabs_def1; lra).
    destruct (pow_lt_1_zero (1 - dt * 0.5) Hq (eps / Rabs (airspeed s - T)))
      as [N HN].
    { apply Rdiv_lt_0_compat; assumption. }
    exists N. intros n Hn.
    rewrite airspeed_gap_ticks, Rabs_mult.
    specialize (HN n Hn).
    apply (Rmult_lt_compat_l (Rabs (airspeed s - T))) in HN; [ | exact Hg ].
    replace (Rabs (airspeed s - T) * (eps / Rabs (airspeed s - T)))
      with eps in HN by (field; lra).
    exact HN.
Qed.

End Lag.

(** The same without a fixed time step: whatever the steps below two
    seconds, the airspeed stays between where it started and the target. *)
Lemma airspeed_between_start_and_target (steps : list (R * R)) :
  forall s : Aircraft.t,
    Forall (fun p => 0 < fst p < 2) steps ->
    (Aircraft.airspeed s <= Notions.target_airspeed s ->
     Aircraft.airspeed s <= Aircraft.airspeed (Sim.updates steps s)
       <= Notions.target_airspeed s) /\
    (Notions.target_airspeed s <= Aircraft.airspeed s ->
     Notions.target_airspeed s <= Aircraft.airspeed (Sim.updates steps s)
       <= Aircraft.airspeed s).
Proof.
  induction steps as [ | [dt rnd] steps IH]; intros s Hok.
  - cbn. split; intros; lra.
  - inversion Hok as [ | ? ? Hdt Hrest]; subst. cbn in Hdt.
    cbn [Sim.updates fold_left fst snd].
    change (fold_left (fun a p => Aircraft.update (fst p) (snd p) a) steps
              (Aircraft.update dt rnd s))
      with (Sim.updates steps (Aircraft.update dt rnd s)).
    pose proof (airspeed_gap_step dt rnd s) as E.
    assert (ET : Notions.target_airspeed (Aircraft.update dt rnd s) =
                 Notions.target_airspeed s).
    { unfold Notions.target_airspeed.
      rewrite (proj1 (update_controls dt rnd s)). reflexivity. }
    destruct (IH (Aircraft.update dt rnd s) Hrest) as [IHlo IHhi].
    rewrite ET in IHlo, IHhi.
    split; intros Hs.
    + assert (0 <= (Notions.target_airspeed s - Aircraft.airspeed s)
                   * (1 - dt * 0.5)) by (apply Rmult_le_pos; lra).
      assert (0 <= (Notions.target_airspeed s - Aircraft.airspeed s)
                   * (dt * 0.5)) by (apply Rmult_le_pos; lra).
      lra.
    + assert (0 <= (Aircraft.airspeed s - Notions.target_airspeed s)
                   * (1 - dt * 0.5)) by (apply Rmult_le_pos; lra).
      assert (0 <= (Aircraft.airspeed s - Notions.target_airspeed s)
                   * (dt * 0.5)) by (apply Rmult_le_pos; lra).
      lra.
Qed.

(** C4: with the throttle held at [k] between 0 and 1 and a time step
    below two seconds, the gap between airspeed and [k * 140 knots] (in
    m/s) after [n] calls is the first gap times [(1 - dt * 0.5) ^ n]; the
    airspeed moves towards the target at every call and never crosses it;
    and it comes within any tolerance of the target after enough calls. *)
Theorem C4_airspeed_converges_to_throttle_target
  (k dt : R) (rnd : nat -> R) (s : Aircraft.t) :
  0 <= k <= 1 ->
  Aircraft.throttle s = k ->
  0 < dt < 2 ->
  let target := k * CESSNA_MAX_SPEED * KNOTS_TO_MPS in
  let speed n := Aircraft.airspeed (Sim.ticks n dt rnd s) in
  (forall n : nat,
     speed (S n) = speed n + (target - speed n) * dt * 0.5) /\
  (forall n : nat,
     speed n - target = (speed 0%nat - target) * (1 - dt * 0.5) ^ n) /\
  (speed 0%nat <= target ->
     forall n : nat, speed n <= speed (S n) <= target) /\
  (target <= speed 0%nat ->
     forall n : nat, target <= speed (S n) <= speed n) /\
  (forall eps : R,
     0 < eps ->
     exists N : nat,
       forall n : nat, (N <= n)%nat -> Rabs (speed n - target) < eps).
Proof.
  intros Hk Hth Hdt target speed.
  assert (ET : Notions.target_airspeed s = target)
    by (unfold Notions.target_airspeed, target; rewrite Hth; reflexivity).
  unfold speed. rewrite <- ET.
  split.
  { intros n. cbn [Sim.ticks]. rewrite update_airspeed.
    rewrite <- (ticks_target dt rnd s n). reflexivity. }
  split; [ intros n; apply airspeed_gap_ticks | ].
  split; [ intros H n; apply airspeed_rises_below_target; assumption | ].
  split; [ intros H n; apply airspeed_falls_above_target; assumption | ].
  intros eps Heps. apply airspeed_converges; assumption.
Qed.

Lemma C4_airspeed_witness :
  Aircraft.throttle Cases.throttle_080 = 0.8 /\
  forall eps : R,
    0 < eps ->
    exists N : nat,
      forall n : nat,
        (N <= n)%nat ->
        Rabs (Aircraft.airspeed
                (Sim.ticks n 0.1 (fun _ => 0.5) Cases.throttle_080)
              - 0.8 * CESSNA_MAX_SPEED * KNOTS_TO_MPS) < eps.
Proof.
  assert (Hk : 0 <= 0.8 <= 1) by lra.
  assert (Hdt : 0 < 0.1 < 2) by lra.
  split; [reflexivity | ].
  exact (proj2 (proj2 (proj2 (proj2
    (C4_airspeed_converges_to_throttle_target 0.8 0.1 (fun _ => 0.5)
       Cases.throttle_080 Hk eq_refl Hdt))))).
Defined.

(** ** The camera *)

Section Camera.

Import FlightSimulator.

Lemma radians_0 : Py.radians 0 = 0.
Proof. unfold Py.radians. lra. Qed.

Lemma matvec_identity (v : Np.vec3) : Np.matvec Np.identity3 v = v.
Proof.
  destruct v as [[v0 v1] v2]. unfold Np.identity3. cbn.
  repeat f_equal; lra.
Qed.

(** Heading, pitch and roll all 0: the three matrices and their product
    are the identity. *)
Lemma camera_rotation_level (a : Aircraft.t) :
  Aircraft.heading a = 0 -> Aircraft.pitch a = 0 -> Aircraft.roll a = 0 ->
  camera_rotation a = Np.identity3.
Proof.
  intros Hh Hp Hr. unfold camera_rotation.
  rewrite Hh, Hp, Hr, radians_0.
  unfold R_roll, R_pitch, R_heading, Np.identity3. cbv zeta.
  rewrite sin_0, cos_0. cbn.
  repeat f_equal; lra.
Qed.

End Camera.

(** C5: with heading, pitch and roll all 0 and the eye offset
    (0, 0.1, -0.3), the eye position computed by [render] is the aircraft
    position plus (0, 0.1, -0.3); and for every attitude the rotation is
    the product Roll . Pitch . Heading. *)
Theorem C5_camera_eye_at_level_attitude (g : FlightSimulator.t) :
  Aircraft.heading (FlightSimulator.aircraft g) = 0 ->
  Aircraft.pitch (FlightSimulator.aircraft g) = 0 ->
  Aircraft.roll (FlightSimulator.aircraft g) = 0 ->
  FlightSimulator.eye_offset g = (0, 0.1, -0.3) ->
  FlightSimulator.camera_eye g =
    (Aircraft.x (FlightSimulator.aircraft g) + 0,
     Aircraft.y (FlightSimulator.aircraft g) + 0.1,
     Aircraft.z (FlightSimulator.aircraft g) + -0.3) /\
  forall a : Aircraft.t,
    FlightSimulator.camera_rotation a =
    Np.matmul
      (Np.matmul (FlightSimulator.R_roll (Py.radians (Aircraft.roll a)))
                 (FlightSimulator.R_pitch (Py.radians (Aircraft.pitch a))))
      (FlightSimulator.R_heading (Py.radians (Aircraft.heading a))).
Proof.
  intros Hh Hp Hr Ho. split; [ | reflexivity ].
  unfold FlightSimulator.camera_eye. cbv zeta.
  rewrite (camera_rotation_level _ Hh Hp Hr), matvec_identity, Ho.
  reflexivity.
Qed.

Lemma C5_camera_eye_witness :
  FlightSimulator.camera_eye
    (FlightSimulator.set_aircraft Aircraft.__init__ FlightSimulator.__init__)
  = (0 + 0, KIND_ELEVATION * FEET_TO_METERS + 0.1, 0 + -0.3).
Proof.
  exact (proj1 (C5_camera_eye_at_level_attitude
    (FlightSimulator.set_aircraft Aircraft.__init__ FlightSimulator.__init__)
    eq_refl eq_refl eq_refl eq_refl)).
Defined.

(** ** The heading wrap *)

Section Heading.

Import Aircraft Notions.

Lemma update_heading_increment (dt rnd : R) (s : t) :
  heading (update dt rnd s) =
  Py.mod_ (heading s + heading_increment dt s) 360.
Proof.
  rewrite update_heading. unfold heading_increment. f_equal. lra.
Qed.

(** Wings level and no aileron input: the banking term vanishes. *)
Lemma heading_increment_level (dt : R) (s : t) :
  roll s = 0 -> aileron s = 0 ->
  heading_increment dt s = rudder s * CESSNA_YAW_RATE * dt.
Proof.
  intros Hr Ha. unfold heading_increment. rewrite Hr, Ha.
  replace (0 + 0 * CESSNA_ROLL_RATE * dt) with 0 by lra.
  rewrite radians_0, sin_0. lra.
Qed.

Lemma heading_range (dt rnd : R) (s : t) :
  0 <= heading (update dt rnd s) < 360.
Proof. rewrite update_heading. apply mod_range. lra. Qed.

End Heading.

(** C6: from heading 359 with rudder +1 and an increment before the wrap
    (rudder term plus banking term) above 1 degree, the heading on return
    is (359 + increment) mod 360, at least 0 and below 360; below 361
    degrees of increment that is just [increment - 1]; and with wings
    level and no aileron input the increment is [CESSNA_YAW_RATE * dt]. *)
Theorem C6_heading_wraps_past_360 (dt rnd : R) (s : Aircraft.t) :
  Aircraft.heading s = 359 ->
  Aircraft.rudder s = 1 ->
  1 < Notions.heading_increment dt s ->
  Aircraft.heading (Aircraft.update dt rnd s) =
    Py.mod_ (359 + Notions.heading_increment dt s) 360 /\
  0 <= Aircraft.heading (Aircraft.update dt rnd s) < 360 /\
  (Notions.heading_increment dt s < 361 ->
   Aircraft.heading (Aircraft.update dt rnd s) =
     Notions.heading_increment dt s - 1) /\
  (Aircraft.roll s = 0 -> Aircraft.aileron s = 0 ->
   Notions.heading_increment dt s = CESSNA_YAW_RATE * dt).
Proof.
  intros Hh Hr Hinc.
  assert (E : Aircraft.heading (Aircraft.update dt rnd s) =
              Py.mod_ (359 + Notions.heading_increment dt s) 360)
    by (rewrite update_heading_increment, Hh; reflexivity).
  split; [exact E | ].
  split; [apply heading_range | ].
  split.
  - intros Hlt. rewrite E.
    rewrite (mod_shift _ 360 1); lra.
  - intros H0 Ha. rewrite heading_increment_level by assumption.
    rewrite Hr. lra.
Qed.

Lemma heading_359_increment : Notions.heading_increment 0.1 Cases.heading_359 = 2.
Proof.
  rewrite heading_increment_level by reflexivity.
  change (Aircraft.rudder Cases.heading_359) with 1.
  unfold CESSNA_YAW_RATE. lra.
Qed.

Lemma C6_heading_witness :
  Aircraft.heading Cases.heading_359 = 359 /\
  Aircraft.rudder Cases.heading_359 = 1 /\
  1 < Notions.heading_increment 0.1 Cases.heading_359 /\
  Aircraft.heading (Aircraft.update 0.1 0.5 Cases.heading_359) =
    Py.mod_ (359 + Notions.heading_increment 0.1 Cases.heading_359) 360.
Proof.
  assert (Hinc : 1 < Notions.heading_increment 0.1 Cases.heading_359)
    by (rewrite heading_359_increment; lra).
  split; [reflexivity | ]. split; [reflexivity | ]. split; [exact Hinc | ].
  exact (proj1 (C6_heading_wraps_past_360 0.1 0.5 Cases.heading_359
                  eq_refl eq_refl Hinc)).
Defined.

(** ** The random draw *)

Section Randomness.

Import Aircraft Notions.

(** The airspeed and the roll that the two tests of "Stall behavior" read
    are those of the same call after the throttle lag and after the roll
    limit and levelling. *)
Lemma stall_test_values (dt : R) (s : t) :
  airspeed (before_stall dt s) =
    airspeed s + (target_airspeed s - airspeed s) * dt * 0.5 /\
  roll (before_stall dt s) =
    (let limited :=
       Py.max (-60) (Py.min 60 (roll s + aileron s * CESSNA_ROLL_RATE * dt)) in
     if Rlt_dec (Py.abs (aileron s)) 0.1 then limited * 0.95 else limited).
Proof.
  split.
  - rewrite (before_stall_airspeed dt 0), update_airspeed. reflexivity.
  - apply before_stall_roll.
Qed.

(** The draw is not read unless the stall test and the level-wings test
    both succeed. *)
Lemma stall_behavior_ignores_draw (dt r1 r2 : R) (b : t) :
  CESSNA_STALL_SPEED * KNOTS_TO_MPS * 0.9 <= airspeed b \/
  5 <= Py.abs (roll b) ->
  stall_behavior dt r1 b = stall_behavior dt r2 b.
Proof.
  intros H. unfold stall_behavior. cbv zeta.
  destruct (stalled_dec b) as [Hs | _]; [ | reflexivity ].
  unfold stalled in Hs.
  destruct H as [H | H]; [lra | ].
  destruct b as [? ? ? ? r ? ? ? ? ? ? ? ? ? ? ?]. cbn in *.
  destruct (Rlt_dec (Py.abs r) 5); [lra | reflexivity].
Qed.

(** Whatever the draw, it reaches the roll only. *)
Lemma draw_reaches_roll_only (dt r1 r2 : R) (s : t) :
  set_roll 0 (update dt r1 s) = set_roll 0 (update dt r2 s).
Proof.
  unfold update. rewrite !stall_behavior_nf.
  destruct (before_stall dt s). reflexivity.
Qed.

(** Stalled with wings level, the draw is added to the roll. *)
Lemma stalled_level_roll (dt rnd : R) (s : t) :
  stalled (before_stall dt s) ->
  Py.abs (roll (before_stall dt s)) < 5 ->
  roll (update dt rnd s) =
  roll (before_stall dt s) + (rnd - 0.5) * 10 * dt.
Proof.
  intros Hs Hr. rewrite update_roll. cbv zeta.
  destruct (stalled_dec (before_stall dt s)); [ | contradiction ].
  destruct (Rlt_dec (Py.abs (roll (before_stall dt s))) 5);
    [reflexivity | contradiction].
Qed.

End Randomness.

(** C7: two calls of [update] from the same state with the same time step
    and controls return the same state whatever the two random draws,
    provided that at the stall test of the call the airspeed is at least
    0.9 times the stall speed or the absolute roll is at least 5 degrees. *)
Theorem C7_update_deterministic_outside_stall_jitter
  (dt r1 r2 : R) (s : Aircraft.t) :
  CESSNA_STALL_SPEED * KNOTS_TO_MPS * 0.9 <=
    Aircraft.airspeed (Aircraft.before_stall dt s) \/
  5 <= Py.abs (Aircraft.roll (Aircraft.before_stall dt s)) ->
  Aircraft.update dt r1 s = Aircraft.update dt r2 s.
Proof.
  intros H. unfold Aircraft.update.
  apply stall_behavior_ignores_draw, H.
Qed.

Lemma cruising_not_stalled :
  CESSNA_STALL_SPEED * KNOTS_TO_MPS * 0.9 <=
  Aircraft.airspeed (Aircraft.before_stall 0.1 Cases.cruising).
Proof.
  rewrite (before_stall_airspeed 0.1 0.5), update_airspeed.
  change (Aircraft.airspeed Cases.cruising) with 60.
  change (Aircraft.throttle Cases.cruising) with 1.
  unfold CESSNA_STALL_SPEED, CESSNA_MAX_SPEED, KNOTS_TO_MPS. lra.
Qed.

Lemma C7_deterministic_witness :
  (CESSNA_STALL_SPEED * KNOTS_TO_MPS * 0.9 <=
     Aircraft.airspeed (Aircraft.before_stall 0.1 Cases.cruising) \/
   5 <= Py.abs (Aircraft.roll (Aircraft.before_stall 0.1 Cases.cruising))) /\
  Aircraft.update 0.1 0.25 Cases.cruising =
  Aircraft.update 0.1 0.75 Cases.cruising.
Proof.
  assert (H : CESSNA_STALL_SPEED * KNOTS_TO_MPS * 0.9 <=
                Aircraft.airspeed (Aircraft.before_stall 0.1 Cases.cruising) \/
              5 <= Py.abs (Aircraft.roll
                             (Aircraft.before_stall 0.1 Cases.cruising)))
    by (left; exact cruising_not_stalled).
  split; [exact H | ].
  exact (C7_update_deterministic_outside_stall_jitter 0.1 0.25 0.75
           Cases.cruising H).
Defined.

(** A first call of twenty seconds on the fresh aircraft, stalled and
    level, with the draw 0.9: the jitter is added after the roll limit and
    the roll on return is 80 degrees. *)
Lemma long_step_roll_past_limit :
  Aircraft.roll (Aircraft.update 20 0.9 Aircraft.__init__) = 80.
Proof.
  assert (Hroll : Aircraft.roll (Aircraft.before_stall 20 Aircraft.__init__)
                  = 0).
  { rewrite before_stall_roll. cbv zeta.
    change (Aircraft.roll Aircraft.__init__) with 0.
    change (Aircraft.aileron Aircraft.__init__) with 0.
    replace (0 + 0 * CESSNA_ROLL_RATE * 20) with 0 by lra.
    rewrite clamp_inside by lra.
    destruct (Rlt_dec (Py.abs 0) 0.1); lra. }
  rewrite stalled_level_roll.
  - rewrite Hroll. lra.
  - unfold Aircraft.stalled.
    rewrite (before_stall_airspeed 20 0.9), update_airspeed.
    change (Aircraft.airspeed Aircraft.__init__) with 0.
    change (Aircraft.throttle Aircraft.__init__) with 0.
    unfold CESSNA_STALL_SPEED, KNOTS_TO_MPS. lra.
  - rewrite Hroll. unfold Py.abs. rewrite Rabs_R0. lra.
Qed.

(** ** Exceptions and the clamping of inputs *)

Section Inputs.

Import Aircraft.

Lemma div_exc_some (a b : R) : b <> 0 -> Py.div_exc a b = Some (a / b).
Proof.
  intros H. unfold Py.div_exc.
  destruct (Req_dec_T b 0); [contradiction | reflexivity].
Qed.

Lemma mod_exc_some (a b : R) : b <> 0 -> Py.mod_exc a b = Some (Py.mod_ a b).
Proof.
  intros H. unfold Py.mod_exc.
  destruct (Req_dec_T b 0); [contradiction | reflexivity].
Qed.

Lemma target_vs_total (s : t) : Exc.target_vs s = Some (target_vs s).
Proof.
  unfold Exc.target_vs, target_vs.
  assert (H10 : 10 <> 0) by lra.
  assert (H60 : 60 <> 0) by lra.
  assert (Hc : CESSNA_CRUISE_SPEED * KNOTS_TO_MPS <> 0)
    by (unfold CESSNA_CRUISE_SPEED, KNOTS_TO_MPS; lra).
  destruct (Rlt_dec 0 (pitch s)); [ | destruct (Rlt_dec (pitch s) 0) ];
    rewrite ?div_exc_some by assumption; reflexivity.
Qed.

(** No division or modulo of [update] has a zero divisor: the call
    returns, for every state, time step and draw. *)
Lemma update_total (dt rnd : R) (s : t) :
  Exc.update dt rnd s = Some (update dt rnd s).
Proof.
  unfold Exc.update, Exc.normalize_heading, Exc.adjust_vertical_speed.
  rewrite mod_exc_some by lra. cbn [Exc.bind].
  rewrite target_vs_total. reflexivity.
Qed.

(** What [handle_input] does clamp: the throttle, the rudder and the flap
    index. *)
Lemma handle_input_throttle_clamped events keys (g : FlightSimulator.t) :
  0 <= throttle (FlightSimulator.aircraft g) <= 1 ->
  0 <= throttle
         (FlightSimulator.aircraft
            (FlightSimulator.handle_input events keys g)) <= 1.
Proof.
  intros H. unfold FlightSimulator.handle_input. cbn.
  change (0 <= throttle
            (Notions.axis_keys keys
               (FlightSimulator.throttle_keys keys
                  (FlightSimulator.aircraft
                     (fold_left FlightSimulator.handle_event events g))))
          <= 1).
  rewrite (proj1 (proj2 (proj2 (proj2 (axis_keys_frame _ _))))).
  apply throttle_keys_range.
  revert g H.
  induction events as [ | e events IH]; intros g H; cbn; [exact H | ].
  apply IH.
  destruct e as [ | k | [dx dy] | ]; cbn; try exact H.
  - destruct k; cbn; try exact H. lra.
  - destruct (negb (FlightSimulator.paused g)); cbn; exact H.
Qed.

Lemma handle_input_rudder_clamped events keys (g : FlightSimulator.t) :
  -1 <= rudder
          (FlightSimulator.aircraft
             (FlightSimulator.handle_input events keys g)) <= 1.
Proof.
  unfold FlightSimulator.handle_input. cbn.
  generalize (FlightSimulator.throttle_keys keys
                (FlightSimulator.aircraft
                   (fold_left FlightSimulator.handle_event events g))).
  intros a.
  unfold FlightSimulator.aileron_keys, FlightSimulator.elevator_keys,
    FlightSimulator.rudder_keys.
  destruct a.
  repeat match goal with
  | |- context [if ?c then _ else _] => destruct c; cbn
  end; lra.
Qed.

Lemma flap_key_clamped (g : FlightSimulator.t) :
  (0 <= flaps
          (FlightSimulator.aircraft
             (FlightSimulator.handle_event g
                (FlightSimulator.KEYDOWN FlightSimulator.K_f))) < 4)%Z.
Proof. cbn. apply Z.mod_pos_bound. lia. Qed.

Lemma after_ground_no_hit (dt : R) (s : t) :
  ~ Notions.hits_ground dt s -> after_ground dt s = integrate_position dt s.
Proof.
  unfold Notions.hits_ground, after_ground, ground_collision. intros H.
  destruct (Rlt_dec (y (integrate_position dt s))
                    (KIND_ELEVATION * FEET_TO_METERS));
    [contradiction | reflexivity].
Qed.

(** A mouse motion of 200 pixels upwards sets the elevator to 2, and the
    key statements that follow leave it there. *)
Lemma aircraft_after_mouse_flick :
  FlightSimulator.aircraft
    (FlightSimulator.handle_input Cases.mouse_flick Cases.no_keys
       FlightSimulator.__init__) =
  set_elevator 2 (FlightSimulator.aircraft FlightSimulator.__init__).
Proof.
  unfold FlightSimulator.handle_input, Cases.mouse_flick. cbn.
  destruct (Rlt_dec (Py.abs (- (-200) * 0.1 / 10)) 0.1) as [Hlt | _].
  { exfalso. apply abs_lt in Hlt. lra. }
  match goal with
  | |- context [if ?c then _ else _] => destruct c
  end; unfold __init__; project; f_equal; lra.
Qed.

End Inputs.

(** C8, the behaviour of the code on a fast mouse motion: one motion
    event of 200 pixels leaves the elevator at 2, outside -1..1, and the
    next [update] of 0.1 s pitches the aircraft by 5 degrees, twice
    [CESSNA_PITCH_RATE * dt]. *)
Theorem C8_mouse_elevator_not_clamped :
  let a :=
    FlightSimulator.aircraft
      (FlightSimulator.handle_input Cases.mouse_flick Cases.no_keys
         FlightSimulator.__init__) in
  Aircraft.elevator a = 2 /\
  Aircraft.pitch a = 0 /\
  Aircraft.pitch (Aircraft.update 0.1 0.5 a) = 5 /\
  CESSNA_PITCH_RATE * 0.1 = 2.5.
Proof.
  cbv zeta. rewrite aircraft_after_mouse_flick.
  split; [reflexivity | ]. split; [reflexivity | ].
  split; [ | unfold CESSNA_PITCH_RATE; lra ].
  rewrite update_pitch, after_ground_no_hit.
  - cbn. unfold CESSNA_PITCH_RATE.
    replace (0 + 2 * 25 * 0.1) with 5 by lra.
    apply clamp_inside. lra.
  - unfold Notions.hits_ground. cbn. lra.
Qed.

(** ** [vertical_speed] along a run of the simulator *)

Section VerticalSpeedFrameSim.

Import Aircraft Notions.

Ltac open_sims g1 g2 H :=
  destruct g1 as [a1 ? ? ? ?], g2 as [a2 ? ? ? ?];
  destruct a1, a2; unfold same_sim in H |- *; cbn in H;
  injection H as
    -> -> -> -> -> -> -> -> -> -> -> -> -> -> -> -> -> -> ->.

Lemma same_sim_aircraft (g1 g2 : FlightSimulator.t) :
  same_sim g1 g2 ->
  same_but_vs (FlightSimulator.aircraft g1) (FlightSimulator.aircraft g2).
Proof. intros H. open_sims g1 g2 H. reflexivity. Qed.

Lemma same_sim_set_vs (v : R) (g : FlightSimulator.t) :
  same_sim
    (FlightSimulator.set_aircraft
       (set_vertical_speed v (FlightSimulator.aircraft g)) g) g.
Proof. destruct g as [a ? ? ? ?]; destruct a; reflexivity. Qed.

Lemma handle_event_same (e : FlightSimulator.event)
  (g1 g2 : FlightSimulator.t) :
  same_sim g1 g2 ->
  same_sim (FlightSimulator.handle_event g1 e)
           (FlightSimulator.handle_event g2 e).
Proof.
  intros H. open_sims g1 g2 H.
  destruct e as [ | k | [dx dy] | ]; try reflexivity.
  - destruct k; reflexivity.
  - cbn. match goal with
         | |- context [if ?c then _ else _] => destruct c
         end; reflexivity.
Qed.

Lemma events_same (events : list FlightSimulator.event) :
  forall g1 g2 : FlightSimulator.t,
    same_sim g1 g2 ->
    same_sim (fold_left FlightSimulator.handle_event events g1)
             (fold_left FlightSimulator.handle_event events g2).
Proof.
  induction events as [ | e events IH]; intros g1 g2 H; cbn; [exact H | ].
  apply IH, handle_event_same, H.
Qed.

Lemma same_sim_set_aircraft (a1 a2 : t) (g1 g2 : FlightSimulator.t) :
  same_sim g1 g2 -> same_but_vs a1 a2 ->
  same_sim (FlightSimulator.set_aircraft a1 g1)
           (FlightSimulator.set_aircraft a2 g2).
Proof.
  intros Hg Ha. unfold same_but_vs in Ha.
  destruct g1 as [b1 ? ? ? ?], g2 as [b2 ? ? ? ?].
  unfold same_sim, FlightSimulator.set_aircraft in Hg |- *.
  cbn [FlightSimulator.aircraft FlightSimulator.running
       FlightSimulator.paused FlightSimulator.eye_offset
       FlightSimulator.mouse_sensitivity] in Hg |- *.
  f_equal; [exact Ha | congruence ..].
Qed.

Lemma throttle_keys_same (keys : FlightSimulator.key -> bool) (a1 a2 : t) :
  same_but_vs a1 a2 ->
  same_but_vs (FlightSimulator.throttle_keys keys a1)
              (FlightSimulator.throttle_keys keys a2).
Proof.
  intros H. open_pair a1 a2 H. unfold FlightSimulator.throttle_keys.
  destruct (keys FlightSimulator.K_EQUALS || keys FlightSimulator.K_PLUS)%bool;
    destruct (keys FlightSimulator.K_MINUS); reflexivity.
Qed.

Lemma rudder_keys_same (keys : FlightSimulator.key -> bool) (a1 a2 : t) :
  same_but_vs a1 a2 ->
  same_but_vs (FlightSimulator.rudder_keys keys a1)
              (FlightSimulator.rudder_keys keys a2).
Proof.
  intros H. open_pair a1 a2 H. unfold FlightSimulator.rudder_keys.
  destruct (keys FlightSimulator.K_z); [reflexivity | ].
  destruct (keys FlightSimulator.K_x); reflexivity.
Qed.

Lemma elevator_keys_same (keys : FlightSimulator.key -> bool) (a1 a2 : t) :
  same_but_vs a1 a2 ->
  same_but_vs (FlightSimulator.elevator_keys keys a1)
              (FlightSimulator.elevator_keys keys a2).
Proof.
  intros H. open_pair a1 a2 H. unfold FlightSimulator.elevator_keys.
  destruct (keys FlightSimulator.K_UP); [reflexivity | ].
  destruct (keys FlightSimulator.K_DOWN); [reflexivity | ].
  by_cases.
Qed.

Lemma aileron_keys_same (keys : FlightSimulator.key -> bool) (a1 a2 : t) :
  same_but_vs a1 a2 ->
  same_but_vs (FlightSimulator.aileron_keys keys a1)
              (FlightSimulator.aileron_keys keys a2).
Proof.
  intros H. open_pair a1 a2 H. unfold FlightSimulator.aileron_keys.
  destruct (keys FlightSimulator.K_LEFT); [reflexivity | ].
  destruct (keys FlightSimulator.K_RIGHT); [reflexivity | ].
  by_cases.
Qed.

Lemma handle_input_same events keys (g1 g2 : FlightSimulator.t) :
  same_sim g1 g2 ->
  same_sim (FlightSimulator.handle_input events keys g1)
           (FlightSimulator.handle_input events keys g2).
Proof.
  intros H. unfold FlightSimulator.handle_input. cbv zeta.
  pose proof (events_same events _ _ H) as He.
  apply same_sim_set_aircraft; [exact He | ].
  apply aileron_keys_same, elevator_keys_same, rudder_keys_same,
    throttle_keys_same, same_sim_aircraft, He.
Qed.

Lemma update_same_sim (dt rnd : R) (g1 g2 : FlightSimulator.t) :
  same_sim g1 g2 ->
  same_sim
    (FlightSimulator.set_aircraft
       (update dt rnd (FlightSimulator.aircraft g1)) g1)
    (FlightSimulator.set_aircraft
       (update dt rnd (FlightSimulator.aircraft g2)) g2).
Proof.
  intros H.
  apply same_sim_set_aircraft; [exact H | ].
  apply update_same, same_sim_aircraft, H.
Qed.

Lemma run_same (cs : list Sim.call) :
  forall g1 g2 : FlightSimulator.t,
    same_sim g1 g2 -> same_sim (Sim.run cs g1) (Sim.run cs g2).
Proof.
  induction cs as [ | c cs IH]; intros g1 g2 H; cbn; [exact H | ].
  apply IH. destruct c as [events keys | dt rnd]; cbn.
  - apply handle_input_same, H.
  - apply update_same_sim, H.
Qed.

End VerticalSpeedFrameSim.

(** C9: the position written by [update] is computed from airspeed,
    heading, pitch, the time step and the ground check alone; and
    replacing the vertical speed of a state by any other value leaves the
    position unchanged after every sequence of [update] calls, also when
    [handle_input] calls come in between. *)
Theorem C9_position_independent_of_vertical_speed :
  (forall (dt rnd : R) (s : Aircraft.t),
     let climb :=
       Aircraft.airspeed s * sin (Py.radians (Aircraft.pitch s)) * dt in
     Aircraft.x (Aircraft.update dt rnd s) =
       Aircraft.x s +
       Aircraft.airspeed s * sin (Py.radians (Aircraft.heading s)) *
         cos (Py.radians (Aircraft.pitch s)) * dt /\
     Aircraft.y (Aircraft.update dt rnd s) =
       (if Rlt_dec (Aircraft.y s + climb) (KIND_ELEVATION * FEET_TO_METERS)
        then KIND_ELEVATION * FEET_TO_METERS
        else Aircraft.y s + climb) /\
     Aircraft.z (Aircraft.update dt rnd s) =
       Aircraft.z s +
       Aircraft.airspeed s * cos (Py.radians (Aircraft.heading s)) *
         cos (Py.radians (Aircraft.pitch s)) * dt) /\
  (forall (steps : list (R * R)) (s : Aircraft.t) (v : R),
     Notions.position
       (Sim.updates steps (Aircraft.set_vertical_speed v s)) =
     Notions.position (Sim.updates steps s)) /\
  (forall (cs : list Sim.call) (g : FlightSimulator.t) (v : R),
     Notions.position
       (FlightSimulator.aircraft
          (Sim.run cs
             (FlightSimulator.set_aircraft
                (Aircraft.set_vertical_speed v (FlightSimulator.aircraft g))
                g))) =
     Notions.position (FlightSimulator.aircraft (Sim.run cs g))).
Proof.
  split; [ | split ].
  - intros dt rnd s climb. unfold climb.
    rewrite update_x, update_y, update_z. repeat split.
  - intros steps s v.
    pose proof (updates_same steps _ _ (same_but_vs_set v s)) as H.
    apply same_but_vs_fields in H.
    destruct H as (Hx & Hy & Hz & _).
    unfold Notions.position. rewrite Hx, Hy, Hz. reflexivity.
  - intros cs g v.
    pose proof (run_same cs _ _ (same_sim_set_vs v g)) as H.
    apply same_sim_aircraft, same_but_vs_fields in H.
    destruct H as (Hx & Hy & Hz & _).
    unfold Notions.position. rewrite Hx, Hy, Hz. reflexivity.
Qed.

(** ** Pitch on the ground *)

Section GroundPitch.

Import Aircraft Notions.

Lemma clamp_negative (lo hi v : R) :
  lo < 0 -> 0 < hi -> v < 0 -> Py.max lo (Py.min hi v) < 0.
Proof.
  intros Hlo Hhi Hv.
  destruct (min_cases hi v) as [[? ->] | [? ->]]; [ | lra ].
  destruct (max_cases lo v) as [[? ->] | [? ->]]; lra.
Qed.

Lemma grounded_pitch (dt rnd : R) (s : t) :
  hits_ground dt s ->
  pitch (update dt rnd s) =
  Py.max (-30)
    (Py.min 30 (Py.max 0 (pitch s) + elevator s * CESSNA_PITCH_RATE * dt)).
Proof.
  intros H. rewrite update_pitch.
  destruct (after_ground_hit dt s H) as (_ & _ & ->). reflexivity.
Qed.

Lemma nose_down_pushing_hits_ground : hits_ground 0.1 Cases.nose_down_pushing.
Proof.
  unfold hits_ground. cbn.
  rewrite sin_radians_minus_30. lra.
Qed.

End GroundPitch.

(** C10: when the ground check of an [update] call fires, the pitch is
    clamped to be non-negative before the elevator is applied; the pitch
    on return is that clamped pitch plus [elevator * CESSNA_PITCH_RATE *
    dt], limited to -30..30; so whenever this sum is negative the call
    returns with the aircraft at ground elevation and a strictly negative
    pitch. *)
Theorem C10_pitch_negative_on_ground (dt rnd : R) (s : Aircraft.t) :
  Notions.hits_ground dt s ->
  Aircraft.pitch (Aircraft.after_ground dt s) = Py.max 0 (Aircraft.pitch s) /\
  0 <= Aircraft.pitch (Aircraft.after_ground dt s) /\
  Aircraft.pitch (Aircraft.update dt rnd s) =
    Py.max (-30)
      (Py.min 30
         (Aircraft.pitch (Aircraft.after_ground dt s) +
          Aircraft.elevator s * CESSNA_PITCH_RATE * dt)) /\
  (Py.max 0 (Aircraft.pitch s) +
     Aircraft.elevator s * CESSNA_PITCH_RATE * dt < 0 ->
   Aircraft.pitch (Aircraft.update dt rnd s) < 0 /\
   Aircraft.y (Aircraft.update dt rnd s) = KIND_ELEVATION * FEET_TO_METERS).
Proof.
  intros Hhit.
  destruct (after_ground_hit dt s Hhit) as (Hy & _ & Hp).
  split; [exact Hp | ].
  split; [rewrite Hp; apply max_0_nonneg | ].
  split; [apply update_pitch | ].
  intros Hneg. split.
  - rewrite grounded_pitch by exact Hhit.
    apply clamp_negative; lra.
  - rewrite update_y_after_ground. exact Hy.
Qed.

Lemma C10_pitch_negative_witness :
  Notions.hits_ground 0.1 Cases.nose_down_pushing /\
  Aircraft.pitch (Aircraft.update 0.1 0.5 Cases.nose_down_pushing) < 0 /\
  Aircraft.y (Aircraft.update 0.1 0.5 Cases.nose_down_pushing) =
    KIND_ELEVATION * FEET_TO_METERS.
Proof.
  split; [exact nose_down_pushing_hits_ground | ].
  apply (C10_pitch_negative_on_ground 0.1 0.5 Cases.nose_down_pushing
           nose_down_pushing_hits_ground).
  change (Aircraft.pitch Cases.nose_down_pushing) with (-30).
  change (Aircraft.elevator Cases.nose_down_pushing) with (-1).
  unfold CESSNA_PITCH_RATE.
  destruct (max_cases 0 (-30)) as [[? ->] | [? ->]]; lra.
Defined.

(** * Further properties of the code *)

(** ** The altitude floor and the length of a step *)

Section Altitude.

Import Aircraft Notions.

Lemma update_y_floor (dt rnd : R) (s : t) :
  KIND_ELEVATION * FEET_TO_METERS <= y (update dt rnd s).
Proof.
  rewrite update_y.
  destruct (Rlt_dec (y s + airspeed s * sin (Py.radians (pitch s)) * dt)
                    (KIND_ELEVATION * FEET_TO_METERS)); lra.
Qed.

Lemma throttle_keys_y (keys : FlightSimulator.key -> bool) (a : t) :
  y (FlightSimulator.throttle_keys keys a) = y a /\
  rpm (FlightSimulator.throttle_keys keys a) = rpm a /\
  flaps (FlightSimulator.throttle_keys keys a) = flaps a /\
  vertical_speed (FlightSimulator.throttle_keys keys a) = vertical_speed a.
Proof.
  unfold FlightSimulator.throttle_keys. destruct a.
  destruct (keys FlightSimulator.K_EQUALS || keys FlightSimulator.K_PLUS)%bool;
    destruct (keys FlightSimulator.K_MINUS); repeat split.
Qed.

Lemma axis_keys_y (keys : FlightSimulator.key -> bool) (b : t) :
  y (axis_keys keys b) = y b /\
  rpm (axis_keys keys b) = rpm b /\
  flaps (axis_keys keys b) = flaps b /\
  vertical_speed (axis_keys keys b) = vertical_speed b.
Proof.
  unfold axis_keys, FlightSimulator.aileron_keys,
    FlightSimulator.elevator_keys, FlightSimulator.rudder_keys.
  destruct b.
  repeat match goal with
  | |- context [if ?c then _ else _] => destruct c; cbn
  end; repeat split.
Qed.

(** A property of the aircraft that a reset re-establishes and that the
    events and keys do not look at is kept by [handle_input]. *)
Lemma handle_input_keeps (P : t -> Prop) :
  P (FlightSimulator.aircraft FlightSimulator.__init__) ->
  (forall a v, P a -> P (set_gear_down v a)) ->
  (forall a v, P a -> P (set_elevator v a)) ->
  (forall a v, P a -> P (set_aileron v a)) ->
  (forall a v, P a -> P (set_rudder v a)) ->
  (forall a, P a -> P (set_flaps ((flaps a + 1) mod 4)%Z a)) ->
  (forall a keys, P a -> P (FlightSimulator.throttle_keys keys a)) ->
  forall events keys (g : FlightSimulator.t),
    P (FlightSimulator.aircraft g) ->
    P (FlightSimulator.aircraft (FlightSimulator.handle_input events keys g)).
Proof.
  intros Hinit Hgear Hel Hail Hrud Hflap Hthr events keys g Hg.
  unfold FlightSimulator.handle_input. cbn.
  assert (He : P (FlightSimulator.aircraft
                    (fold_left FlightSimulator.handle_event events g))).
  { revert g Hg.
    induction events as [ | e events IH]; intros g Hg; cbn; [exact Hg | ].
    apply IH.
    destruct e as [ | k | [dx dy] | ]; cbn; try exact Hg.
    - destruct k; cbn; try exact Hg.
      + apply Hgear, Hg.
      + apply Hflap, Hg.
      + exact Hinit.
    - destruct (negb (FlightSimulator.paused g)); cbn; [ | exact Hg ].
      apply Hail, Hel, Hg. }
  generalize (fold_left FlightSimulator.handle_event events g), He.
  intros g1 Hg1.
  apply Hthr with (keys := keys) in Hg1.
  generalize (FlightSimulator.throttle_keys keys (FlightSimulator.aircraft g1)),
    Hg1.
  intros a Ha.
  unfold FlightSimulator.aileron_keys, FlightSimulator.elevator_keys,
    FlightSimulator.rudder_keys.
  repeat match goal with
  | |- context [if ?c then _ else _] => destruct c
  end;
    repeat first [ apply Hail | apply Hel | apply Hrud ]; exact Ha.
Qed.

Lemma run_keeps (P : t -> Prop) (ok : Sim.call -> Prop) :
  (forall events keys (g : FlightSimulator.t),
     P (FlightSimulator.aircraft g) ->
     P (FlightSimulator.aircraft
          (FlightSimulator.handle_input events keys g))) ->
  (forall dt rnd a, ok (Sim.Update dt rnd) -> P a -> P (update dt rnd a)) ->
  forall (cs : list Sim.call) (g : FlightSimulator.t),
    Forall ok cs ->
    P (FlightSimulator.aircraft g) ->
    P (FlightSimulator.aircraft (Sim.run cs g)).
Proof.
  intros Hin Hup cs.
  induction cs as [ | c cs IH]; intros g Hok Hg; cbn; [exact Hg | ].
  inversion Hok as [ | ? ? Hc Hcs]; subst.
  apply IH; [exact Hcs | ].
  destruct c as [events keys | dt rnd]; cbn.
  - apply Hin, Hg.
  - apply Hup; assumption.
Qed.

Lemma handle_input_y_floor events keys (g : FlightSimulator.t) :
  KIND_ELEVATION * FEET_TO_METERS <= y (FlightSimulator.aircraft g) ->
  KIND_ELEVATION * FEET_TO_METERS <=
    y (FlightSimulator.aircraft (FlightSimulator.handle_input events keys g)).
Proof.
  apply (handle_input_keeps
           (fun a => KIND_ELEVATION * FEET_TO_METERS <= y a)).
  - cbn. lra.
  - intros a v H; destruct a; exact H.
  - intros a v H; destruct a; exact H.
  - intros a v H; destruct a; exact H.
  - intros a v H; destruct a; exact H.
  - intros a H; destruct a; exact H.
  - intros a keys0 H. rewrite (proj1 (throttle_keys_y keys0 a)). exact H.
Qed.

Lemma sin2_cos2_mult (v : R) : sin v * sin v + cos v * cos v = 1.
Proof. pose proof (sin2_cos2 v) as H. unfold Rsqr in H. exact H. Qed.

End Altitude.

(** X1: every call of [update], whatever the state, the time step and the
    draw, returns with the altitude at or above the ground elevation; so
    along every run of the simulator the aircraft is never below it. *)
Theorem X1_altitude_never_below_ground :
  (forall (dt rnd : R) (s : Aircraft.t),
     KIND_ELEVATION * FEET_TO_METERS <=
     Aircraft.y (Aircraft.update dt rnd s)) /\
  (forall cs : list Sim.call,
     KIND_ELEVATION * FEET_TO_METERS <=
     Aircraft.y
       (FlightSimulator.aircraft (Sim.run cs FlightSimulator.__init__))).
Proof.
  split; [exact update_y_floor | ].
  intros cs.
  apply (run_keeps
           (fun a => KIND_ELEVATION * FEET_TO_METERS <= Aircraft.y a)
           (fun _ => True)).
  - intros events keys g. apply handle_input_y_floor.
  - intros dt rnd a _ _. apply update_y_floor.
  - apply Forall_forall. intros; exact I.
  - cbn. lra.
Qed.

(** X2: when the ground check of an [update] call does not fire, the call
    moves the aircraft by exactly [airspeed * dt]: the squares of the
    three displacements sum to the square of that length. *)
Theorem X2_step_length_is_airspeed_times_dt (dt rnd : R) (s : Aircraft.t) :
  ~ Notions.hits_ground dt s ->
  (Aircraft.x (Aircraft.update dt rnd s) - Aircraft.x s) ^ 2 +
  (Aircraft.y (Aircraft.update dt rnd s) - Aircraft.y s) ^ 2 +
  (Aircraft.z (Aircraft.update dt rnd s) - Aircraft.z s) ^ 2 =
  (Aircraft.airspeed s * dt) ^ 2.
Proof.
  intros Hno.
  rewrite update_x, update_z, update_y_after_ground,
    (after_ground_no_hit dt s Hno).
  destruct s as [x0 y0 z0 p r h a vs th el ai ru fl rp fu ge].
  project.
  pose proof (sin2_cos2_mult (Py.radians h)) as Hh.
  pose proof (sin2_cos2_mult (Py.radians p)) as Hp.
  set (sh := sin (Py.radians h)) in *.
  set (ch := cos (Py.radians h)) in *.
  set (sp := sin (Py.radians p)) in *.
  set (cp := cos (Py.radians p)) in *.
  replace ((x0 + a * sh * cp * dt - x0) ^ 2 + (y0 + a * sp * dt - y0) ^ 2 +
           (z0 + a * ch * cp * dt - z0) ^ 2)
    with ((a * dt) ^ 2 * ((sh * sh + ch * ch) * (cp * cp) + sp * sp))
    by ring.
  rewrite Hh. replace (1 * (cp * cp) + sp * sp) with (sp * sp + cp * cp)
    by ring.
  rewrite Hp. ring.
Qed.

Lemma cruising_clear_of_ground : ~ Notions.hits_ground 0.1 Cases.cruising.
Proof.
  unfold Notions.hits_ground. cbn.
  rewrite radians_0, sin_0.
  unfold KIND_ELEVATION, FEET_TO_METERS. lra.
Qed.

Lemma X2_step_length_witness :
  (Aircraft.x (Aircraft.update 0.1 0.5 Cases.cruising)
     - Aircraft.x Cases.cruising) ^ 2 +
  (Aircraft.y (Aircraft.update 0.1 0.5 Cases.cruising)
     - Aircraft.y Cases.cruising) ^ 2 +
  (Aircraft.z (Aircraft.update 0.1 0.5 Cases.cruising)
     - Aircraft.z Cases.cruising) ^ 2 =
  (Aircraft.airspeed Cases.cruising * 0.1) ^ 2.
Proof.
  exact (X2_step_length_is_airspeed_times_dt 0.1 0.5 Cases.cruising
           cruising_clear_of_ground).
Defined.

(** ** A time step of zero *)

Section ZeroStep.

Import Aircraft Notions.

Lemma mod_inside (a m : R) : 0 <= a < m -> Py.mod_ a m = a.
Proof.
  intros H. rewrite (mod_shift a m 0); lra.
Qed.

Lemma before_stall_zero (s : t) :
  in_range s ->
  KIND_ELEVATION * FEET_TO_METERS <= y s ->
  0 <= rpm s ->
  before_stall 0 s = level_out s.
Proof.
  intros (Hp & Hr & Hh & Ht & Hf & Ha) Hy Hrpm.
  unfold before_stall, after_ground.
  rewrite !level_out_nf, fuel_empty_nf, ground_collision_nf.
  destruct s as [x0 y0 z0 p r h a vs th el ai ru fl rp fu ge].
  cbn in Hp, Hr, Hh, Ht, Hf, Ha, Hy, Hrpm.
  project.
  destruct (Rlt_dec (y0 + a * sin (Py.radians p) * 0)
                    (KIND_ELEVATION * FEET_TO_METERS)) as [Hlt | _];
    [ lra | ].
  replace (r + ai * CESSNA_ROLL_RATE * 0) with r by lra.
  replace (p + el * CESSNA_PITCH_RATE * 0) with p by lra.
  rewrite (clamp_inside (-60) 60 r) by lra.
  rewrite (clamp_inside (-30) 30 p) by lra.
  replace (h + ru * CESSNA_YAW_RATE * 0 + sin (Py.radians r) * 0 * 10)
    with h by lra.
  rewrite (mod_inside h 360) by lra.
  replace (Py.max 0 (fu - th * 0 * 0.05)) with fu
    by (destruct (max_cases 0 (fu - th * 0 * 0.05)) as [[? ->] | [? ->]];
        lra).
  assert (Erpm :
    (if Rle_dec fu 0
     then Py.max 0 (rp + (500 + th * 2300 - rp) * 0 * 2 - 500 * 0)
     else rp + (500 + th * 2300 - rp) * 0 * 2) = rp).
  { destruct (Rle_dec fu 0); [ | lra ].
    destruct (max_cases 0 (rp + (500 + th * 2300 - rp) * 0 * 2 - 500 * 0))
      as [[? ->] | [? ->]]; lra. }
  rewrite Erpm.
  f_equal; lra.
Qed.

Lemma stall_behavior_zero (rnd : R) (b : t) : stall_behavior 0 rnd b = b.
Proof.
  unfold stall_behavior. cbv zeta.
  destruct (stalled_dec b); [ | reflexivity ].
  destruct (Rlt_dec (Py.abs (roll (set_vertical_speed
                                     (vertical_speed b - 9.8 * 0) b))) 5);
    destruct b; project; f_equal; lra.
Qed.

End ZeroStep.

(** X3: a call of [update] with a time step of zero, on a state within the
    ranges of the data model, at or above the ground and with a
    non-negative engine speed, is not a no-op: it changes nothing but the
    roll, which the levelling statement still multiplies by 0.95 when the
    aileron input is below 0.1 in magnitude. *)
Theorem X3_zero_step_only_levels_roll (rnd : R) (s : Aircraft.t) :
  Notions.in_range s ->
  KIND_ELEVATION * FEET_TO_METERS <= Aircraft.y s ->
  0 <= Aircraft.rpm s ->
  Aircraft.update 0 rnd s =
  Aircraft.set_roll
    (if Rlt_dec (Py.abs (Aircraft.aileron s)) 0.1
     then Aircraft.roll s * 0.95 else Aircraft.roll s) s.
Proof.
  intros Hin Hy Hrpm. unfold Aircraft.update.
  rewrite (before_stall_zero s Hin Hy Hrpm), stall_behavior_zero.
  apply level_out_nf.
Qed.

Lemma X3_zero_step_witness :
  Aircraft.update 0 0.5 Cases.cruising =
  Aircraft.set_roll
    (if Rlt_dec (Py.abs (Aircraft.aileron Cases.cruising)) 0.1
     then Aircraft.roll Cases.cruising * 0.95
     else Aircraft.roll Cases.cruising) Cases.cruising.
Proof.
  apply X3_zero_step_only_levels_roll.
  - unfold Notions.in_range; cbn. lra.
  - cbn. unfold KIND_ELEVATION, FEET_TO_METERS. lra.
  - cbn. lra.
Defined.

(** ** Roll levelling, engine speed and vertical speed *)

Section Engine.

Import Aircraft Notions Invariants.

Lemma update_rpm_range (dt rnd : R) (s : t) :
  0 < dt <= 1 / 2 -> 0 <= throttle s <= 1 -> 0 <= rpm s <= 2800 ->
  0 <= rpm (update dt rnd s) <= 2800.
Proof.
  intros Hdt Hth Hr. rewrite update_rpm_eq. cbv zeta.
  assert (H1 : 0 <= rpm s * (1 - 2 * dt)) by (apply Rmult_le_pos; lra).
  assert (H2 : 0 <= (2800 - rpm s) * (1 - 2 * dt))
    by (apply Rmult_le_pos; lra).
  assert (H3 : 0 <= throttle s * dt) by (apply Rmult_le_pos; lra).
  assert (H4 : 0 <= (1 - throttle s) * dt) by (apply Rmult_le_pos; lra).
  destruct (Rle_dec (fuel (update dt rnd s)) 0); [ | lra ].
  destruct (max_cases 0
              (rpm s + (500 + throttle s * 2300 - rpm s) * dt * 2 - 500 * dt))
    as [[? ->] | [? ->]]; lra.
Qed.

Lemma handle_input_engine_ok events keys (g : FlightSimulator.t) :
  engine_ok (FlightSimulator.aircraft g) ->
  engine_ok
    (FlightSimulator.aircraft (FlightSimulator.handle_input events keys g)).
Proof.
  apply (handle_input_keeps engine_ok).
  - unfold engine_ok; cbn. lra.
  - intros a v H; destruct a; exact H.
  - intros a v H; destruct a; exact H.
  - intros a v H; destruct a; exact H.
  - intros a v H; destruct a; exact H.
  - intros a H; destruct a; exact H.
  - intros a keys0 [Ht Hr]. split.
    + apply throttle_keys_range, Ht.
    + rewrite (proj1 (proj2 (throttle_keys_y keys0 a))). exact Hr.
Qed.

Lemma target_vs_range (s : t) :
  -30 <= pitch s <= 30 -> 0 <= airspeed s ->
  -7.62 <= target_vs s <= 10.668.
Proof.
  intros Hp Ha. unfold target_vs. cbv zeta.
  destruct (Rlt_dec 0 (pitch s)) as [Hpos | _].
  - assert (Hc : 0 < CESSNA_CRUISE_SPEED * KNOTS_TO_MPS)
      by (unfold CESSNA_CRUISE_SPEED, KNOTS_TO_MPS; lra).
    assert (Hq : 0 <= airspeed s / (CESSNA_CRUISE_SPEED * KNOTS_TO_MPS)).
    { apply Rmult_le_pos; [exact Ha | ].
      left. apply Rinv_0_lt_compat. exact Hc. }
    set (m := Py.min 1 (airspeed s / (CESSNA_CRUISE_SPEED * KNOTS_TO_MPS))).
    assert (Hm : 0 <= m <= 1).
    { unfold m.
      destruct (min_cases 1 (airspeed s / (CESSNA_CRUISE_SPEED * KNOTS_TO_MPS)))
        as [[? ->] | [? ->]]; lra. }
    unfold CESSNA_CLIMB_RATE, FEET_TO_METERS.
    assert (0 <= pitch s * m) by (apply Rmult_le_pos; lra).
    assert (0 <= pitch s * (1 - m)) by (apply Rmult_le_pos; lra).
    lra.
  - destruct (Rlt_dec (pitch s) 0) as [Hneg | _]; [ | lra ].
    unfold Py.abs. rewrite Rabs_left by exact Hneg.
    unfold CESSNA_DESCENT_RATE, FEET_TO_METERS. lra.
Qed.

Lemma after_ground_vertical_speed (dt : R) (s : t) :
  vertical_speed (after_ground dt s) = 0 \/
  vertical_speed (after_ground dt s) = vertical_speed s.
Proof.
  unfold after_ground. rewrite ground_collision_nf. cbv zeta.
  destruct (Rlt_dec (y (integrate_position dt s))
                    (KIND_ELEVATION * FEET_TO_METERS));
    destruct s; [left | right]; reflexivity.
Qed.

Lemma stall_sink_range (dt : R) (s : t) :
  0 <= dt -> 0 <= stall_sink dt s <= 9.8 * dt.
Proof.
  intros Hdt. unfold stall_sink. destruct (stalled_dec s); lra.
Qed.

Lemma update_climb_ok (dt rnd : R) (s : t) :
  0 < dt <= 2 -> 0 <= rnd < 1 -> climb_ok s -> climb_ok (update dt rnd s).
Proof.
  intros Hdt Hrnd [Hin Hvs].
  pose proof (update_in_range dt rnd s Hdt Hrnd Hin) as Hin'.
  split; [exact Hin' | ].
  destruct Hin' as (Hp & _ & _ & _ & _ & Ha).
  pose proof (target_vs_range (update dt rnd s) Hp Ha) as Ht.
  pose proof (stall_sink_range dt (update dt rnd s)) as Hs.
  rewrite update_vertical_speed_eq.
  set (tv := target_vs (update dt rnd s)) in *.
  set (sink := stall_sink dt (update dt rnd s)) in *.
  assert (Hs' : 0 <= sink <= 9.8 * dt) by (apply Hs; lra).
  assert (Hv : -27.22 <= vertical_speed (after_ground dt s) <= 10.668).
  { destruct (after_ground_vertical_speed dt s) as [-> | ->]; lra. }
  set (v := vertical_speed (after_ground dt s)) in *.
  assert (0 <= (v + 27.22) * (1 - dt * 0.5)) by (apply Rmult_le_pos; lra).
  assert (0 <= (10.668 - v) * (1 - dt * 0.5)) by (apply Rmult_le_pos; lra).
  assert (0 <= (tv + 7.62) * dt) by (apply Rmult_le_pos; lra).
  assert (0 <= (10.668 - tv) * dt) by (apply Rmult_le_pos; lra).
  lra.
Qed.

Lemma handle_input_climb_ok events keys (g : FlightSimulator.t) :
  climb_ok (FlightSimulator.aircraft g) ->
  climb_ok
    (FlightSimulator.aircraft (FlightSimulator.handle_input events keys g)).
Proof.
  intros [Hin Hvs]. split; [apply handle_input_in_range, Hin | ].
  revert Hvs.
  apply (handle_input_keeps
           (fun a => -27.22 <= vertical_speed a <= 10.668)).
  - cbn. lra.
  - intros a v H; destruct a; exact H.
  - intros a v H; destruct a; exact H.
  - intros a v H; destruct a; exact H.
  - intros a v H; destruct a; exact H.
  - intros a H; destruct a; exact H.
  - intros a keys0 H.
    rewrite (proj2 (proj2 (proj2 (throttle_keys_y keys0 a)))). exact H.
Qed.

End Engine.

(** X4: with no aileron input, a roll within -60..60 and the stall jitter
    not applied, one call of [update] multiplies the roll by 0.95 whatever
    the time step: the levelling is per call, not per second. *)
Theorem X4_roll_levels_by_a_fixed_factor_per_call
  (dt rnd : R) (s : Aircraft.t) :
  Aircraft.aileron s = 0 ->
  -60 <= Aircraft.roll s <= 60 ->
  CESSNA_STALL_SPEED * KNOTS_TO_MPS * 0.9 <=
    Aircraft.airspeed (Aircraft.before_stall dt s) \/
  5 <= Py.abs (Aircraft.roll s * 0.95) ->
  Aircraft.roll (Aircraft.update dt rnd s) = Aircraft.roll s * 0.95.
Proof.
  intros Hail Hroll Hno.
  assert (Hb : Aircraft.roll (Aircraft.before_stall dt s)
               = Aircraft.roll s * 0.95).
  { rewrite before_stall_roll. cbv zeta. rewrite Hail.
    replace (Aircraft.roll s + 0 * CESSNA_ROLL_RATE * dt)
      with (Aircraft.roll s) by lra.
    rewrite clamp_inside by lra.
    destruct (Rlt_dec (Py.abs 0) 0.1) as [_ | Hn]; [reflexivity | ].
    exfalso. apply Hn. unfold Py.abs. rewrite Rabs_R0. lra. }
  rewrite update_roll. cbv zeta.
  destruct (Aircraft.stalled_dec (Aircraft.before_stall dt s)) as [Hs | _];
    [ | exact Hb ].
  destruct (Rlt_dec (Py.abs (Aircraft.roll (Aircraft.before_stall dt s))) 5)
    as [Hlt | _]; [ | exact Hb ].
  exfalso. unfold Aircraft.stalled in Hs. rewrite Hb in Hlt.
  destruct Hno; lra.
Qed.

Lemma X4_roll_levels_witness :
  Aircraft.roll
    (Aircraft.update 0.1 0.5 (Aircraft.set_roll 20 Cases.cruising)) =
  20 * 0.95.
Proof.
  apply (X4_roll_levels_by_a_fixed_factor_per_call 0.1 0.5
           (Aircraft.set_roll 20 Cases.cruising)).
  - reflexivity.
  - cbn. lra.
  - right. cbn. unfold Py.abs. rewrite Rabs_right; lra.
Defined.

(** X5: along every run of the simulator whose time steps are positive and
    at most half a second, the engine speed stays within 0..2800 RPM. *)
Theorem X5_engine_speed_within_0_2800 (cs : list Sim.call) :
  Forall (Sim.call_ok (Some (1 / 2))) cs ->
  0 <= Aircraft.rpm
         (FlightSimulator.aircraft (Sim.run cs FlightSimulator.__init__))
    <= 2800.
Proof.
  intros Hok.
  apply (run_keeps Invariants.engine_ok (Sim.call_ok (Some (1 / 2)))).
  - intros events keys g. apply handle_input_engine_ok.
  - intros dt rnd a (Hdt & _ & Hb) [Ht Hr]. split.
    + rewrite (proj1 (update_controls dt rnd a)). exact Ht.
    + apply update_rpm_range; [lra | exact Ht | exact Hr].
  - exact Hok.
  - unfold Invariants.engine_ok; cbn. lra.
Qed.

Lemma X5_engine_speed_witness :
  0 <= Aircraft.rpm
         (FlightSimulator.aircraft
            (Sim.run [Sim.HandleInput [] Cases.plus_key; Sim.Update 0.5 0.5]
               FlightSimulator.__init__))
    <= 2800.
Proof.
  apply X5_engine_speed_within_0_2800.
  repeat constructor; cbn; lra.
Defined.

(** X6: along every run of the simulator whose time steps are positive and
    at most two seconds, the vertical speed stays between -27.22 m/s (the
    steepest descent target less twice the stall sink rate) and
    10.668 m/s (the climb target at 30 degrees of pitch). *)
Theorem X6_vertical_speed_bounded (cs : list Sim.call) :
  Forall (Sim.call_ok (Some 2)) cs ->
  -27.22 <=
    Aircraft.vertical_speed
      (FlightSimulator.aircraft (Sim.run cs FlightSimulator.__init__))
    <= 10.668.
Proof.
  intros Hok.
  apply (run_keeps Invariants.climb_ok (Sim.call_ok (Some 2))).
  - intros events keys g. apply handle_input_climb_ok.
  - intros dt rnd a (Hdt & Hrnd & Hb) H.
    apply update_climb_ok; [lra | exact Hrnd | exact H].
  - exact Hok.
  - split; [apply init_in_range | cbn; lra].
Qed.

Lemma X6_vertical_speed_witness :
  -27.22 <=
    Aircraft.vertical_speed
      (FlightSimulator.aircraft
         (Sim.run [Sim.HandleInput [] Cases.plus_key; Sim.Update 2 0.5]
            FlightSimulator.__init__))
    <= 10.668.
Proof.
  apply X6_vertical_speed_bounded.
  repeat constructor; cbn; lra.
Defined.

(** ** Fuel along a run *)

Section Tank.

Import Aircraft Notions Invariants.

Lemma handle_input_tank_ok events keys (g : FlightSimulator.t) :
  tank_ok (FlightSimulator.aircraft g) ->
  tank_ok
    (FlightSimulator.aircraft (FlightSimulator.handle_input events keys g)).
Proof.
  apply (handle_input_keeps tank_ok).
  - unfold tank_ok; cbn. lra.
  - intros a v H; destruct a; exact H.
  - intros a v H; destruct a; exact H.
  - intros a v H; destruct a; exact H.
  - intros a v H; destruct a; exact H.
  - intros a H; destruct a; exact H.
  - intros a keys0 [Ht Hf]. split.
    + apply throttle_keys_range, Ht.
    + destruct (throttle_keys_frame keys0 a) as (_ & _ & _ & -> & _).
      exact Hf.
Qed.

Lemma update_tank_ok (dt rnd : R) (a : t) :
  0 < dt -> tank_ok a -> tank_ok (update dt rnd a).
Proof.
  intros Hdt [Ht Hf]. split.
  - rewrite (proj1 (update_controls dt rnd a)). exact Ht.
  - apply update_fuel_bound; lra.
Qed.

Lemma run_tank_ok (cs : list Sim.call) :
  Forall (Sim.call_ok None) cs ->
  tank_ok (FlightSimulator.aircraft (Sim.run cs FlightSimulator.__init__)).
Proof.
  intros Hok.
  apply (run_keeps tank_ok (Sim.call_ok None)).
  - intros events keys g. apply handle_input_tank_ok.
  - intros dt rnd a (Hdt & _) H. apply update_tank_ok; assumption.
  - exact Hok.
  - unfold tank_ok; cbn. lra.
Qed.

Lemma update_fuel_not_more (dt rnd : R) (a : t) :
  0 < dt -> 0 <= throttle a -> 0 <= fuel a ->
  fuel (update dt rnd a) <= fuel a.
Proof.
  intros Hdt Ht Hf. rewrite update_fuel.
  assert (0 <= throttle a * dt) by (apply Rmult_le_pos; lra).
  destruct (max_cases 0 (fuel a - throttle a * dt * 0.05))
    as [[? ->] | [? ->]]; lra.
Qed.

End Tank.

(** X7: along every run of the simulator with positive time steps, of any
    size, the fuel stays within 0..100, and a further call of [update]
    with a positive time step never leaves more fuel than there was. *)
Theorem X7_fuel_bounded_and_never_refilled_by_update
  (cs : list Sim.call) (dt rnd : R) :
  Forall (Sim.call_ok None) cs ->
  0 < dt ->
  let a := FlightSimulator.aircraft (Sim.run cs FlightSimulator.__init__) in
  0 <= Aircraft.fuel a <= 100 /\
  Aircraft.fuel (Aircraft.update dt rnd a) <= Aircraft.fuel a.
Proof.
  intros Hok Hdt a.
  destruct (run_tank_ok cs Hok) as [Ht Hf].
  split; [exact Hf | ].
  apply update_fuel_not_more; [exact Hdt | apply Ht | apply Hf].
Qed.

Lemma X7_fuel_witness :
  let a :=
    FlightSimulator.aircraft
      (Sim.run [Sim.HandleInput [] Cases.plus_key; Sim.Update 30 0.5]
         FlightSimulator.__init__) in
  0 <= Aircraft.fuel a <= 100 /\
  Aircraft.fuel (Aircraft.update 30 0.5 a) <= Aircraft.fuel a.
Proof.
  apply X7_fuel_bounded_and_never_refilled_by_update.
  - repeat constructor; cbn; lra.
  - lra.
Defined.

(** ** More on [handle_input] *)

Section Controls.

Import Aircraft Notions Invariants.

Lemma rudder_keys_result (keys : FlightSimulator.key -> bool) (a : t) :
  rudder (FlightSimulator.rudder_keys keys a) =
  if keys FlightSimulator.K_z then -1
  else if keys FlightSimulator.K_x then 1 else 0.
Proof.
  unfold FlightSimulator.rudder_keys.
  destruct (keys FlightSimulator.K_z); [destruct a; reflexivity | ].
  destruct (keys FlightSimulator.K_x); destruct a; reflexivity.
Qed.

Lemma not_lt_dead_zone (v : R) : ~ Py.abs v < 0.1 -> outside_dead_zone v.
Proof. intros H. right. lra. Qed.

Lemma abs_one : Py.abs 1 = 1 /\ Py.abs (-1) = 1.
Proof.
  unfold Py.abs. split; [apply Rabs_right; lra | ].
  rewrite Rabs_left; lra.
Qed.

Lemma elevator_keys_result (keys : FlightSimulator.key -> bool) (a : t) :
  outside_dead_zone (elevator (FlightSimulator.elevator_keys keys a)) /\
  rudder (FlightSimulator.elevator_keys keys a) = rudder a.
Proof.
  destruct abs_one as [E1 E2].
  unfold FlightSimulator.elevator_keys.
  destruct (keys FlightSimulator.K_UP);
    [ destruct a; cbn; split; [right; rewrite E1; lra | reflexivity] | ].
  destruct (keys FlightSimulator.K_DOWN);
    [ destruct a; cbn; split; [right; rewrite E2; lra | reflexivity] | ].
  destruct (Rlt_dec (Py.abs (elevator a)) 0.1) as [ | Hn].
  - destruct a; cbn; split; [left | ]; reflexivity.
  - split; [apply not_lt_dead_zone, Hn | reflexivity].
Qed.

Lemma aileron_keys_result (keys : FlightSimulator.key -> bool) (a : t) :
  outside_dead_zone (aileron (FlightSimulator.aileron_keys keys a)) /\
  rudder (FlightSimulator.aileron_keys keys a) = rudder a /\
  elevator (FlightSimulator.aileron_keys keys a) = elevator a.
Proof.
  destruct abs_one as [E1 E2].
  unfold FlightSimulator.aileron_keys.
  destruct (keys FlightSimulator.K_LEFT);
    [ destruct a; cbn; split; [right; rewrite E2; lra | split; reflexivity]
    | ].
  destruct (keys FlightSimulator.K_RIGHT);
    [ destruct a; cbn; split; [right; rewrite E1; lra | split; reflexivity]
    | ].
  destruct (Rlt_dec (Py.abs (aileron a)) 0.1) as [ | Hn].
  - destruct a; cbn; split; [left; reflexivity | split; reflexivity].
  - split; [apply not_lt_dead_zone, Hn | split; reflexivity].
Qed.

Lemma hold_plus_throttle (n : nat) (g : FlightSimulator.t) :
  0 <= throttle (FlightSimulator.aircraft g) <= 1 ->
  throttle
    (FlightSimulator.aircraft (hold_keys n Cases.plus_key g)) =
  Py.min 1 (throttle (FlightSimulator.aircraft g) + INR n * 0.01).
Proof.
  intros Ht. induction n as [ | n IH].
  - cbn. destruct (min_cases 1 (throttle (FlightSimulator.aircraft g) + 0 * 0.01))
      as [[? ->] | [? ->]]; lra.
  - cbn [hold_keys].
    rewrite handle_input_no_events.
    rewrite (proj1 (proj2 (proj2 (proj2 (axis_keys_frame _ _))))).
    rewrite throttle_plus_key, IH, S_INR.
    pose proof (pos_INR n) as Hn.
    set (t0 := throttle (FlightSimulator.aircraft g)) in *.
    destruct (min_cases 1 (t0 + INR n * 0.01)) as [[? ->] | [? ->]];
      destruct (min_cases 1 (t0 + (INR n + 1) * 0.01)) as [[? ->] | [? ->]];
      match goal with
      | |- Py.min ?u ?v = _ => destruct (min_cases u v) as [[? ->] | [? ->]]
      end; lra.
Qed.

Lemma throttle_plus_and_minus (a : t) :
  throttle (FlightSimulator.throttle_keys plus_and_minus a) =
  Py.max 0 (Py.min 1 (throttle a + 0.01) - 0.01).
Proof. reflexivity. Qed.

End Controls.

(** X8: a reset key among the events of one [handle_input] call discards
    the simulator state and every event before it: the call ends as if the
    events after the reset had been handled on a fresh simulator. *)
Theorem X8_reset_discards_what_came_before
  (before after : list FlightSimulator.event)
  (keys : FlightSimulator.key -> bool) (g : FlightSimulator.t) :
  FlightSimulator.handle_input
    (before ++ FlightSimulator.KEYDOWN FlightSimulator.K_r :: after) keys g =
  FlightSimulator.handle_input after keys FlightSimulator.__init__.
Proof.
  unfold FlightSimulator.handle_input.
  rewrite fold_left_app. reflexivity.
Qed.

(** X9: whatever the events, the keys and the state before, after
    [handle_input] the rudder is -1 if z is held, else 1 if x is held,
    else 0; and the elevator and the aileron are each either 0 or at least
    0.1 in magnitude (a smaller mouse deflection is reset to 0, a larger
    one is kept). *)
Theorem X9_controls_after_handle_input
  (events : list FlightSimulator.event)
  (keys : FlightSimulator.key -> bool) (g : FlightSimulator.t) :
  let a :=
    FlightSimulator.aircraft (FlightSimulator.handle_input events keys g) in
  Aircraft.rudder a =
    (if keys FlightSimulator.K_z then -1
     else if keys FlightSimulator.K_x then 1 else 0) /\
  Invariants.outside_dead_zone (Aircraft.elevator a) /\
  Invariants.outside_dead_zone (Aircraft.aileron a).
Proof.
  unfold FlightSimulator.handle_input. cbn.
  generalize (FlightSimulator.throttle_keys keys
                (FlightSimulator.aircraft
                   (fold_left FlightSimulator.handle_event events g))).
  intros a0.
  destruct (aileron_keys_result keys
              (FlightSimulator.elevator_keys keys
                 (FlightSimulator.rudder_keys keys a0)))
    as (Hail & Hrud & Hel).
  destruct (elevator_keys_result keys (FlightSimulator.rudder_keys keys a0))
    as (Hel' & Hrud').
  split; [ rewrite Hrud, Hrud'; apply rudder_keys_result | ].
  split; [ rewrite Hel; exact Hel' | exact Hail ].
Qed.

(** X10: holding the + key for [n] frames raises a throttle within 0..1
    by 0.01 per frame and stops at 1: the throttle is then
    [min(1, throttle + n * 0.01)]. *)
Theorem X10_throttle_after_holding_plus (n : nat) (g : FlightSimulator.t) :
  0 <= Aircraft.throttle (FlightSimulator.aircraft g) <= 1 ->
  Aircraft.throttle
    (FlightSimulator.aircraft (Invariants.hold_keys n Cases.plus_key g)) =
  Py.min 1 (Aircraft.throttle (FlightSimulator.aircraft g) + INR n * 0.01).
Proof. apply hold_plus_throttle. Qed.

Lemma X10_throttle_witness :
  Aircraft.throttle
    (FlightSimulator.aircraft
       (Invariants.hold_keys 3 Cases.plus_key FlightSimulator.__init__)) =
  Py.min 1
    (Aircraft.throttle (FlightSimulator.aircraft FlightSimulator.__init__)
     + INR 3 * 0.01).
Proof.
  apply X10_throttle_after_holding_plus. cbn. lra.
Defined.

(** X11: with the + and - keys held together, one [handle_input] call
    leaves a throttle within 0..0.99 as it is and brings a throttle above
    0.99 (up to 1) down to 0.99. *)
Theorem X11_plus_and_minus_together (g : FlightSimulator.t) :
  0 <= Aircraft.throttle (FlightSimulator.aircraft g) <= 1 ->
  let t0 := Aircraft.throttle (FlightSimulator.aircraft g) in
  let t1 :=
    Aircraft.throttle
      (FlightSimulator.aircraft
         (FlightSimulator.handle_input [] Invariants.plus_and_minus g)) in
  (t0 <= 0.99 -> t1 = t0) /\ (0.99 < t0 -> t1 = 0.99).
Proof.
  intros Ht t0 t1. unfold t1.
  rewrite handle_input_no_events.
  rewrite (proj1 (proj2 (proj2 (proj2 (axis_keys_frame _ _))))).
  rewrite throttle_plus_and_minus. fold t0.
  assert (Ht0 : 0 <= t0 <= 1) by exact Ht.
  clearbody t0.
  split; intros H;
    destruct (min_cases 1 (t0 + 0.01)) as [[? ->] | [? ->]];
    match goal with
    | |- Py.max ?u ?v = _ => destruct (max_cases u v) as [[? ->] | [? ->]]
    end; lra.
Qed.

Lemma X11_plus_and_minus_witness :
  Aircraft.throttle
    (FlightSimulator.aircraft
       (FlightSimulator.handle_input [] Invariants.plus_and_minus
          (FlightSimulator.set_aircraft Cases.cruising
             FlightSimulator.__init__))) = 0.99.
Proof.
  apply (X11_plus_and_minus_together
           (FlightSimulator.set_aircraft Cases.cruising
              FlightSimulator.__init__)).
  - cbn. lra.
  - cbn. lra.
Defined.

(** ** The HUD *)

Section HudFacts.

Import Aircraft Notions Invariants.

Lemma floor_bounds (lo hi : Z) (v : R) :
  IZR lo <= v -> v <= IZR hi -> (lo <= Int_part v <= hi)%Z.
Proof.
  intros Hlo Hhi.
  destruct (base_Int_part v) as [H1 H2].
  split.
  - assert (H : (lo < Int_part v + 1)%Z).
    { apply lt_IZR. rewrite plus_IZR. lra. }
    lia.
  - apply le_IZR. lra.
Qed.

(** [int] keeps a float between two integers between them. *)
Lemma int_bounds (lo hi : Z) (v : R) :
  IZR lo <= v -> v <= IZR hi -> (lo <= Builtins.int_ v <= hi)%Z.
Proof.
  intros Hlo Hhi. unfold Builtins.int_.
  destruct (Rle_dec 0 v) as [_ | _].
  - apply floor_bounds; assumption.
  - assert (H : (- hi <= Int_part (- v) <= - lo)%Z).
    { apply floor_bounds; rewrite opp_IZR; lra. }
    lia.
Qed.

Lemma int_below (hi : Z) (v : R) :
  0 <= v -> v < IZR hi -> (0 <= Builtins.int_ v <= hi - 1)%Z.
Proof.
  intros H0 Hhi. unfold Builtins.int_.
  destruct (Rle_dec 0 v) as [_ | Hn]; [ | contradiction ].
  destruct (base_Int_part v) as [H1 H2].
  split.
  - apply (floor_bounds 0 hi v); lra.
  - assert (H : (Int_part v < hi)%Z) by (apply lt_IZR; lra).
    lia.
Qed.

Lemma int_nonneg (v : R) : 0 <= v -> (0 <= Builtins.int_ v)%Z.
Proof.
  intros H0. unfold Builtins.int_.
  destruct (Rle_dec 0 v) as [_ | Hn]; [ | contradiction ].
  destruct (base_Int_part v) as [H1 H2].
  assert (H : (0 < Int_part v + 1)%Z).
  { apply lt_IZR. rewrite plus_IZR. lra. }
  lia.
Qed.

Lemma int_at_least (lo : Z) (v : R) :
  (0 <= lo)%Z -> IZR lo <= v -> (lo <= Builtins.int_ v)%Z.
Proof.
  intros H0 Hlo. unfold Builtins.int_.
  assert (Hlo0 : 0 <= IZR lo) by (apply IZR_le in H0; exact H0).
  destruct (Rle_dec 0 v) as [_ | Hn]; [ | lra ].
  destruct (base_Int_part v) as [H1 H2].
  assert (Hlt : (lo < Int_part v + 1)%Z).
  { apply lt_IZR. rewrite plus_IZR. lra. }
  lia.
Qed.

Lemma getitem_in_bounds {A : Type} (l : list A) (i : Z) :
  (0 <= i < Z.of_nat (List.length l))%Z ->
  exists v : A, Builtins.getitem l i = Some v /\ In v l.
Proof.
  intros [H0 Hn]. unfold Builtins.getitem. cbv zeta.
  destruct (Z.leb_spec 0 i) as [_ | ?]; [ | lia ].
  destruct (Z.ltb_spec i (Z.of_nat (List.length l))) as [_ | ?]; [ | lia ].
  destruct (nth_error l (Z.to_nat i)) as [v | ] eqn:E.
  - exists v. split; [reflexivity | ]. eapply nth_error_In, E.
  - apply nth_error_None in E. lia.
Qed.

(** Python raises [IndexError] exactly outside [-len, len). *)
Lemma getitem_none {A : Type} (l : list A) (i : Z) :
  Builtins.getitem l i = None <->
  (i < - Z.of_nat (List.length l) \/ Z.of_nat (List.length l) <= i)%Z.
Proof.
  unfold Builtins.getitem. cbv zeta.
  destruct (Z.leb_spec 0 i) as [H0 | H0].
  - destruct (Z.ltb_spec i (Z.of_nat (List.length l))) as [Hn | Hn].
    + split; [ | lia ].
      intros E. apply nth_error_None in E. lia.
    + split; [ intros _; right; exact Hn | reflexivity ].
  - destruct (Z.leb_spec (- Z.of_nat (List.length l)) i) as [Hn | Hn].
    + split; [ | lia ].
      intros E. apply nth_error_None in E. lia.
    + split; [ intros _; left; exact Hn | reflexivity ].
Qed.

Lemma handle_input_flaps_ok events keys (g : FlightSimulator.t) :
  flaps_ok (FlightSimulator.aircraft g) ->
  flaps_ok
    (FlightSimulator.aircraft (FlightSimulator.handle_input events keys g)).
Proof.
  apply (handle_input_keeps flaps_ok).
  - unfold flaps_ok; cbn. lia.
  - intros a v H; destruct a; exact H.
  - intros a v H; destruct a; exact H.
  - intros a v H; destruct a; exact H.
  - intros a v H; destruct a; exact H.
  - intros a _. unfold flaps_ok. destruct a; cbn.
    apply Z.mod_pos_bound. lia.
  - intros a keys0 H. unfold flaps_ok.
    rewrite (proj1 (proj2 (proj2 (throttle_keys_y keys0 a)))). exact H.
Qed.

Lemma run_flaps_ok (cs : list Sim.call) :
  flaps_ok (FlightSimulator.aircraft (Sim.run cs FlightSimulator.__init__)).
Proof.
  apply (run_keeps flaps_ok (fun _ => True)).
  - intros events keys g. apply handle_input_flaps_ok.
  - intros dt rnd a _ H. unfold flaps_ok.
    destruct (update_controls dt rnd a) as (_ & _ & _ & _ & -> & _).
    exact H.
  - apply Forall_forall. intros; exact I.
  - unfold flaps_ok; cbn. lia.
Qed.

Lemma overlay_some (g : FlightSimulator.t) :
  flaps_ok (FlightSimulator.aircraft g) ->
  exists r : Hud.readings,
    Hud.update_2d_overlay g = Some r /\
    In (Hud.flaps_text r) Hud.flaps_positions /\
    Hud.speed_text r =
      Builtins.int_ (airspeed (FlightSimulator.aircraft g) / KNOTS_TO_MPS) /\
    Hud.alt_feet r =
      Builtins.int_ (y (FlightSimulator.aircraft g) / FEET_TO_METERS) /\
    Hud.hdg_text r = Builtins.int_ (heading (FlightSimulator.aircraft g)) /\
    Hud.roll_text r = Builtins.int_ (roll (FlightSimulator.aircraft g)) /\
    Hud.pitch_text r = Builtins.int_ (pitch (FlightSimulator.aircraft g)) /\
    Hud.fuel_text r = Builtins.int_ (fuel (FlightSimulator.aircraft g)) /\
    Hud.throttle_text r =
      Builtins.int_ (throttle (FlightSimulator.aircraft g) * 100).
Proof.
  intros Hf. unfold Hud.update_2d_overlay. cbv zeta.
  destruct (getitem_in_bounds Hud.flaps_positions
              (flaps (FlightSimulator.aircraft g)) Hf) as (label & E & Hin).
  rewrite E. eexists. split; [reflexivity | ].
  cbn. repeat split. exact Hin.
Qed.

End HudFacts.

(** X12: along every run of the simulator the flap index is one of 0, 1,
    2, 3, so the lookup of the flap label in [update_2d_overlay] never
    raises [IndexError] and the HUD shows one of the four labels. *)
Theorem X12_hud_flaps_lookup_never_fails (cs : list Sim.call) :
  let g := Sim.run cs FlightSimulator.__init__ in
  (0 <= Aircraft.flaps (FlightSimulator.aircraft g) < 4)%Z /\
  exists r : Hud.readings,
    Hud.update_2d_overlay g = Some r /\
    In (Hud.flaps_text r) Hud.flaps_positions.
Proof.
  cbv zeta.
  pose proof (run_flaps_ok cs) as Hf.
  split; [exact Hf | ].
  destruct (overlay_some _ Hf) as (r & E & Hin & _).
  exists r. split; assumption.
Qed.

(** X13: along every run of the simulator whose time steps are positive
    and at most two seconds, the numbers on the HUD are: heading 0..359,
    bank -60..60, pitch -30..30, fuel 0..100, throttle 0..100, a
    non-negative speed, and an altitude of at least 797 ft. *)
Theorem X13_hud_readings_in_range (cs : list Sim.call) :
  Forall (Sim.call_ok (Some 2)) cs ->
  exists r : Hud.readings,
    Hud.update_2d_overlay (Sim.run cs FlightSimulator.__init__) = Some r /\
    (0 <= Hud.hdg_text r <= 359)%Z /\
    (-60 <= Hud.roll_text r <= 60)%Z /\
    (-30 <= Hud.pitch_text r <= 30)%Z /\
    (0 <= Hud.fuel_text r <= 100)%Z /\
    (0 <= Hud.throttle_text r <= 100)%Z /\
    (0 <= Hud.speed_text r)%Z /\
    (797 <= Hud.alt_feet r)%Z.
Proof.
  intros Hok.
  pose proof (run_in_range cs FlightSimulator.__init__ Hok init_in_range)
    as (Hp & Hr & Hh & Ht & Hf & Ha).
  assert (Hy : KIND_ELEVATION * FEET_TO_METERS <=
               Aircraft.y (FlightSimulator.aircraft
                             (Sim.run cs FlightSimulator.__init__))).
  { apply (run_keeps
             (fun a => KIND_ELEVATION * FEET_TO_METERS <= Aircraft.y a)
             (fun _ => True)).
    - intros events keys g. apply handle_input_y_floor.
    - intros dt rnd a _ _. apply update_y_floor.
    - apply Forall_forall. intros; exact I.
    - cbn. lra. }
  destruct (overlay_some _ (run_flaps_ok cs))
    as (r & E & _ & Es & Ea & Eh & Er & Ep & Ef & Et).
  exists r. split; [exact E | ].
  rewrite Eh, Er, Ep, Ef, Et, Es, Ea.
  split; [ apply (int_below 360); lra | ].
  split; [ apply int_bounds; lra | ].
  split; [ apply int_bounds; lra | ].
  split; [ apply int_bounds; lra | ].
  split; [ apply int_bounds; lra | ].
  split.
  - apply int_nonneg. apply Rmult_le_pos; [exact Ha | ].
    left. apply Rinv_0_lt_compat. unfold KNOTS_TO_MPS. lra.
  - apply int_at_least; [lia | ].
    unfold KIND_ELEVATION, FEET_TO_METERS in *.
    apply (Rmult_le_reg_r 0.3048); [lra | ].
    unfold Rdiv. rewrite Rmult_assoc, Rinv_l by lra. lra.
Qed.

Lemma X13_hud_readings_witness :
  exists r : Hud.readings,
    Hud.update_2d_overlay
      (Sim.run [Sim.HandleInput [] Cases.plus_key; Sim.Update 1 0.5]
         FlightSimulator.__init__) = Some r /\
    (0 <= Hud.hdg_text r <= 359)%Z /\
    (-60 <= Hud.roll_text r <= 60)%Z /\
    (-30 <= Hud.pitch_text r <= 30)%Z /\
    (0 <= Hud.fuel_text r <= 100)%Z /\
    (0 <= Hud.throttle_text r <= 100)%Z /\
    (0 <= Hud.speed_text r)%Z /\
    (797 <= Hud.alt_feet r)%Z.
Proof.
  apply X13_hud_readings_in_range.
  repeat constructor; cbn; lra.
Defined.

(** X14: whenever the stall branch of an [update] call fires (the airspeed
    after the throttle lag is below 0.9 times the stall speed), the HUD
    drawn from the state that call returns shows the stall warning. *)
Theorem X14_stall_is_never_unannounced
  (dt rnd : R) (g : FlightSimulator.t) :
  Aircraft.stalled (Aircraft.before_stall dt (FlightSimulator.aircraft g)) ->
  match
    Hud.update_2d_overlay
      (FlightSimulator.set_aircraft
         (Aircraft.update dt rnd (FlightSimulator.aircraft g)) g)
  with
  | Some r => Hud.stall_text r = true
  | None => True
  end.
Proof.
  intros Hs. unfold Aircraft.stalled in Hs.
  rewrite (before_stall_airspeed dt rnd) in Hs.
  unfold Hud.update_2d_overlay. cbv zeta.
  destruct (Builtins.getitem Hud.flaps_positions _); [ | exact I ].
  cbn [Hud.stall_text FlightSimulator.aircraft FlightSimulator.set_aircraft].
  destruct (Rlt_dec
              (Aircraft.airspeed
                 (Aircraft.update dt rnd (FlightSimulator.aircraft g)))
              (CESSNA_STALL_SPEED * KNOTS_TO_MPS * 1.1)) as [_ | Hn];
    [reflexivity | ].
  exfalso. apply Hn.
  unfold CESSNA_STALL_SPEED, KNOTS_TO_MPS in *. lra.
Qed.

Lemma fresh_aircraft_stalls :
  Aircraft.stalled
    (Aircraft.before_stall 0.1
       (FlightSimulator.aircraft FlightSimulator.__init__)).
Proof.
  unfold Aircraft.stalled.
  rewrite (before_stall_airspeed 0.1 0.5), update_airspeed. cbn.
  unfold CESSNA_STALL_SPEED, CESSNA_MAX_SPEED, KNOTS_TO_MPS. lra.
Qed.

Lemma X14_stall_witness :
  match
    Hud.update_2d_overlay
      (FlightSimulator.set_aircraft
         (Aircraft.update 0.1 0.5
            (FlightSimulator.aircraft FlightSimulator.__init__))
         FlightSimulator.__init__)
  with
  | Some r => Hud.stall_text r = true
  | None => True
  end.
Proof.
  exact (X14_stall_is_never_unannounced 0.1 0.5 FlightSimulator.__init__
           fresh_aircraft_stalls).
Defined.

(** ** More on the camera *)

Section CameraFacts.

Import FlightSimulator Invariants.

(** [(a @ b) @ v] is [a @ (b @ v)]. *)
Lemma matvec_matmul (a b : Np.mat3) (v : Np.vec3) :
  Np.matvec (Np.matmul a b) v = Np.matvec a (Np.matvec b v).
Proof.
  destruct a as [[[[a00 a01] a02] [[a10 a11] a12]] [[a20 a21] a22]].
  destruct b as [[[[b00 b01] b02] [[b10 b11] b12]] [[b20 b21] b22]].
  destruct v as [[v0 v1] v2].
  cbn. f_equal; [f_equal | ]; ring.
Qed.

Lemma plane_rotation (c s a b : R) :
  s * s + c * c = 1 ->
  (c * a - s * b) * (c * a - s * b) + (s * a + c * b) * (s * a + c * b) =
  a * a + b * b.
Proof.
  intros H.
  replace ((c * a - s * b) * (c * a - s * b)
           + (s * a + c * b) * (s * a + c * b))
    with ((s * s + c * c) * (a * a + b * b)) by ring.
  rewrite H. ring.
Qed.

Lemma R_heading_norm (t : R) (v : Np.vec3) :
  norm2 (Np.matvec (R_heading t) v) = norm2 v.
Proof.
  destruct v as [[v0 v1] v2]. unfold norm2, R_heading. cbn.
  pose proof (plane_rotation (cos t) (sin t) v0 v2 (sin2_cos2_mult t)) as H.
  replace (cos t * v0 + 0 * v1 + - sin t * v2) with (cos t * v0 - sin t * v2)
    by ring.
  replace (sin t * v0 + 0 * v1 + cos t * v2) with (sin t * v0 + cos t * v2)
    by ring.
  replace (0 * v0 + 1 * v1 + 0 * v2) with v1 by ring.
  lra.
Qed.

Lemma R_pitch_norm (t : R) (v : Np.vec3) :
  norm2 (Np.matvec (R_pitch t) v) = norm2 v.
Proof.
  destruct v as [[v0 v1] v2]. unfold norm2, R_pitch. cbn.
  pose proof (plane_rotation (cos t) (- sin t) v1 v2) as H.
  replace (- sin t * - sin t + cos t * cos t) with (sin t * sin t + cos t * cos t)
    in H by ring.
  specialize (H (sin2_cos2_mult t)).
  replace (0 * v0 + cos t * v1 + sin t * v2) with (cos t * v1 - - sin t * v2)
    by ring.
  replace (0 * v0 + - sin t * v1 + cos t * v2) with (- sin t * v1 + cos t * v2)
    by ring.
  replace (1 * v0 + 0 * v1 + 0 * v2) with v0 by ring.
  lra.
Qed.

Lemma R_roll_norm (t : R) (v : Np.vec3) :
  norm2 (Np.matvec (R_roll t) v) = norm2 v.
Proof.
  destruct v as [[v0 v1] v2]. unfold norm2, R_roll. cbn.
  pose proof (plane_rotation (cos t) (- sin t) v0 v1) as H.
  replace (- sin t * - sin t + cos t * cos t) with (sin t * sin t + cos t * cos t)
    in H by ring.
  specialize (H (sin2_cos2_mult t)).
  replace (cos t * v0 + sin t * v1 + 0 * v2) with (cos t * v0 - - sin t * v1)
    by ring.
  replace (- sin t * v0 + cos t * v1 + 0 * v2) with (- sin t * v0 + cos t * v1)
    by ring.
  replace (0 * v0 + 0 * v1 + 1 * v2) with v2 by ring.
  lra.
Qed.

Lemma camera_rotation_steps (a : Aircraft.t) (v : Np.vec3) :
  Np.matvec (camera_rotation a) v =
  Np.matvec (R_roll (Py.radians (Aircraft.roll a)))
    (Np.matvec (R_pitch (Py.radians (Aircraft.pitch a)))
       (Np.matvec (R_heading (Py.radians (Aircraft.heading a))) v)).
Proof.
  unfold camera_rotation. cbv zeta.
  rewrite !matvec_matmul. reflexivity.
Qed.

Lemma camera_rotation_norm (a : Aircraft.t) (v : Np.vec3) :
  norm2 (Np.matvec (camera_rotation a) v) = norm2 v.
Proof.
  rewrite camera_rotation_steps, R_roll_norm, R_pitch_norm, R_heading_norm.
  reflexivity.
Qed.

Lemma trig_whole_turns (v : R) (k : Z) :
  sin (v - 2 * PI * IZR k) = sin v /\ cos (v - 2 * PI * IZR k) = cos v.
Proof.
  destruct (Z_le_gt_dec 0 k) as [Hk | Hk].
  - set (n := Z.to_nat k).
    assert (E : IZR k = INR n)
      by (unfold n; rewrite INR_IZR_INZ, Z2Nat.id by lia; reflexivity).
    rewrite E.
    rewrite <- (sin_period (v - 2 * PI * INR n) n).
    rewrite <- (cos_period (v - 2 * PI * INR n) n).
    replace (v - 2 * PI * INR n + 2 * INR n * PI) with v by ring.
    split; reflexivity.
  - set (n := Z.to_nat (- k)).
    assert (E : IZR k = - INR n).
    { unfold n. rewrite INR_IZR_INZ, Z2Nat.id by lia.
      rewrite opp_IZR. ring. }
    rewrite E.
    replace (v - 2 * PI * - INR n) with (v + 2 * INR n * PI) by ring.
    split; [apply sin_period | apply cos_period].
Qed.

Lemma radians_mod_360 (h : R) :
  Py.radians (Py.mod_ h 360) =
  Py.radians h - 2 * PI * IZR (Int_part (h / 360)).
Proof. unfold Py.radians, Py.mod_. field. Qed.

End CameraFacts.

(** X15: the product [R_roll @ R_pitch @ R_heading] applied to a vector
    turns it by the heading matrix first, then by the pitch matrix, then
    by the roll matrix. *)
Theorem X15_camera_rotation_applies_heading_first
  (a : Aircraft.t) (v : Np.vec3) :
  Np.matvec (FlightSimulator.camera_rotation a) v =
  Np.matvec (FlightSimulator.R_roll (Py.radians (Aircraft.roll a)))
    (Np.matvec (FlightSimulator.R_pitch (Py.radians (Aircraft.pitch a)))
       (Np.matvec
          (FlightSimulator.R_heading (Py.radians (Aircraft.heading a))) v)).
Proof. apply camera_rotation_steps. Qed.

(** X16: whatever the attitude, the eye computed by [render] is at the
    distance of the eye offset from the aircraft position: the squared
    distance is the squared length of [eye_offset], which is 0.1 for the
    offset of a fresh simulator. *)
Theorem X16_eye_stays_at_offset_distance (g : FlightSimulator.t) :
  let a := FlightSimulator.aircraft g in
  let '(eye_x, eye_y, eye_z) := FlightSimulator.camera_eye g in
  (eye_x - Aircraft.x a) ^ 2 + (eye_y - Aircraft.y a) ^ 2 +
  (eye_z - Aircraft.z a) ^ 2 =
  Invariants.norm2 (FlightSimulator.eye_offset g) /\
  Invariants.norm2 (FlightSimulator.eye_offset FlightSimulator.__init__) = 0.1.
Proof.
  cbv zeta. unfold FlightSimulator.camera_eye. cbv zeta.
  pose proof (camera_rotation_norm (FlightSimulator.aircraft g)
                (FlightSimulator.eye_offset g)) as H.
  destruct (Np.matvec
              (FlightSimulator.camera_rotation (FlightSimulator.aircraft g))
              (FlightSimulator.eye_offset g)) as [[e0 e1] e2].
  split.
  - rewrite <- H. unfold Invariants.norm2. cbn. ring.
  - unfold Invariants.norm2. cbn. lra.
Qed.

(** X17: the camera rotation computed from a heading wrapped to 0-360 is
    the one computed from the heading before the wrap: normalising the
    heading never turns the view. *)
Theorem X17_heading_wrap_does_not_turn_the_camera (a : Aircraft.t) :
  FlightSimulator.camera_rotation
    (Aircraft.set_heading (Py.mod_ (Aircraft.heading a) 360) a) =
  FlightSimulator.camera_rotation a.
Proof.
  unfold FlightSimulator.camera_rotation. cbv zeta.
  destruct a as [x0 y0 z0 p r h sp vs th el ai ru fl rp fu ge]. project.
  unfold FlightSimulator.R_heading. cbv zeta.
  rewrite radians_mod_360.
  destruct (trig_whole_turns (Py.radians h) (Int_part (h / 360))) as [-> ->].
  reflexivity.
Qed.

(** ** The instrument circles *)

Section Circle.

Import Scene.

Variables (x y z radius : R).

Lemma circle_segment_on_circle (segments i : nat) (v : Np.vec3) :
  In v (circle_segment x y z radius segments i) ->
  let '(vx, vy, vz) := v in
  (vx - x) ^ 2 + (vz - z) ^ 2 = radius ^ 2 /\ vy = y.
Proof.
  unfold circle_segment. cbv zeta.
  intros [<- | [<- | []]]; split; try reflexivity.
  - pose proof (sin2_cos2_mult (2 * PI * INR i / INR segments)) as H.
    replace ((x + radius * cos (2 * PI * INR i / INR segments) - x) ^ 2 +
             (z + radius * sin (2 * PI * INR i / INR segments) - z) ^ 2)
      with (radius ^ 2 *
            (sin (2 * PI * INR i / INR segments)
               * sin (2 * PI * INR i / INR segments)
             + cos (2 * PI * INR i / INR segments)
               * cos (2 * PI * INR i / INR segments))) by ring.
    rewrite H. ring.
  - pose proof (sin2_cos2_mult (2 * PI * INR (i + 1) / INR segments)) as H.
    replace ((x + radius * cos (2 * PI * INR (i + 1) / INR segments) - x) ^ 2 +
             (z + radius * sin (2 * PI * INR (i + 1) / INR segments) - z) ^ 2)
      with (radius ^ 2 *
            (sin (2 * PI * INR (i + 1) / INR segments)
               * sin (2 * PI * INR (i + 1) / INR segments)
             + cos (2 * PI * INR (i + 1) / INR segments)
               * cos (2 * PI * INR (i + 1) / INR segments))) by ring.
    rewrite H. ring.
Qed.

Lemma circle_segment_chained (segments i : nat) :
  nth 1 (circle_segment x y z radius segments i) (0, 0, 0) =
  nth 0 (circle_segment x y z radius segments (S i)) (0, 0, 0).
Proof.
  unfold circle_segment. cbv zeta. cbn [nth].
  replace (i + 1)%nat with (S i) by lia. reflexivity.
Qed.

Lemma circle_closed :
  nth 1 (circle_segment x y z radius 20 19) (0, 0, 0) =
  nth 0 (circle_segment x y z radius 20 0) (0, 0, 0).
Proof.
  unfold circle_segment. cbv zeta. cbn [nth].
  replace (2 * PI * INR (19 + 1) / INR 20) with (2 * PI).
  - replace (2 * PI * INR 0 / INR 20) with 0.
    + rewrite cos_2PI, sin_2PI, cos_0, sin_0. reflexivity.
    + cbn [INR]. unfold Rdiv. ring.
  - replace (19 + 1)%nat with 20%nat by reflexivity.
    assert (H : INR 20 = 20) by (rewrite INR_IZR_INZ; reflexivity).
    rewrite H. field.
Qed.

End Circle.

(** X18: [draw_instrument_circle] emits 40 vertices, the two ends of 20
    segments; every vertex lies at the given height on the circle of the
    given radius around [(x, z)]; each segment starts where the one before
    ended, and the last one ends where the first one started. *)
Theorem X18_instrument_circle_is_a_closed_polygon (x y z radius : R) :
  List.length (Scene.draw_instrument_circle x y z radius) = 40%nat /\
  (forall v : Np.vec3,
     In v (Scene.draw_instrument_circle x y z radius) ->
     let '(vx, vy, vz) := v in
     (vx - x) ^ 2 + (vz - z) ^ 2 = radius ^ 2 /\ vy = y) /\
  (forall i : nat,
     nth 1 (Scene.circle_segment x y z radius 20 i) (0, 0, 0) =
     nth 0 (Scene.circle_segment x y z radius 20 (S i)) (0, 0, 0)) /\
  nth 1 (Scene.circle_segment x y z radius 20 19) (0, 0, 0) =
  nth 0 (Scene.circle_segment x y z radius 20 0) (0, 0, 0).
Proof.
  split; [reflexivity | ].
  split.
  - intros v Hin. unfold Scene.draw_instrument_circle in Hin. cbv zeta in Hin.
    apply in_flat_map in Hin. destruct Hin as (i & _ & Hv).
    exact (circle_segment_on_circle x y z radius 20 i v Hv).
  - split; [ intros i; apply circle_segment_chained | apply circle_closed ].
Qed.

(** ** The runway and the terrain *)

Section World.

Import Scene Invariants.

Lemma range_members (start stop step i : Z) :
  (0 < step)%Z ->
  In i (Builtins.range start stop step) ->
  (start <= i < stop)%Z /\ ((i - start) mod step = 0)%Z.
Proof.
  intros Hs Hin. unfold Builtins.range in Hin.
  apply in_map_iff in Hin. destruct Hin as (k & <- & Hk).
  apply in_seq in Hk. destruct Hk as [_ Hk]. cbn in Hk.
  assert (Hq : (Z.of_nat k < (stop - start + step - 1) / step)%Z) by lia.
  pose proof (Z.mul_div_le (stop - start + step - 1) step Hs) as Hm.
  split; [nia | ].
  replace (start + step * Z.of_nat k - start)%Z with (Z.of_nat k * step)%Z
    by ring.
  apply Z.mod_mul. lia.
Qed.

Lemma int_of (n : Z) (v : R) :
  0 <= v -> IZR n <= v < IZR n + 1 -> Builtins.int_ v = n.
Proof.
  intros H0 [Hlo Hhi]. unfold Builtins.int_.
  destruct (Rle_dec 0 v) as [_ | Hn]; [ | contradiction ].
  symmetry. apply Int_part_spec. lra.
Qed.

Lemma int_runway_length : Builtins.int_ runway_length = 1524%Z.
Proof.
  apply int_of; unfold runway_length, FEET_TO_METERS; lra.
Qed.

Lemma int_two_dashes : Builtins.int_ (dash_length * 2) = 30%Z.
Proof.
  apply int_of; unfold dash_length, FEET_TO_METERS; lra.
Qed.

Lemma int_half_width : Builtins.int_ (runway_width / 2) = 15%Z.
Proof.
  apply int_of; unfold runway_width, FEET_TO_METERS; lra.
Qed.

Lemma int_two_widths : Builtins.int_ (dash_width * 2) = 1%Z.
Proof.
  apply int_of; unfold dash_width, FEET_TO_METERS; lra.
Qed.

Lemma centerline_dash_painted (i : Z) (v : Np.vec3) :
  (0 <= i < 1524)%Z -> (i mod 30 = 0)%Z ->
  In v (centerline_dash i) -> painted_on_runway v.
Proof.
  intros Hi Hm Hin.
  assert (Hle : (i <= 1500)%Z).
  { pose proof (Z.div_mod i 30 ltac:(lia)) as E. lia. }
  apply IZR_le in Hle. destruct Hi as [Hi0 _]. apply IZR_le in Hi0.
  unfold centerline_dash in Hin.
  destruct Hin as [<- | [<- | [<- | [<- | []]]]];
    unfold painted_on_runway, runway_width, runway_length, dash_width,
      dash_length, FEET_TO_METERS; repeat split; lra.
Qed.

Lemma threshold_mark_painted (i : Z) (v : Np.vec3) :
  (-15 <= i < 15)%Z -> In v (threshold_mark i) -> painted_on_runway v.
Proof.
  intros [Hlo Hhi] Hin.
  assert (Hhi' : (i <= 14)%Z) by lia.
  apply IZR_le in Hlo. apply IZR_le in Hhi'.
  unfold threshold_mark in Hin.
  destruct Hin as [<- | [<- | [<- | [<- | []]]]];
    unfold painted_on_runway, runway_width, runway_length, dash_width,
      FEET_TO_METERS; repeat split; lra.
Qed.

Lemma sqrt_below_2000 (n : Z) :
  (0 <= n)%Z -> (sqrt (IZR n) < 2000 <-> (n < 4000000)%Z).
Proof.
  intros Hn.
  assert (H2000 : sqrt 4000000 = 2000).
  { replace 4000000 with (2000 * 2000) by lra. apply sqrt_square. lra. }
  apply IZR_le in Hn.
  split.
  - intros Hlt. apply lt_IZR.
    destruct (Rlt_dec (IZR n) 4000000) as [ | Hge]; [assumption | ].
    exfalso.
    assert (sqrt 4000000 <= sqrt (IZR n)) by (apply sqrt_le_1; lra).
    lra.
  - intros Hlt. apply IZR_lt in Hlt.
    rewrite <- H2000. apply sqrt_lt_1; lra.
Qed.

Lemma terrain_heights_cases (x z : Z) (r1 r2 r3 r4 : R) :
  ((x * x + z * z < 4000000)%Z /\
   terrain_heights x z r1 r2 r3 r4 = (0, 0, 0, 0)) \/
  ((4000000 <= x * x + z * z)%Z /\
   terrain_heights x z r1 r2 r3 r4 =
   (r1 * 10 - 5, r2 * 10 - 5, r3 * 10 - 5, r4 * 10 - 5)).
Proof.
  unfold terrain_heights. cbv zeta.
  assert (Hn : (0 <= x * x + z * z)%Z) by nia.
  destruct (Rlt_dec (sqrt (IZR (x * x + z * z))) 2000) as [H | H].
  - left. split; [ apply sqrt_below_2000; assumption | reflexivity ].
  - right. split; [ | reflexivity ].
    destruct (Z_lt_ge_dec (x * x + z * z) 4000000) as [Hlt | Hge]; [ | lia ].
    exfalso. apply H. apply sqrt_below_2000; assumption.
Qed.

Lemma terrain_cell_near (x z : Z) (r1 r2 r3 r4 : R) (v : Np.vec3) :
  0 <= r1 < 1 -> 0 <= r2 < 1 -> 0 <= r3 < 1 -> 0 <= r4 < 1 ->
  In v (terrain_cell x z r1 r2 r3 r4) -> near_field_elevation v.
Proof.
  intros H1 H2 H3 H4. unfold terrain_cell.
  destruct (terrain_heights_cases x z r1 r2 r3 r4) as [[_ ->] | [_ ->]];
    intros [<- | [<- | [<- | [<- | []]]]];
    unfold near_field_elevation; lra.
Qed.

Lemma terrain_from_near (rnd : nat -> R) (cs : list (Z * Z)) (k : nat)
  (v : Np.vec3) :
  (forall n : nat, 0 <= rnd n < 1) ->
  In v (terrain_from rnd k cs) -> near_field_elevation v.
Proof.
  intros Hrnd Hin. unfold terrain_from in Hin.
  apply in_concat in Hin. destruct Hin as (cell & Hcell & Hv).
  apply in_map_iff in Hcell. destruct Hcell as ([j [cx cz]] & <- & _).
  exact (terrain_cell_near cx cz _ _ _ _ v
           (Hrnd _) (Hrnd _) (Hrnd _) (Hrnd _) Hv).
Qed.

Lemma range_40 :
  List.length (Builtins.range (- terrain_size) terrain_size grid_size)
  = 40%nat.
Proof. reflexivity. Qed.

Lemma terrain_from_length (rnd : nat -> R) (cs : list (Z * Z)) :
  forall k : nat,
    List.length (terrain_from rnd k cs) = (4 * List.length cs)%nat.
Proof.
  unfold terrain_from.
  induction cs as [ | [cx cz] cs IH]; intros k; [reflexivity | ].
  cbn [List.length seq combine map concat].
  rewrite length_app, IH.
  unfold terrain_cell. destruct (terrain_heights cx cz _ _ _ _) as [[[? ?] ?] ?].
  cbn [List.length]. lia.
Qed.

End World.

(** X19: the centerline of [create_world] has 51 dashes and the threshold
    has 30 marks, and every vertex of them lies on the runway rectangle
    (within its width and its length), 0.1 m above the runway surface. *)
Theorem X19_runway_markings_lie_on_the_runway :
  List.length Scene.centerline = (4 * 51)%nat /\
  List.length Scene.threshold_marks = (4 * 30)%nat /\
  Forall Invariants.painted_on_runway Scene.centerline /\
  Forall Invariants.painted_on_runway Scene.threshold_marks.
Proof.
  unfold Scene.centerline, Scene.threshold_marks.
  rewrite int_runway_length, int_two_dashes, int_half_width, int_two_widths.
  split; [reflexivity | ]. split; [reflexivity | ].
  split; apply Forall_forall; intros v Hin;
    apply in_flat_map in Hin; destruct Hin as (i & Hi & Hv);
    apply range_members in Hi; try lia; destruct Hi as [Hi Hm].
  - apply (centerline_dash_painted i v); [lia | | exact Hv].
    rewrite Z.sub_0_r in Hm. exact Hm.
  - apply (threshold_mark_painted i v); [lia | exact Hv].
Qed.

(** X20: the terrain of [create_world] has 1600 cells of four vertices;
    with every random draw in the range of [np.random.random()], every
    vertex is within 5 m of the field elevation; and a cell whose corner
    [(x, z)] is less than 2000 m from the origin is flat, at the field
    elevation exactly. *)
Theorem X20_terrain_heights (rnd : nat -> R) :
  (forall n : nat, 0 <= rnd n < 1) ->
  List.length (Scene.terrain rnd) = (4 * 1600)%nat /\
  Forall Invariants.near_field_elevation (Scene.terrain rnd) /\
  (forall (x z : Z) (r1 r2 r3 r4 : R) (v : Np.vec3),
     (x * x + z * z < 2000 * 2000)%Z ->
     In v (Scene.terrain_cell x z r1 r2 r3 r4) ->
     snd (fst v) = KIND_ELEVATION * FEET_TO_METERS).
Proof.
  intros Hrnd. split; [ | split ].
  - unfold Scene.terrain. rewrite terrain_from_length.
    unfold Scene.terrain_corners. rewrite length_prod, range_40. reflexivity.
  - apply Forall_forall. intros v Hin.
    exact (terrain_from_near rnd Scene.terrain_corners 0 v Hrnd Hin).
  - intros x z r1 r2 r3 r4 v Hnear. unfold Scene.terrain_cell.
    destruct (terrain_heights_cases x z r1 r2 r3 r4) as [[_ ->] | [Hfar _]];
      [ | lia ].
    intros [<- | [<- | [<- | [<- | []]]]]; cbn; lra.
Qed.

Lemma X20_terrain_witness :
  Forall Invariants.near_field_elevation (Scene.terrain (fun _ => 0.5)).
Proof.
  apply (X20_terrain_heights (fun _ => 0.5)).
  intros n. lra.
Defined.

(** X21: the flat zone does not cover the whole runway.  The far left
    corner of the runway surface lies over the terrain cell with corner
    (-1000, -2000), which is one of the cells of the double loop and is
    2000 m or more from the origin: its four heights are the random ones,
    up to 5 m above the field elevation, while the runway surface is
    0.1 m above it. *)
Theorem X21_runway_end_outside_the_flat_zone :
  In (-1000, -2000)%Z Scene.terrain_corners /\
  (forall r1 r2 r3 r4 : R,
     Scene.terrain_heights (-1000) (-2000) r1 r2 r3 r4 =
     (r1 * 10 - 5, r2 * 10 - 5, r3 * 10 - 5, r4 * 10 - 5)) /\
  In (- Scene.runway_width / 2, KIND_ELEVATION * FEET_TO_METERS + 0.1,
      - Scene.runway_length) Scene.runway_surface /\
  IZR (-1000) <= - Scene.runway_width / 2 <= IZR (-1000 + Scene.grid_size) /\
  IZR (-2000) <= - Scene.runway_length <= IZR (-2000 + Scene.grid_size).
Proof.
  split.
  { unfold Scene.terrain_corners. apply in_prod.
    - unfold Builtins.range. apply in_map_iff.
      exists 19%nat. split; [reflexivity | ].
      apply in_seq. cbn. lia.
    - unfold Builtins.range. apply in_map_iff.
      exists 18%nat. split; [reflexivity | ].
      apply in_seq. cbn. lia. }
  split.
  { intros r1 r2 r3 r4.
    destruct (terrain_heights_cases (-1000) (-2000) r1 r2 r3 r4)
      as [[Hnear _] | [_ E]]; [ lia | exact E ]. }
  split.
  { unfold Scene.runway_surface. cbn. right. right. right. left.
    reflexivity. }
  unfold Scene.runway_width, Scene.runway_length, Scene.grid_size,
    FEET_TO_METERS.
  split; split; cbn; lra.
Qed.

(** ** What the flight does not depend on *)

Ltac open_flights s1 s2 H :=
  destruct s1, s2; unfold Invariants.same_flight in H |- *; cbn in H;
  injection H as -> -> -> -> -> -> -> -> -> -> -> ->.

Section FlightFrame.

Import Aircraft Notions Invariants.

Lemma same_flight_set (f r : R) (fl : Z) (gd : bool) (s : t) :
  same_flight (set_gear_down gd (set_flaps fl (set_rpm r (set_fuel f s)))) s.
Proof. destruct s; reflexivity. Qed.

Lemma same_flight_fields (s1 s2 : t) :
  same_flight s1 s2 ->
  position s1 = position s2 /\
  pitch s1 = pitch s2 /\ roll s1 = roll s2 /\ heading s1 = heading s2 /\
  airspeed s1 = airspeed s2 /\ vertical_speed s1 = vertical_speed s2.
Proof. intros H. open_flights s1 s2 H. repeat split. Qed.

Lemma after_ground_flight (dt : R) (s1 s2 : t) :
  same_flight s1 s2 -> same_flight (after_ground dt s1) (after_ground dt s2).
Proof.
  intros H. open_flights s1 s2 H.
  unfold after_ground, ground_collision. by_cases.
Qed.

Lemma attitude_flight (dt : R) (s1 s2 : t) :
  same_flight s1 s2 ->
  same_flight
    (limit_attitude
       (normalize_heading (banking_effect dt (apply_controls dt s1))))
    (limit_attitude
       (normalize_heading (banking_effect dt (apply_controls dt s2)))).
Proof. intros H. open_flights s1 s2 H. reflexivity. Qed.

Lemma engine_flight (dt : R) (s1 s2 : t) :
  same_flight s1 s2 ->
  same_flight
    (adjust_vertical_speed dt (update_rpm dt (apply_throttle dt s1)))
    (adjust_vertical_speed dt (update_rpm dt (apply_throttle dt s2))).
Proof. intros H. open_flights s1 s2 H. reflexivity. Qed.

Lemma fuel_consumption_flight (dt : R) (s1 s2 : t) :
  same_flight s1 s2 ->
  same_flight (fuel_consumption dt s1) (fuel_consumption dt s2).
Proof. intros H. open_flights s1 s2 H. reflexivity. Qed.

Lemma fuel_empty_flight (dt : R) (s1 s2 : t) :
  same_flight s1 s2 -> same_flight (fuel_empty dt s1) (fuel_empty dt s2).
Proof.
  intros H. open_flights s1 s2 H. unfold fuel_empty.
  cbn.
  repeat match goal with
  | |- context [if ?c then _ else _] => destruct c; cbn
  end; reflexivity.
Qed.

Lemma level_out_flight (s1 s2 : t) :
  same_flight s1 s2 -> same_flight (level_out s1) (level_out s2).
Proof. intros H. open_flights s1 s2 H. unfold level_out. by_cases. Qed.

Lemma stall_behavior_flight (dt rnd : R) (s1 s2 : t) :
  same_flight s1 s2 ->
  same_flight (stall_behavior dt rnd s1) (stall_behavior dt rnd s2).
Proof.
  intros H. open_flights s1 s2 H. unfold stall_behavior, stalled_dec.
  by_cases.
Qed.

Lemma update_flight (dt rnd : R) (s1 s2 : t) :
  same_flight s1 s2 -> same_flight (update dt rnd s1) (update dt rnd s2).
Proof.
  intros H. unfold update, before_stall.
  apply stall_behavior_flight, level_out_flight, fuel_empty_flight,
    fuel_consumption_flight, engine_flight, attitude_flight,
    after_ground_flight, H.
Qed.

Lemma updates_flight (steps : list (R * R)) :
  forall s1 s2 : t,
    same_flight s1 s2 ->
    same_flight (Sim.updates steps s1) (Sim.updates steps s2).
Proof.
  induction steps as [ | [dt rnd] steps IH]; intros s1 s2 H; cbn;
    [exact H | ].
  apply IH, update_flight, H.
Qed.

End FlightFrame.

(** X22: [update] never reads the fuel, the engine speed, the flaps or the
    landing gear for anything but the fuel and the engine speed
    themselves: replacing them by any other values leaves position,
    pitch, roll, heading, airspeed and vertical speed unchanged after
    every sequence of [update] calls.  In particular an empty tank does
    not change the flight. *)
Theorem X22_flight_ignores_fuel_engine_flaps_and_gear
  (steps : list (R * R)) (s : Aircraft.t)
  (f r : R) (fl : Z) (gd : bool) :
  let s' :=
    Aircraft.set_gear_down gd
      (Aircraft.set_flaps fl (Aircraft.set_rpm r (Aircraft.set_fuel f s))) in
  Notions.position (Sim.updates steps s') =
    Notions.position (Sim.updates steps s) /\
  Aircraft.pitch (Sim.updates steps s') =
    Aircraft.pitch (Sim.updates steps s) /\
  Aircraft.roll (Sim.updates steps s') =
    Aircraft.roll (Sim.updates steps s) /\
  Aircraft.heading (Sim.updates steps s') =
    Aircraft.heading (Sim.updates steps s) /\
  Aircraft.airspeed (Sim.updates steps s') =
    Aircraft.airspeed (Sim.updates steps s) /\
  Aircraft.vertical_speed (Sim.updates steps s') =
    Aircraft.vertical_speed (Sim.updates steps s).
Proof.
  cbv zeta.
  apply same_flight_fields, updates_flight, same_flight_set.
Qed.

(** ** Standing still, turning, and ranges from any state *)

Section Parked.

Import Aircraft Notions Invariants.

Lemma parked_clear_of_ground (dt : R) (s : t) :
  parked s -> ~ hits_ground dt s.
Proof.
  intros (Ha & _ & _ & _ & Hy). unfold hits_ground.
  destruct s as [x0 y0 z0 p r h a vs th el ai ru fl rp fu ge].
  cbn in Ha, Hy. subst a. project. lra.
Qed.

Lemma update_parked (dt rnd : R) (s : t) :
  parked s ->
  parked (update dt rnd s) /\
  position (update dt rnd s) = position s /\
  vertical_speed (update dt rnd s) + 19.6 =
    (vertical_speed s + 19.6) * (1 - dt * 0.5).
Proof.
  intros Hpk.
  pose proof (parked_clear_of_ground dt s Hpk) as Hno.
  destruct Hpk as (Ha & Hth & Hp & Hel & Hy).
  assert (Ea : airspeed (update dt rnd s) = 0)
    by (rewrite update_airspeed, Ha, Hth; lra).
  assert (Ep : pitch (update dt rnd s) = 0).
  { rewrite update_pitch, (after_ground_no_hit dt s Hno).
    replace (pitch (integrate_position dt s)) with (pitch s)
      by (destruct s; reflexivity).
    rewrite Hp, Hel.
    replace (0 + 0 * CESSNA_PITCH_RATE * dt) with 0 by lra.
    apply clamp_inside. lra. }
  assert (Ey : y (update dt rnd s) = y s).
  { rewrite update_y, Ha.
    destruct (Rlt_dec (y s + 0 * sin (Py.radians (pitch s)) * dt)
                      (KIND_ELEVATION * FEET_TO_METERS)); lra. }
  assert (Ex : x (update dt rnd s) = x s) by (rewrite update_x, Ha; lra).
  assert (Ez : z (update dt rnd s) = z s) by (rewrite update_z, Ha; lra).
  destruct (update_controls dt rnd s) as (Eth & Eel & _).
  split; [ | split ].
  - unfold parked. rewrite Ea, Ep, Eth, Eel, Ey. repeat split; assumption.
  - unfold position. rewrite Ex, Ey, Ez. reflexivity.
  - rewrite update_vertical_speed_eq, (after_ground_no_hit dt s Hno).
    replace (vertical_speed (integrate_position dt s))
      with (vertical_speed s) by (destruct s; reflexivity).
    rewrite (target_vs_level _ Ep), stall_sink_stalled; [lra | ].
    unfold stalled. rewrite Ea.
    unfold CESSNA_STALL_SPEED, KNOTS_TO_MPS. lra.
Qed.

Lemma ticks_parked (n : nat) (dt : R) (rnd : nat -> R) (s : t) :
  parked s ->
  parked (Sim.ticks n dt rnd s) /\
  position (Sim.ticks n dt rnd s) = position s /\
  vertical_speed (Sim.ticks n dt rnd s) + 19.6 =
    (vertical_speed s + 19.6) * (1 - dt * 0.5) ^ n.
Proof.
  intros Hpk. induction n as [ | n (IHp & IHpos & IHvs)].
  - cbn. repeat split; try apply Hpk. lra.
  - cbn [Sim.ticks pow].
    destruct (update_parked dt (rnd n) _ IHp) as (Hp' & Hpos' & Hvs').
    split; [exact Hp' | ].
    split; [rewrite Hpos'; exact IHpos | ].
    rewrite Hvs', IHvs. ring.
Qed.

Lemma bank_turns (dt : R) (s : t) :
  rudder s = 0 -> 0 < dt ->
  (0 < roll s + aileron s * CESSNA_ROLL_RATE * dt < 180 ->
   0 < heading_increment dt s) /\
  (-180 < roll s + aileron s * CESSNA_ROLL_RATE * dt < 0 ->
   heading_increment dt s < 0).
Proof.
  intros Hr Hdt. unfold heading_increment, Py.radians. rewrite Hr.
  set (b := roll s + aileron s * CESSNA_ROLL_RATE * dt).
  pose proof PI_RGT_0 as Hpi.
  split; intros [Hlo Hhi].
  - assert (0 < sin (b * (PI / 180))).
    { apply sin_gt_0; nra. }
    nra.
  - assert (sin (b * (PI / 180)) < 0).
    { apply sin_lt_0_var; nra. }
    nra.
Qed.

End Parked.

(** X23: an aircraft standing still (no airspeed, throttle closed, pitch
    and elevator centred, not below the ground) stays where it is and
    keeps a zero airspeed through any number of [update] calls, while its
    vertical speed moves towards -19.6 m/s: after [n] calls it is
    [-19.6 + (vertical_speed + 19.6) * (1 - dt * 0.5) ^ n]. *)
Theorem X23_parked_aircraft_reads_a_sinking_vertical_speed
  (n : nat) (dt : R) (rnd : nat -> R) (s : Aircraft.t) :
  Invariants.parked s ->
  Notions.position (Sim.ticks n dt rnd s) = Notions.position s /\
  Aircraft.airspeed (Sim.ticks n dt rnd s) = 0 /\
  Aircraft.vertical_speed (Sim.ticks n dt rnd s) + 19.6 =
    (Aircraft.vertical_speed s + 19.6) * (1 - dt * 0.5) ^ n.
Proof.
  intros Hpk.
  destruct (ticks_parked n dt rnd s Hpk) as (Hp & Hpos & Hvs).
  split; [exact Hpos | ]. split; [apply Hp | exact Hvs].
Qed.

Lemma fresh_aircraft_parked : Invariants.parked Aircraft.__init__.
Proof. unfold Invariants.parked. cbn. repeat split; lra. Qed.

Lemma X23_parked_witness :
  Notions.position (Sim.ticks 2 0.1 (fun _ => 0.5) Aircraft.__init__) =
    Notions.position Aircraft.__init__ /\
  Aircraft.airspeed (Sim.ticks 2 0.1 (fun _ => 0.5) Aircraft.__init__) = 0 /\
  Aircraft.vertical_speed (Sim.ticks 2 0.1 (fun _ => 0.5) Aircraft.__init__)
    + 19.6 =
    (Aircraft.vertical_speed Aircraft.__init__ + 19.6) * (1 - 0.1 * 0.5) ^ 2.
Proof.
  exact (X23_parked_aircraft_reads_a_sinking_vertical_speed 2 0.1
           (fun _ => 0.5) Aircraft.__init__ fresh_aircraft_parked).
Defined.

(** X24: with the rudder centred and a positive time step, the heading
    increment of a call has the sign of the bank: positive when the roll
    after the aileron input and before the roll limit is between 0 and
    180 degrees, negative when it is between -180 and 0. *)
Theorem X24_bank_decides_the_turn (dt : R) (s : Aircraft.t) :
  Aircraft.rudder s = 0 ->
  0 < dt ->
  (0 < Aircraft.roll s + Aircraft.aileron s * CESSNA_ROLL_RATE * dt < 180 ->
   0 < Notions.heading_increment dt s) /\
  (-180 < Aircraft.roll s + Aircraft.aileron s * CESSNA_ROLL_RATE * dt < 0 ->
   Notions.heading_increment dt s < 0).
Proof. apply bank_turns. Qed.

Lemma X24_bank_witness :
  0 < Notions.heading_increment 0.1 (Aircraft.set_roll 20 Cases.cruising).
Proof.
  apply (X24_bank_decides_the_turn 0.1 (Aircraft.set_roll 20 Cases.cruising)).
  - reflexivity.
  - lra.
  - cbn. unfold CESSNA_ROLL_RATE. lra.
Defined.

(** X25: one call of [update] brings the attitude into range from any
    state, in range or not, and for any time step: on return the pitch is
    within -30..30 and the heading is at least 0 and below 360; and for a
    positive time step of at most eleven seconds and a draw in the range
    of [np.random.random()] the roll is within -60..60. *)
Theorem X25_update_brings_attitude_into_range
  (dt rnd : R) (s : Aircraft.t) :
  -30 <= Aircraft.pitch (Aircraft.update dt rnd s) <= 30 /\
  0 <= Aircraft.heading (Aircraft.update dt rnd s) < 360 /\
  (0 < dt <= 11 -> 0 <= rnd < 1 ->
   -60 <= Aircraft.roll (Aircraft.update dt rnd s) <= 60).
Proof.
  split; [ rewrite update_pitch; apply clamp_range; lra | ].
  split; [ apply heading_range | ].
  intros Hdt Hrnd. apply update_roll_bound; assumption.
Qed.

Lemma X25_attitude_witness :
  -60 <= Aircraft.roll
           (Aircraft.update 11 0.9 (Aircraft.set_roll 500 Cases.cruising))
    <= 60.
Proof.
  apply (X25_update_brings_attitude_into_range 11 0.9
           (Aircraft.set_roll 500 Cases.cruising)); lra.
Defined.
